(** * Policy-gated credential verification: the verifier examples

    A shallow embedding of the verifier scripts of the two example
    projects (vehicle risk band, credit score) and of the reference
    scorer of the risk demo, with the properties of the policy
    validator, the freshness check, the claim interpreter and the
    shared-proof orchestration proved over it.

    Conventions of the embedding:
    - a JavaScript string is a [string]; the empty string is falsy;
    - an integral Number of magnitude at most 2^53 is a [Z], the
      integer it holds; the Number [parseInt] gives for a run of digits
      is a [Double], rounded beyond 2^53; [NaN] is [None] where a
      Number may be [NaN];
    - [console.log], [console.error], the calls to the SDK client and
      [process.exit] are recorded in a trace ([Run]). *)

From Stdlib Require Import ZArith List String Ascii Bool Lia DecimalString.
Import ListNotations.
Local Open Scope string_scope.
Local Open Scope Z_scope.

Set Implicit Arguments.

(** ** JavaScript values *)

(** A Number.  [NumInt z] is an integral Number of magnitude at most
    2^53, which [ToString] renders as its decimal numeral; every other
    Number (a fraction, [NaN], an infinity, a larger integer) is
    [NumOther], carried with its [ToString] rendering.  None of the
    latter is an array index. *)
Inductive JsNumber : Type :=
| NumInt (z : Z)
| NumOther (shown : string).

(** A disclosed claim value.  [VUndefined] is also what reading an
    absent key gives; [VObject] stands for any object, carried with its
    rendering. *)
Inductive JsValue : Type :=
| VUndefined
| VNull
| VBool (b : bool)
| VNumber (n : JsNumber)
| VString (s : string)
| VObject (shown : string).

Definition Z_to_string (z : Z) : string :=
  NilZero.string_of_int (Z.to_int z).

Definition Number_toString (n : JsNumber) : string :=
  match n with
  | NumInt z => Z_to_string z
  | NumOther shown => shown
  end.

(** Template-literal rendering [`${value}`]. *)
Definition toString (v : JsValue) : string :=
  match v with
  | VUndefined => "undefined"
  | VNull => "null"
  | VBool true => "true"
  | VBool false => "false"
  | VNumber n => Number_toString n
  | VString s => s
  | VObject shown => shown
  end.

(** Truthiness of a string: [if (s)]. *)
Definition truthy (s : string) : bool :=
  match s with
  | EmptyString => false
  | String _ _ => true
  end.

(** Truthiness of a [string | null] field. *)
Definition truthy_opt (s : option string) : bool :=
  match s with
  | Some t => truthy t
  | None => false
  end.

(** [claims[key]] on a [Record<string, unknown>]: the entries are kept
    in the order [Object.entries] lists them. *)
Definition Claims : Type := list (string * JsValue).

Fixpoint getClaim (claims : Claims) (key : string) : JsValue :=
  match claims with
  | [] => VUndefined
  | (k, v) :: rest => if String.eqb k key then v else getClaim rest key
  end.

(** [a ?? b] *)
Definition nullish (a b : JsValue) : JsValue :=
  match a with
  | VUndefined | VNull => b
  | _ => a
  end.

(** ** The policy specification ([PolicyLike])

    [title] is [metadata?.title], [exposeClaims] is
    [disclosure?.exposeClaims] and [ttl] is [validity?.ttl]; the credit
    verifier declares the same interface without the band tables, which
    it never reads. *)
Record Band : Type := mkBand { label : string }.

Record Derive : Type := mkDerive {
  kind : string;
  bands : option (list Band)
}.

Record Output : Type := mkOutput {
  name : string;
  type_ : string;
  derive : Derive
}.

Record PolicyLike : Type := mkPolicy {
  id : string;
  version : string;
  title : option string;
  subject_type : string;
  outputs : list Output;
  exposeClaims : option (list string);
  ttl : option string
}.

(** [outputs.find((o) => o.name === target)] *)
Definition findOutput (target : string) (os : list Output) : option Output :=
  find (fun o => String.eqb (name o) target) os.

(** [exposeClaims?.includes(target)], [undefined] read as falsy. *)
Definition isDisclosed (target : string) (policy : PolicyLike) : bool :=
  match exposeClaims policy with
  | Some cs => existsb (String.eqb target) cs
  | None => false
  end.

(** ** TTL parsing *)

Definition isDigit (c : ascii) : bool :=
  let n := nat_of_ascii c in (48 <=? n)%nat && (n <=? 57)%nat.

(** [/P/i] and [/D/i] on one character. *)
Definition isP (c : ascii) : bool := Ascii.eqb c "P" || Ascii.eqb c "p".
Definition isD (c : ascii) : bool := Ascii.eqb c "D" || Ascii.eqb c "d".

(** The longest prefix of digits and what follows it. *)
Fixpoint spanDigits (s : string) : string * string :=
  match s with
  | String c rest =>
      if isDigit c
      then let (ds, tl) := spanDigits rest in (String c ds, tl)
      else (EmptyString, s)
  | EmptyString => (EmptyString, EmptyString)
  end.

(** [s.match(/^(\d+)d$/i)]: the capture group when the string matches. *)
Definition simpleMatch (s : string) : option string :=
  match spanDigits s with
  | (String c ds, String d EmptyString) =>
      if isD d then Some (String c ds) else None
  | _ => None
  end.

(** [s.match(/^P(\d+)D$/i)]: the capture group when the string matches. *)
Definition isoMatch (s : string) : option string :=
  match s with
  | String p rest => if isP p then simpleMatch rest else None
  | EmptyString => None
  end.

Definition digitValue (c : ascii) : Z := Z.of_nat (nat_of_ascii c) - 48.

(** The integer a prefix of digits denotes. *)
Fixpoint parseDigits (acc : Z) (s : string) : Z :=
  match s with
  | String c rest =>
      if isDigit c then parseDigits (acc * 10 + digitValue c) rest else acc
  | EmptyString => acc
  end.

(** A Number that is an integer or [Infinity]: what [parseInt] gives
    for a run of digits.  [Finite z] is the double of value [z]. *)
Inductive Double : Type :=
| Finite (z : Z)
| Infinity.

(** The Number of a non-negative integer: the integer itself up to
    2^53; beyond, the nearest double (a mantissa of 53 bits), a tie
    going to the even mantissa, and [Infinity] when that is 2^1024 or
    more. *)
Definition toDouble (z : Z) : Double :=
  if z <=? 2 ^ 53 then Finite z
  else
    let e := Z.log2 z - 52 in
    let q := Z.shiftr z e in
    let r := z - Z.shiftl q e in
    let half := Z.shiftl 1 (e - 1) in
    let q' :=
      if r <? half then q
      else if half <? r then q + 1
      else if Z.even q then q else q + 1 in
    let v := Z.shiftl q' e in
    if v <? 2 ^ 1024 then Finite v else Infinity.

(** [parseInt(s, 10)] on a string without leading white space or sign
    (a capture group of [\d+] has neither): the Number of the integer
    the longest prefix of digits denotes, [NaN] ([None]) when that
    prefix is empty.  The integer is rounded as Node rounds it, to the
    nearest double; the language lets an implementation drop the
    digits after the twentieth significant one first. *)
Definition parseInt10 (s : string) : option Double :=
  match s with
  | String c _ => if isDigit c then Some (toDouble (parseDigits 0 s)) else None
  | EmptyString => None
  end.

(** The TTL of [checkFreshness]:
    [ttlString = policy?.validity?.ttl ?? dflt], then
    [isoMatch ? parseInt(isoMatch[1], 10)
       : simpleMatch ? parseInt(simpleMatch[1], 10) : days]. *)
Definition ttlString (dflt : string) (policy : option PolicyLike) : string :=
  match policy with
  | Some p => match ttl p with Some t => t | None => dflt end
  | None => dflt
  end.

Definition parseTtl (days : Z) (s : string) : option Double :=
  match isoMatch s with
  | Some g => parseInt10 g
  | None =>
      match simpleMatch s with
      | Some g => parseInt10 g
      | None => Some (Finite days)
      end
  end.

Definition ttlDays (dflt : string) (days : Z) (policy : option PolicyLike)
  : option Double :=
  parseTtl days (ttlString dflt policy).

(** [`${ageDays}`]: the age is an integer of small magnitude, or [NaN]. *)
Definition show (n : option Z) : string :=
  match n with
  | Some z => Z_to_string z
  | None => "NaN"
  end.

(** [ageDays <= ttlDays] on Numbers: false as soon as one side is
    [NaN]; every age that is a number is at most [Infinity]. *)
Definition leNumber (a : option Z) (b : option Double) : bool :=
  match a, b with
  | Some x, Some (Finite y) => x <=? y
  | Some _, Some Infinity => true
  | _, _ => false
  end.

(** ** The run of a script: console, client calls, exit *)

Inductive ClientCall : Type :=
| GetSharedProof (sharedProofId : string)
| GetPolicy (policyId : string)
| ListPolicies
| IssueProofCredential (proveJobId : string)
| VerifyCredential (jwt : string).

Inductive Item : Type :=
| Log (line : string)
| Error (line : string)
| Call (c : ClientCall).

(** How a computation ends: it returns, the process exits
    ([process.exit(code)]), or an exception propagates. *)
Inductive Outcome (A : Type) : Type :=
| Returned (a : A)
| Exited (code : Z)
| Thrown (message : string).

Arguments Exited {A} code.
Arguments Thrown {A} message.

Definition Run (A : Type) : Type := (list Item * Outcome A)%type.

Definition trace {A} (r : Run A) : list Item := fst r.
Definition outcome {A} (r : Run A) : Outcome A := snd r.

Definition ret {A} (a : A) : Run A := ([], Returned a).

Definition bind {A B} (m : Run A) (k : A -> Run B) : Run B :=
  match m with
  | (t, Returned a) => let (t', o) := k a in ((t ++ t')%list, o)
  | (t, Exited code) => (t, Exited code)
  | (t, Thrown e) => (t, Thrown e)
  end.

(** [try { m } catch (error) { handler(message) }] *)
Definition catch {A} (m : Run A) (handler : string -> Run A) : Run A :=
  match m with
  | (t, Thrown e) => let (t', o) := handler e in ((t ++ t')%list, o)
  | _ => m
  end.

Notation "x <- m ;; k" := (bind m (fun x => k))
  (at level 61, m at next level, right associativity).
Notation "m ;; k" := (bind m (fun _ => k))
  (at level 61, right associativity).

Definition log (line : string) : Run unit := ([Log line], Returned tt).
Definition error (line : string) : Run unit := ([Error line], Returned tt).
Definition exit {A} (code : Z) : Run A := ([], Exited code).

Fixpoint logEach (lines : list string) : Run unit :=
  match lines with
  | [] => ret tt
  | l :: rest => log l ;; logEach rest
  end.

(** The answer of the service to an awaited client call. *)
Inductive Response (A : Type) : Type :=
| Resolved (a : A)
| Rejected (message : string).

Arguments Rejected {A} message.

Definition await {A} (c : ClientCall) (r : Response A) : Run A :=
  match r with
  | Resolved a => ([Call c], Returned a)
  | Rejected e => ([Call c], Thrown e)
  end.

Record ProveJobInfo : Type := mkProveJobInfo {
  circuitName : string;
  policyId : option string;
  completedAt : option string
}.

Record SharedProof : Type := mkSharedProof {
  proveJobId : string;
  proveJob : ProveJobInfo;
  sharingOrgId : string;
  createdAt : string;
  note : option string;
  revokedAt : option string;
  expiresAt : option string;
  policySpec : option PolicyLike
}.

Record Credential : Type := mkCredential {
  credentialId : string;
  format : string;
  issuedAt : string;
  jwt : string
}.

Record VerifyResult : Type := mkVerifyResult {
  valid : bool;
  issuer : string;
  subject : option string;
  verifyError : option string;
  claims : Claims
}.

Record BindClient : Type := mkClient {
  getSharedProof : string -> Response SharedProof;
  getPolicy : string -> Response (option PolicyLike);
  listPolicies : Response (list PolicyLike);
  issueProofCredential : string -> Response Credential;
  verifyCredential : string -> Response VerifyResult
}.

(** What the scripts take from the JavaScript host: [Number(s)] on a
    string, the rendering of an integral Number above 2^53 (the
    shortest digits that read back as the Number, the last of which the
    language leaves to the implementation; in exponent form from 10^21
    on), [new Date(s).getTime()] ([None] for an invalid date), and the
    two readings of the clock, [new Date()] at the expiry check and
    [Date.now()] in [checkFreshness], in milliseconds.  A time value
    is an integer of magnitude at most 8.64e15, so that ages in days
    are small integers. *)
Record Host : Type := mkHost {
  StringToNumber : string -> JsNumber;
  NumberToString : Z -> string;
  dateMs : string -> option Z;
  expiryNow : Z;
  freshnessNow : Z
}.

(** [`${ttlDays}`] *)
Definition showTtl (host : Host) (n : option Double) : string :=
  match n with
  | Some (Finite z) =>
      if z <=? 2 ^ 53 then Z_to_string z else NumberToString host z
  | Some Infinity => "Infinity"
  | None => "NaN"
  end.

Definition dquote : string := String (ascii_of_nat 34) EmptyString.

(** [c.repeat(n)] *)
Fixpoint repeat_ (c : string) (n : nat) : string :=
  match n with
  | O => EmptyString
  | S m => c ++ repeat_ c m
  end.

Definition orUndefined (s : option string) : string :=
  match s with
  | Some t => t
  | None => "undefined"
  end.

(** [policy.metadata?.title ?? policy.id] *)
Definition titleOrId (policy : PolicyLike) : string :=
  match title policy with
  | Some t => t
  | None => id policy
  end.

(** [ageDays] of [checkFreshness]: the proof time is [completedAt] when
    truthy, else [fallbackDate]; the age is
    [Math.floor((Date.now() - provedAt.getTime()) / 86400000)]. *)
Definition provedAt (host : Host) (completed : option string)
    (fallbackDate : string) : option Z :=
  match completed with
  | Some c => if truthy c then dateMs host c else dateMs host fallbackDate
  | None => dateMs host fallbackDate
  end.

Definition ageDays (host : Host) (completed : option string)
    (fallbackDate : string) : option Z :=
  match provedAt host completed fallbackDate with
  | Some t => Some ((freshnessNow host - t) / (24 * 60 * 60 * 1000))
  | None => None
  end.

(** [sharedProof.expiresAt && new Date(sharedProof.expiresAt) < new Date()] *)
Definition isExpired (host : Host) (sp : SharedProof) : bool :=
  match expiresAt sp with
  | Some e =>
      truthy e &&
      match dateMs host e with
      | Some t => t <? expiryNow host
      | None => false
      end
  | None => false
  end.

(** [allPolicies.find((p) => p.id === policyId) ?? null] *)
Definition findPolicy (pid : string) (all : list PolicyLike)
  : option PolicyLike :=
  find (fun p => String.eqb (id p) pid) all.

(** [validationResults.push(r)] *)
Definition push (results : list string) (r : string) : list string :=
  app results [r].

Record Summary : Type := mkSummary {
  policyTitle : string;
  summaryCircuit : string;
  prover : string
}.

(** [xs[i]] for an array [xs] and a Number [i]. *)
Definition at_ {A} (xs : list A) (i : JsNumber) : option A :=
  match i with
  | NumInt z => if 0 <=? z then nth_error xs (Z.to_nat z) else None
  | NumOther _ => None
  end.

(** ** The vehicle risk band verifier *)
Module Risk.

Definition RISK_BANDS : list string := ["HIGH"; "MEDIUM"; "LOW"].

Definition validatePolicy (policy : PolicyLike) : Run bool :=
  log ("Found policy: " ++ titleOrId policy) ;;
  log "" ;;
  log "Step 3: Validating policy acceptability..." ;;
  let validationResults : list string := [] in
  validationResults <-
    (if prefix "0." (version policy)
     then ret (push validationResults ("Version: " ++ version policy))
     else (error ("Unsupported policy version: " ++ version policy) ;;
           exit 1)) ;;
  validationResults <-
    (if String.eqb (subject_type policy) "vehicle"
     then ret (push validationResults
                 ("Subject type: " ++ subject_type policy))
     else (error ("Unexpected subject type: " ++ subject_type policy) ;;
           exit 1)) ;;
  validationResults <-
    (match findOutput "riskBand" (outputs policy) with
     | Some riskOutput =>
         let r := push validationResults
                    ("Has " ++ dquote ++ name riskOutput ++ dquote
                     ++ " output (" ++ type_ riskOutput ++ ")") in
         let r :=
           if String.eqb (kind (derive riskOutput)) "BAND"
           then
             let r := push r "Uses BAND derivation" in
             match bands (derive riskOutput) with
             | Some bs =>
                 push r ("Risk bands: " ++ String.concat ", " (map label bs))
             | None => r
             end
           else r in
         let r :=
           if isDisclosed "riskBand" policy
           then push r "Risk band is disclosed"
           else r in
         ret r
     | None =>
         error "Policy missing required 'riskBand' output" ;;
         exit 1
     end) ;;
  log "Policy validation passed:" ;;
  logEach (map (fun r => "   " ++ r) validationResults) ;;
  log "" ;;
  ret true.

(** [ttlDays] of [checkFreshness]: default ["P90D"], else 90. *)
Definition resolvedTtl (policy : option PolicyLike) : option Double :=
  ttlDays "P90D" 90 policy.

Definition checkFreshness (host : Host) (completed : option string)
    (fallbackDate : string) (policy : option PolicyLike) (step : Z)
  : Run unit :=
  log ("Step " ++ Z_to_string step ++ ": Checking proof freshness...") ;;
  let age := ageDays host completed fallbackDate in
  let ttl := resolvedTtl policy in
  log ("Proof age: " ++ show age ++ " days") ;;
  log ("Policy TTL: " ++ showTtl host ttl ++ " days"
       ++ match policy with None => " (default)" | Some _ => "" end) ;;
  (if leNumber age ttl
   then log "Status: Fresh"
   else (error "Status: EXPIRED - proof is too old" ;;
         log "" ;;
         log "For insurance underwriting, request a fresh proof from the vehicle owner." ;;
         exit 1)) ;;
  log "".

(** [bandIndex] of [resolveBandLabel]. *)
Definition bandIndex (host : Host) (claims : Claims) : JsNumber :=
  let riskBandClaim :=
    nullish (getClaim claims "riskBand") (getClaim claims "outputValue") in
  match riskBandClaim with
  | VNumber n => n
  | VString s => StringToNumber host s
  | _ => NumInt 0
  end.

(** [policy?.outputs?.[0]?.derive?.bands] *)
Definition firstBands (policy : option PolicyLike) : option (list Band) :=
  match policy with
  | Some p =>
      match outputs p with
      | o :: _ => bands (derive o)
      | [] => None
      end
  | None => None
  end.

Definition defaultLabel (index : JsNumber) : string :=
  match at_ RISK_BANDS index with
  | Some l => l
  | None => "Band " ++ Number_toString index
  end.

Definition resolveBandLabel (host : Host) (claims : Claims)
    (policy : option PolicyLike) : string :=
  let index := bandIndex host claims in
  match firstBands policy with
  | Some bs =>
      match at_ bs index with
      | Some b => label b
      | None => defaultLabel index
      end
  | None => defaultLabel index
  end.

Definition claimLine (host : Host) (claims : Claims)
    (policy : option PolicyLike) (entry : string * JsValue) : string :=
  let (key, value) := entry in
  if String.eqb key "riskBand" || String.eqb key "outputValue"
  then "  " ++ key ++ ": " ++ toString value
       ++ " (" ++ resolveBandLabel host claims policy ++ ")"
  else "  " ++ key ++ ": " ++ toString value.

Definition guidance (bandLabel : string) : list string :=
  if String.eqb bandLabel "LOW" then
    ["  Recommendation: APPROVE";
     "  - Vehicle shows excellent maintenance and usage patterns";
     "  - Eligible for preferred rates and coverage options";
     "  - Consider usage-based insurance discount"]
  else if String.eqb bandLabel "MEDIUM" then
    ["  Recommendation: REVIEW";
     "  - Vehicle shows moderate risk indicators";
     "  - Standard rates apply";
     "  - Consider requesting additional documentation"]
  else if String.eqb bandLabel "HIGH" then
    ["  Recommendation: CAUTION";
     "  - Vehicle shows significant risk factors";
     "  - May require inspection before coverage";
     "  - Higher deductible or limited coverage recommended"]
  else [].

Definition displayResults (host : Host) (claims : Claims)
    (policy : option PolicyLike) (summary : Summary) : Run unit :=
  log "Credential verification successful!" ;;
  log "" ;;
  log "Credential Claims:" ;;
  logEach (map (claimLine host claims policy) claims) ;;
  log "" ;;
  let bandLabel := resolveBandLabel host claims policy in
  log (repeat_ "-" 60) ;;
  log "Underwriting Guidance" ;;
  log (repeat_ "-" 60) ;;
  logEach (guidance bandLabel) ;;
  log "" ;;
  log (repeat_ "=" 60) ;;
  log "Verification Complete" ;;
  log (repeat_ "=" 60) ;;
  log "" ;;
  log "What was proven:" ;;
  log ("  Policy: " ++ policyTitle summary) ;;
  log ("  Circuit: " ++ summaryCircuit summary) ;;
  log ("  Prover: " ++ prover summary) ;;
  log ("  Risk Band: " ++ bandLabel) ;;
  log "" ;;
  log "Privacy preserved - the insurer verified vehicle risk without seeing:" ;;
  log "  - Actual mileage driven" ;;
  log "  - Max speed recorded" ;;
  log "  - Raw telemetry data points" ;;
  log "  - Driving patterns or locations" ;;
  log "".

Definition verifySharedProof (host : Host) (client : BindClient)
    (sharedProofId : string) : Run unit :=
  log "Insurance/Fleet Verification: Processing Vehicle Risk Assessment" ;;
  log (repeat_ "=" 65) ;;
  log "" ;;
  log "Step 1: Fetching shared proof details..." ;;
  sharedProof <- await (GetSharedProof sharedProofId)
                   (getSharedProof client sharedProofId) ;;
  log ("  Proof Job: " ++ proveJobId sharedProof) ;;
  log ("  Circuit: " ++ circuitName (proveJob sharedProof)) ;;
  log ("  From Org: " ++ sharingOrgId sharedProof) ;;
  log ("  Shared At: " ++ createdAt sharedProof) ;;
  (match note sharedProof with
   | Some n => if truthy n then log ("  Note: " ++ n) else ret tt
   | None => ret tt
   end) ;;
  log "" ;;
  (if truthy_opt (revokedAt sharedProof)
   then (error "Error: This shared proof has been revoked" ;; exit 1)
   else ret tt) ;;
  (if isExpired host sharedProof
   then (error "Error: This shared proof has expired" ;; exit 1)
   else ret tt) ;;
  pid <-
    (match policyId (proveJob sharedProof) with
     | Some p =>
         if truthy p then ret p
         else (error "Error: This proof is not associated with a policy" ;;
               exit 1)
     | None =>
         error "Error: This proof is not associated with a policy" ;;
         exit 1
     end) ;;
  log ("  Policy ID: " ++ pid) ;;
  log "" ;;
  log "Step 2: Getting policy specification..." ;;
  policy <-
    (match policySpec sharedProof with
     | Some p => ret (Some p)
     | None =>
         log "  Policy not included in shared proof, fetching separately..." ;;
         fetched <- await (GetPolicy pid) (getPolicy client pid) ;;
         match fetched with
         | Some p => ret (Some p)
         | None =>
             allPolicies <- await ListPolicies (listPolicies client) ;;
             ret (findPolicy pid allPolicies)
         end
     end) ;;
  policyValidated <-
    (match policy with
     | None =>
         log ("  Policy not found: " ++ pid) ;;
         log "  Note: Policy spec not available (demo policy not in S3)." ;;
         log "  Skipping policy validation." ;;
         log "" ;;
         ret false
     | Some p => validatePolicy p
     end) ;;
  let freshnessStep := if policyValidated : bool then 4 else 3 in
  checkFreshness host (completedAt (proveJob sharedProof))
    (createdAt sharedProof) policy freshnessStep ;;
  let step := freshnessStep + 1 in
  log ("Step " ++ Z_to_string step ++ ": Issuing proof credential...") ;;
  credential <-
    catch
      (credential <- await (IssueProofCredential (proveJobId sharedProof))
                       (issueProofCredential client (proveJobId sharedProof)) ;;
       log ("  Credential ID: " ++ credentialId credential) ;;
       log ("  Format: " ++ format credential) ;;
       log ("  Issued At: " ++ issuedAt credential) ;;
       ret credential)
      (fun message =>
         error ("Failed to issue credential: " ++ message) ;; exit 1) ;;
  log "" ;;
  let step := step + 1 in
  log ("Step " ++ Z_to_string step ++ ": Verifying credential...") ;;
  catch
    (verifyResult <- await (VerifyCredential (jwt credential))
                       (verifyCredential client (jwt credential)) ;;
     (if negb (valid verifyResult)
      then (error ("Credential is invalid: "
                   ++ orUndefined (verifyError verifyResult)) ;;
            exit 1)
      else ret tt) ;;
     log ("  Issuer: " ++ issuer verifyResult) ;;
     (match subject verifyResult with
      | Some s => if truthy s then log ("  Subject: " ++ s) else ret tt
      | None => ret tt
      end) ;;
     log "" ;;
     let step := step + 1 in
     log ("Step " ++ Z_to_string step ++ ": Processing verification result...") ;;
     displayResults host (claims verifyResult) policy
       {| policyTitle :=
            match policy with
            | Some p => match title p with Some t => t | None => pid end
            | None => pid
            end;
          summaryCircuit := circuitName (proveJob sharedProof);
          prover := sharingOrgId sharedProof |})
    (fun message =>
       error ("Credential verification error: " ++ message) ;; exit 1).

End Risk.

(** ** The credit score verifier *)
Module Credit.

Definition validatePolicy (policy : PolicyLike) : Run bool :=
  log ("Found policy: " ++ titleOrId policy) ;;
  log "" ;;
  log "Step 3: Validating policy acceptability..." ;;
  let validationResults : list string := [] in
  validationResults <-
    (if prefix "0." (version policy)
     then ret (push validationResults ("Version: " ++ version policy))
     else (error ("Unsupported policy version: " ++ version policy) ;;
           exit 1)) ;;
  let validationResults :=
    push validationResults ("Subject type: " ++ subject_type policy) in
  validationResults <-
    (match findOutput "approved" (outputs policy) with
     | Some approvedOutput =>
         let r := push validationResults
                    ("Has " ++ dquote ++ name approvedOutput ++ dquote
                     ++ " output (" ++ type_ approvedOutput ++ ")") in
         let r :=
           if String.eqb (kind (derive approvedOutput)) "PASS_FAIL"
           then push r "Uses PASS_FAIL derivation"
           else r in
         let r :=
           if isDisclosed "approved" policy
           then push r "Approval status is disclosed"
           else r in
         ret r
     | None =>
         error "Policy missing required 'approved' output" ;;
         exit 1
     end) ;;
  log "Policy validation passed:" ;;
  logEach (map (fun r => "   " ++ r) validationResults) ;;
  log "" ;;
  ret true.

(** [ttlDays] of [checkFreshness]: default ["P30D"], else 30. *)
Definition resolvedTtl (policy : option PolicyLike) : option Double :=
  ttlDays "P30D" 30 policy.

Definition checkFreshness (host : Host) (completed : option string)
    (fallbackDate : string) (policy : option PolicyLike) (step : Z)
  : Run unit :=
  log ("Step " ++ Z_to_string step ++ ": Checking proof freshness...") ;;
  let age := ageDays host completed fallbackDate in
  let ttl := resolvedTtl policy in
  log ("Proof age: " ++ show age ++ " days") ;;
  log ("Policy TTL: " ++ showTtl host ttl ++ " days"
       ++ match policy with None => " (default)" | Some _ => "" end) ;;
  (if leNumber age ttl
   then log "Status: Fresh"
   else (error "Status: EXPIRED - proof is too old" ;;
         exit 1)) ;;
  log "".

(** [value === 1 || value === true || value === "1"] *)
Definition isApproved (value : JsValue) : bool :=
  match value with
  | VNumber (NumInt z) => z =? 1
  | VBool b => b
  | VString s => String.eqb s "1"
  | _ => false
  end.

Definition claimLine (entry : string * JsValue) : string :=
  let (key, value) := entry in
  if String.eqb key "approved" || String.eqb key "outputValue"
  then
    let approved := isApproved value in
    "  " ++ key ++ ": " ++ toString (VBool approved) ++ " "
    ++ (if approved then "(APPROVED)" else "(NOT APPROVED)")
  else "  " ++ key ++ ": " ++ toString value.

Definition displayResults (claims : Claims) (summary : Summary) : Run unit :=
  log "Credential verification successful!" ;;
  log "" ;;
  log "Credential Claims:" ;;
  logEach (map claimLine claims) ;;
  log "" ;;
  log (repeat_ "=" 60) ;;
  log "Verification Complete" ;;
  log (repeat_ "=" 60) ;;
  log "" ;;
  log "What was proven:" ;;
  log ("  Policy: " ++ policyTitle summary) ;;
  log ("  Circuit: " ++ summaryCircuit summary) ;;
  log ("  Prover: " ++ prover summary) ;;
  log "" ;;
  log "Privacy preserved - the lender verified creditworthiness without seeing:" ;;
  log "  - Actual income amount" ;;
  log "  - Actual debt amount" ;;
  log "  - Debt-to-income ratio" ;;
  log "  - Credit history details" ;;
  log "".

Definition verifySharedProof (host : Host) (client : BindClient)
    (sharedProofId : string) : Run unit :=
  log "Lender Verification Example: Processing Loan Application" ;;
  log (repeat_ "=" 60) ;;
  log "" ;;
  log "Step 1: Fetching shared proof details..." ;;
  sharedProof <- await (GetSharedProof sharedProofId)
                   (getSharedProof client sharedProofId) ;;
  log ("  Proof Job: " ++ proveJobId sharedProof) ;;
  log ("  Circuit: " ++ circuitName (proveJob sharedProof)) ;;
  log ("  From Org: " ++ sharingOrgId sharedProof) ;;
  log ("  Shared At: " ++ createdAt sharedProof) ;;
  (match note sharedProof with
   | Some n => if truthy n then log ("  Note: " ++ n) else ret tt
   | None => ret tt
   end) ;;
  log "" ;;
  (if truthy_opt (revokedAt sharedProof)
   then (error "Error: This shared proof has been revoked" ;; exit 1)
   else ret tt) ;;
  (if isExpired host sharedProof
   then (error "Error: This shared proof has expired" ;; exit 1)
   else ret tt) ;;
  pid <-
    (match policyId (proveJob sharedProof) with
     | Some p =>
         if truthy p then ret p
         else (error "Error: This proof is not associated with a policy" ;;
               exit 1)
     | None =>
         error "Error: This proof is not associated with a policy" ;;
         exit 1
     end) ;;
  log ("  Policy ID: " ++ pid) ;;
  log "" ;;
  log "Step 2: Getting policy specification..." ;;
  policy <-
    (match policySpec sharedProof with
     | Some p => ret (Some p)
     | None =>
         log "  Policy not included in shared proof, fetching separately..." ;;
         fetched <- await (GetPolicy pid) (getPolicy client pid) ;;
         match fetched with
         | Some p => ret (Some p)
         | None =>
             allPolicies <- await ListPolicies (listPolicies client) ;;
             ret (findPolicy pid allPolicies)
         end
     end) ;;
  policyValidated <-
    (match policy with
     | None =>
         log ("  Policy not found: " ++ pid) ;;
         log "  Note: Policy spec not available (demo policy not in S3)." ;;
         log "  Skipping policy validation." ;;
         log "" ;;
         ret false
     | Some p => validatePolicy p
     end) ;;
  let freshnessStep := if policyValidated : bool then 4 else 3 in
  checkFreshness host (completedAt (proveJob sharedProof))
    (createdAt sharedProof) policy freshnessStep ;;
  let step := freshnessStep + 1 in
  log ("Step " ++ Z_to_string step ++ ": Issuing proof credential...") ;;
  credential <-
    catch
      (credential <- await (IssueProofCredential (proveJobId sharedProof))
                       (issueProofCredential client (proveJobId sharedProof)) ;;
       log ("  Credential ID: " ++ credentialId credential) ;;
       log ("  Format: " ++ format credential) ;;
       log ("  Issued At: " ++ issuedAt credential) ;;
       ret credential)
      (fun message =>
         error ("Failed to issue credential: " ++ message) ;; exit 1) ;;
  log "" ;;
  let step := step + 1 in
  log ("Step " ++ Z_to_string step ++ ": Verifying credential...") ;;
  catch
    (verifyResult <- await (VerifyCredential (jwt credential))
                       (verifyCredential client (jwt credential)) ;;
     (if negb (valid verifyResult)
      then (error ("Credential is invalid: "
                   ++ orUndefined (verifyError verifyResult)) ;;
            exit 1)
      else ret tt) ;;
     log ("  Issuer: " ++ issuer verifyResult) ;;
     (match subject verifyResult with
      | Some s => if truthy s then log ("  Subject: " ++ s) else ret tt
      | None => ret tt
      end) ;;
     log "" ;;
     let step := step + 1 in
     log ("Step " ++ Z_to_string step ++ ": Processing verification result...") ;;
     displayResults (claims verifyResult)
       {| policyTitle :=
            match policy with
            | Some p => match title p with Some t => t | None => pid end
            | None => pid
            end;
          summaryCircuit := circuitName (proveJob sharedProof);
          prover := sharingOrgId sharedProof |})
    (fun message =>
       error ("Credential verification error: " ++ message) ;; exit 1).

End Credit.

(** ** The reference scorer of the risk demo

    The telemetry inputs are the Numbers read from the input strings
    ([Number(VEHICLE_INPUTS.mileage_90d)] and so on). *)
Record Telemetry : Type := mkTelemetry {
  mileage : Z;
  dataPoints : Z;
  speedMax : Z
}.

(** The full-flow demo: the expected score and band shown before the
    prove job is submitted. *)
Module Demo.

Definition expectedScore (input : Telemetry) : Z :=
  let expectedScore := 50 in
  let expectedScore :=
    if mileage input <=? 3000 then expectedScore + 25 else expectedScore in
  let expectedScore :=
    if mileage input <=? 5000 then expectedScore + 15 else expectedScore in
  let expectedScore :=
    if speedMax input <? 100 then expectedScore + 10 else expectedScore in
  Z.min 100 expectedScore.

Definition expectedBand (input : Telemetry) : string :=
  let expectedScore := expectedScore input in
  if 71 <=? expectedScore then "LOW"
  else if 41 <=? expectedScore then "MEDIUM"
  else "HIGH".

Definition preview (input : Telemetry) : Run unit :=
  (if dataPoints input <? 100
   then (log "  WARNING: Insufficient data (< 100 data points)" ;;
         log "  The proof will FAIL the sufficient_data rule." ;;
         log "")
   else ret tt) ;;
  log ("  Expected Score: " ++ Z_to_string (expectedScore input)) ;;
  log ("  Expected Band: " ++ expectedBand input) ;;
  log "".

End Demo.

(** The prove-job script: the same computation, with the breakdown of
    the score kept line by line. *)
Module SubmitProveJob.

Definition evaluation (input : Telemetry) : Z * list string :=
  let expectedScore := 50 in
  let scoreBreakdown := ["Baseline: 50"] in
  let '(expectedScore, scoreBreakdown) :=
    if mileage input <=? 3000
    then (expectedScore + 25,
          push scoreBreakdown "Low mileage (≤3,000): +25")
    else (expectedScore, scoreBreakdown) in
  let '(expectedScore, scoreBreakdown) :=
    if mileage input <=? 5000
    then (expectedScore + 15,
          push scoreBreakdown "Moderate mileage (≤5,000): +15")
    else (expectedScore, scoreBreakdown) in
  let '(expectedScore, scoreBreakdown) :=
    if speedMax input <? 100
    then (expectedScore + 10,
          push scoreBreakdown "No extreme speed (<100 mph): +10")
    else (expectedScore, scoreBreakdown) in
  (Z.min 100 expectedScore, scoreBreakdown).

Definition expectedScore (input : Telemetry) : Z := fst (evaluation input).

Definition expectedBand (input : Telemetry) : string :=
  let expectedScore := expectedScore input in
  if 71 <=? expectedScore then "LOW"
  else if 41 <=? expectedScore then "MEDIUM"
  else "HIGH".

Definition preview (input : Telemetry) : Run unit :=
  let (expectedScore, scoreBreakdown) := evaluation input in
  log "Expected Evaluation:" ;;
  logEach (map (fun line => "  " ++ line) scoreBreakdown) ;;
  log "  ─────────────────────" ;;
  log ("  Total Score: " ++ Z_to_string expectedScore) ;;
  log "" ;;
  log ("Expected Risk Band: " ++ expectedBand input) ;;
  (if dataPoints input <? 100
   then (log "" ;;
         log "WARNING: Insufficient data (< 100 data points)" ;;
         log "The proof will FAIL the sufficient_data rule.")
   else ret tt) ;;
  log "".

End SubmitProveJob.

(** ** Notions used to state the properties *)

Fixpoint allDigits (s : string) : bool :=
  match s with
  | String c rest => isDigit c && allDigits rest
  | EmptyString => true
  end.

(** A digit sequence [<N>]: one digit or more. *)
Definition digitSequence (ds : string) : Prop :=
  ds <> EmptyString /\ allDigits ds = true.

(** The number a digit sequence denotes, by the weight of each
    position. *)
Fixpoint numeral (ds : string) : Z :=
  match ds with
  | String c rest =>
      digitValue c * 10 ^ Z.of_nat (String.length rest) + numeral rest
  | EmptyString => 0
  end.

(** [s] has the form [P<N>D], case-insensitively. *)
Definition isoDuration (s ds : string) : Prop :=
  exists p d, isP p = true /\ isD d = true /\
              s = String p (ds ++ String d EmptyString).

(** [s] has the form [<N>d], case-insensitively. *)
Definition dayCount (s ds : string) : Prop :=
  exists d, isD d = true /\ s = ds ++ String d EmptyString.

(** A console line that announces a numbered step. *)
Definition stepBanner (line : string) : bool := prefix "Step " line.

(** [s] starts with [p]. *)
Definition startsWith (p s : string) : Prop := exists rest, s = p ++ rest.

(** The run rejects the policy for its version. *)
Definition rejectsVersion (r : Run bool) (policy : PolicyLike) : Prop :=
  outcome r = Exited 1 /\
  In (Error ("Unsupported policy version: " ++ version policy)) (trace r).

(** The policy with another subject type. *)
Definition withSubject (s : string) (policy : PolicyLike) : PolicyLike :=
  {| id := id policy;
     version := version policy;
     title := title policy;
     subject_type := s;
     outputs := outputs policy;
     exposeClaims := exposeClaims policy;
     ttl := ttl policy |}.

(** The run of a shared-proof verification ends in a fatal exit, having
    called the service only to fetch the shared proof and announced no
    step after the first. *)
Definition fatalBeforePolicy (r : Run unit) (sharedProofId : string) : Prop :=
  outcome r = Exited 1 /\
  (forall c, In (Call c) (trace r) -> c = GetSharedProof sharedProofId) /\
  (forall line, In (Log line) (trace r) -> stepBanner line = true ->
     line = "Step 1: Fetching shared proof details...").

(** One of the three checks made on a shared proof before its policy is
    resolved stops it: it is revoked, it has expired, or it names no
    policy. *)
Definition stopped (host : Host) (sp : SharedProof) : bool :=
  truthy_opt (revokedAt sp) || isExpired host sp
  || negb (truthy_opt (policyId (proveJob sp))).

(** The points of a bonus whose threshold is, or is not, satisfied. *)
Definition bonus (satisfied : bool) (points : Z) : Z :=
  if satisfied then points else 0.

(** ** Sample data for the worked examples *)

(** The rendering of an integral Number above 2^53 as Node prints it:
    the shortest digits that read back as the Number, the nearest to it
    when several do, followed by zeros up to 21 digits and in exponent
    form beyond. *)
Fixpoint shortestDigits (fuel : nat) (z len k : Z) : Z :=
  match fuel with
  | O => z
  | S fuel' =>
      let p := 10 ^ (len - k) in
      let lo := z / p in
      let c1 := lo * p in
      let c2 := (lo + 1) * p in
      let reads c :=
        match toDouble c with
        | Finite v => v =? z
        | Infinity => false
        end in
      if reads c1 && reads c2 then
        if z - c1 <? c2 - z then c1
        else if c2 - z <? z - c1 then c2
        else if Z.even lo then c1 else c2
      else if reads c1 then c1
      else if reads c2 then c2
      else shortestDigits fuel' z len (k + 1)
  end.

Fixpoint stripZeros (s : string) : string :=
  match s with
  | EmptyString => EmptyString
  | String c rest =>
      match stripZeros rest with
      | EmptyString =>
          if Ascii.eqb c "0" then EmptyString else String c EmptyString
      | t => String c t
      end
  end.

Definition sampleNumberToString (z : Z) : string :=
  let len := Z.of_nat (String.length (Z_to_string z)) in
  let s := Z_to_string (shortestDigits 17 z len 1) in
  let n := Z.of_nat (String.length s) in
  if n <=? 21 then s
  else
    match stripZeros s with
    | String d EmptyString => String d ("e+" ++ Z_to_string (n - 1))
    | String d rest => String d ("." ++ rest ++ "e+" ++ Z_to_string (n - 1))
    | EmptyString => s
    end.

(** A host for the worked examples.  Its [Number] agrees with
    JavaScript on the empty string and on runs of digits, the strings
    the examples hold; every other string it reads as [NaN], which
    JavaScript does only for a string that is no numeric literal.  Its
    [Date] reads the one timestamp of the examples,
    2024-01-01T00:00:00Z; the clock is given. *)
Definition sampleNumber (s : string) : JsNumber :=
  match s with
  | EmptyString => NumInt 0
  | _ =>
      if allDigits s then
        match parseInt10 s with
        | Some (Finite z) =>
            if z <=? 2 ^ 53 then NumInt z
            else NumOther (sampleNumberToString z)
        | Some Infinity => NumOther "Infinity"
        | None => NumOther "NaN"
        end
      else NumOther "NaN"
  end.

Definition sampleDate (s : string) : option Z :=
  if String.eqb s "2024-01-01T00:00:00.000Z" then Some 1704067200000
  else None.

Definition sampleHost (now : Z) : Host :=
  {| StringToNumber := sampleNumber;
     NumberToString := sampleNumberToString;
     dateMs := sampleDate;
     expiryNow := now;
     freshnessNow := now |}.

Definition dayMs : Z := 24 * 60 * 60 * 1000.

Definition riskBandOutput : Output :=
  {| name := "riskBand"; type_ := "enum";
     derive := {| kind := "BAND";
                  bands := Some [mkBand "HIGH"; mkBand "MEDIUM"; mkBand "LOW"] |} |}.

Definition riskOutputWith (table : option (list Band)) : Output :=
  {| name := "riskBand"; type_ := "enum";
     derive := {| kind := "BAND"; bands := table |} |}.

Definition riskPolicyWith (table : option (list Band)) : PolicyLike :=
  {| id := "bind.mobility.basicriskband";
     version := "0.1.0";
     title := Some "Basic Risk Band";
     subject_type := "vehicle";
     outputs := [riskOutputWith table];
     exposeClaims := Some ["riskBand"];
     ttl := Some "P90D" |}.

Definition approvedOutput : Output :=
  {| name := "approved"; type_ := "boolean";
     derive := {| kind := "PASS_FAIL"; bands := None |} |}.

Definition creditPolicy (policyVersion subjectType : string) : PolicyLike :=
  {| id := "bind.demo.credit-score";
     version := policyVersion;
     title := Some "Credit Score";
     subject_type := subjectType;
     outputs := [approvedOutput];
     exposeClaims := Some ["approved"];
     ttl := Some "P30D" |}.

Definition riskPolicy (ttlText : option string) : PolicyLike :=
  {| id := "bind.mobility.basicriskband";
     version := "0.1.0";
     title := Some "Basic Risk Band";
     subject_type := "vehicle";
     outputs := [riskBandOutput];
     exposeClaims := Some ["riskBand"];
     ttl := ttlText |}.

(** A policy that declares a data-quality band before the risk band. *)
Definition dataQualityOutput : Output :=
  {| name := "dataQuality"; type_ := "enum";
     derive := {| kind := "BAND";
                  bands := Some [mkBand "POOR"; mkBand "FAIR"; mkBand "GOOD"] |} |}.

Definition twoOutputPolicy : PolicyLike :=
  {| id := "bind.mobility.basicriskband";
     version := "0.1.0";
     title := Some "Basic Risk Band";
     subject_type := "vehicle";
     outputs := [dataQualityOutput; riskBandOutput];
     exposeClaims := Some ["dataQuality"; "riskBand"];
     ttl := Some "P90D" |}.

Definition sampleSharedProof (revoked expires pid : option string)
  : SharedProof :=
  {| proveJobId := "job-1";
     proveJob := {| circuitName := "bind.mobility.basicriskband.v0_1_0";
                    policyId := pid;
                    completedAt := Some "2024-01-01T00:00:00.000Z" |};
     sharingOrgId := "org-prover";
     createdAt := "2024-01-01T00:00:00.000Z";
     note := Some "DIMO vehicle risk assessment";
     revokedAt := revoked;
     expiresAt := expires;
     policySpec := Some (riskPolicy (Some "P90D")) |}.

Definition revokedProof : SharedProof :=
  sampleSharedProof (Some "2024-01-01T00:00:00.000Z") None
    (Some "bind.mobility.basicriskband").

Definition expiredProof : SharedProof :=
  sampleSharedProof None (Some "2024-01-01T00:00:00.000Z")
    (Some "bind.demo.credit-score").

Definition unlinkedProof : SharedProof := sampleSharedProof None None None.

(** A service that has the shared proof and nothing else. *)
Definition sampleClient (sp : SharedProof) : BindClient :=
  {| getSharedProof := fun _ => Resolved sp;
     getPolicy := fun _ => Resolved None;
     listPolicies := Resolved [];
     issueProofCredential := fun _ => Rejected "not available";
     verifyCredential := fun _ => Rejected "not available" |}.

Definition sampleSummary : Summary :=
  {| policyTitle := "Credit Score";
     summaryCircuit := "bind.demo.credit_score.v0_1_0";
     prover := "org-prover" |}.

(** The three scenarios of the prove-job script. *)
Definition wellMaintained : Telemetry :=
  {| mileage := 2500; dataPoints := 450; speedMax := 72 |}.

Definition moderateUse : Telemetry :=
  {| mileage := 4500; dataPoints := 300; speedMax := 85 |}.

Definition highRisk : Telemetry :=
  {| mileage := 7000; dataPoints := 500; speedMax := 110 |}.

From Stdlib Require Import DecimalZ.

(** ** Observations on a run *)

(** The numbered steps a run announces, in order. *)
Definition stepsOf (t : list Item) : list string :=
  flat_map (fun i => match i with
                     | Log line => if stepBanner line then [line] else []
                     | _ => []
                     end) t.

(** The calls a run makes to the service, in order. *)
Definition callsOf (t : list Item) : list ClientCall :=
  flat_map (fun i => match i with Call c => [c] | _ => [] end) t.

(** The lines a run writes with [console.error], in order. *)
Definition errorsOf (t : list Item) : list string :=
  flat_map (fun i => match i with Error line => [line] | _ => [] end) t.

(** The steps of a complete verification, numbered as the verifiers
    number them: the validation of the policy is step 3 when it takes
    place, and the later steps follow it. *)
Definition expectedSteps (validated : bool) : list string :=
  let k := if validated then 4 else 3 in
  app ["Step 1: Fetching shared proof details...";
       "Step 2: Getting policy specification..."]
   (app (if validated
         then ["Step 3: Validating policy acceptability..."] else [])
        ["Step " ++ Z_to_string k ++ ": Checking proof freshness...";
         "Step " ++ Z_to_string (k + 1) ++ ": Issuing proof credential...";
         "Step " ++ Z_to_string (k + 2) ++ ": Verifying credential...";
         "Step " ++ Z_to_string (k + 3)
           ++ ": Processing verification result..."]).

(** Where the policy of a shared proof comes from: the policy embedded
    in the shared proof; else the policy the service returns for the
    id; else, when the service returns none, the policy of that id in
    the listing of all policies, if any. *)
Definition resolvesTo (client : BindClient) (sp : SharedProof) (pid : string)
    (policy : option PolicyLike) : Prop :=
  (exists p, policySpec sp = Some p /\ policy = Some p) \/
  (policySpec sp = None /\
   ((exists p, getPolicy client pid = Resolved (Some p) /\ policy = Some p) \/
    (getPolicy client pid = Resolved None /\
     exists all, listPolicies client = Resolved all /\
                 policy = findPolicy pid all))).

(** The calls the resolution of the policy makes. *)
Definition resolutionCalls (client : BindClient) (sp : SharedProof)
    (pid : string) : list ClientCall :=
  match policySpec sp with
  | Some _ => []
  | None =>
      match getPolicy client pid with
      | Resolved None => [GetPolicy pid; ListPolicies]
      | _ => [GetPolicy pid]
      end
  end.

(** The steps a run announces are numbered without a gap: they are the
    first steps of a complete verification, with or without the
    validation of the policy. *)
Definition consecutiveSteps (r : Run unit) : Prop :=
  exists validated n,
    stepsOf (trace r) = firstn n (expectedSteps validated).

(** A run writes one error line when it exits, with code 1, and none
    when it returns or throws. *)
Definition oneErrorPerExit (r : Run unit) : Prop :=
  match outcome r with
  | Exited code => code = 1 /\ exists msg, errorsOf (trace r) = [msg]
  | _ => errorsOf (trace r) = []
  end.

(** The place of a call in a verification: the fetch of the shared
    proof, the two lookups of the policy, the issuance and the
    verification of the credential. *)
Definition callRank (c : ClientCall) : nat :=
  match c with
  | GetSharedProof _ => 0
  | GetPolicy _ => 1
  | ListPolicies => 2
  | IssueProofCredential _ => 3
  | VerifyCredential _ => 4
  end.

Fixpoint ascending (ranks : list nat) : bool :=
  match ranks with
  | a :: (b :: _) as rest => (a <? b)%nat && ascending rest
  | _ => true
  end.

(** The calls of a run come in the order of their places, each place at
    most once. *)
Definition callsInOrder (r : Run unit) : Prop :=
  ascending (map callRank (callsOf (trace r))) = true.

(** The shared proof passed the checks made before its policy is
    resolved, its policy was resolved to [policy], the policy, when
    there is one, passed [validate], and the proof is fresh for the TTL
    [resolvedTtl] gives. *)
Definition cleared (validate : PolicyLike -> Run bool)
    (resolvedTtl : option PolicyLike -> option Double)
    (host : Host) (client : BindClient) (sp : SharedProof)
    (policy : option PolicyLike) : Prop :=
  stopped host sp = false /\
  (exists pid, policyId (proveJob sp) = Some pid /\
               resolvesTo client sp pid policy) /\
  (forall p, policy = Some p -> outcome (validate p) = Returned true) /\
  leNumber (ageDays host (completedAt (proveJob sp)) (createdAt sp))
    (resolvedTtl policy) = true.

(** A run that returns had a cleared proof and a credential that the
    service issued and found valid. *)
Definition successMeans (validate : PolicyLike -> Run bool)
    (resolvedTtl : option PolicyLike -> option Double)
    (host : Host) (client : BindClient) (id : string) (r : Run unit) : Prop :=
  outcome r = Returned tt ->
  exists sp policy cred vr,
    getSharedProof client id = Resolved sp /\
    cleared validate resolvedTtl host client sp policy /\
    issueProofCredential client (proveJobId sp) = Resolved cred /\
    verifyCredential client (jwt cred) = Resolved vr /\
    valid vr = true.

(** A run that asks for a credential does so for the job of a cleared
    proof. *)
Definition issuanceMeans (validate : PolicyLike -> Run bool)
    (resolvedTtl : option PolicyLike -> option Double)
    (host : Host) (client : BindClient) (id : string) (r : Run unit) : Prop :=
  forall job, In (IssueProofCredential job) (callsOf (trace r)) ->
  exists sp policy,
    getSharedProof client id = Resolved sp /\
    job = proveJobId sp /\
    cleared validate resolvedTtl host client sp policy.

(** A run looks a policy up only for a shared proof that embeds none,
    and lists the policies only when the service has none for the id. *)
Definition lookupMeans (client : BindClient) (id : string) (r : Run unit)
  : Prop :=
  (forall pid, In (GetPolicy pid) (callsOf (trace r)) ->
     exists sp, getSharedProof client id = Resolved sp /\
                policySpec sp = None /\
                policyId (proveJob sp) = Some pid) /\
  (In ListPolicies (callsOf (trace r)) ->
     exists sp pid, getSharedProof client id = Resolved sp /\
                    policySpec sp = None /\
                    policyId (proveJob sp) = Some pid /\
                    getPolicy client pid = Resolved None).

(** An exception leaves a run only when the fetch of the shared proof
    or a lookup of the policy is rejected. *)
Definition thrownMeans (client : BindClient) (id : string) (r : Run unit)
  : Prop :=
  forall e, outcome r = Thrown e ->
  getSharedProof client id = Rejected e \/
  exists sp pid,
    getSharedProof client id = Resolved sp /\
    policyId (proveJob sp) = Some pid /\
    policySpec sp = None /\
    (getPolicy client pid = Rejected e \/
     (getPolicy client pid = Resolved None /\
      listPolicies client = Rejected e)).

(** A service on which a verification succeeds. *)
Definition sampleCredential : Credential :=
  {| credentialId := "cred-1"; format := "compact";
     issuedAt := "2024-01-02T00:00:00.000Z"; jwt := "header.payload.signature" |}.

Definition sampleVerified (cs : Claims) : VerifyResult :=
  {| valid := true; issuer := "did:web:bind"; subject := None;
     verifyError := None; claims := cs |}.

Definition willingClient (sp : SharedProof) (cs : Claims) : BindClient :=
  {| getSharedProof := fun _ => Resolved sp;
     getPolicy := fun _ => Resolved None;
     listPolicies := Resolved [];
     issueProofCredential := fun _ => Resolved sampleCredential;
     verifyCredential := fun _ => Resolved (sampleVerified cs) |}.

Definition sharedRiskProof : SharedProof :=
  sampleSharedProof None None (Some "bind.mobility.basicriskband").

(** What holds of every run of a shared-proof verification. *)
Definition sharedRunInvariants (validate : PolicyLike -> Run bool)
    (resolvedTtl : option PolicyLike -> option Double)
    (host : Host) (client : BindClient) (id : string) (r : Run unit) : Prop :=
  consecutiveSteps r /\ oneErrorPerExit r /\ callsInOrder r /\
  successMeans validate resolvedTtl host client id r /\
  issuanceMeans validate resolvedTtl host client id r /\
  lookupMeans client id r /\
  thrownMeans client id r.

(** A shared proof without an embedded policy, and a service that
    rejects every call. *)
Definition bareSharedProof : SharedProof :=
  {| proveJobId := "job-2";
     proveJob := {| circuitName := "bind.demo.credit_score.v0_1_0";
                    policyId := Some "bind.demo.credit-score";
                    completedAt := None |};
     sharingOrgId := "org-prover";
     createdAt := "2024-01-01T00:00:00.000Z";
     note := None;
     revokedAt := None;
     expiresAt := None;
     policySpec := None |}.

Definition unreachableClient : BindClient :=
  {| getSharedProof := fun _ => Rejected "fetch failed";
     getPolicy := fun _ => Rejected "fetch failed";
     listPolicies := Rejected "fetch failed";
     issueProofCredential := fun _ => Rejected "fetch failed";
     verifyCredential := fun _ => Rejected "fetch failed" |}.

(** ** Direct verification and the entry point

    The direct variant fetches the prove job and its circuit before it
    goes the way of the shared variant.  Its runs record these two
    calls besides the items of a shared run.  The handler of the
    rejected promise of [main] ([main().catch(console.error)]) is not
    part of the embedding. *)

Inductive DirectCall : Type :=
| GetProveJob (jobId : string)
| GetCircuit (circuitId : string).

Definition DirectItem : Type := (Item + DirectCall)%type.

Definition DirectRun (A : Type) : Type := (list DirectItem * Outcome A)%type.

(** A run of the shared kind, as part of a direct run. *)
Definition liftRun {A} (r : Run A) : DirectRun A :=
  (map inl (trace r), outcome r).

Definition dret {A} (a : A) : DirectRun A := ([], Returned a).

Definition dbind {A B} (m : DirectRun A) (k : A -> DirectRun B)
  : DirectRun B :=
  match m with
  | (t, Returned a) => let (t', o) := k a in ((t ++ t')%list, o)
  | (t, Exited code) => (t, Exited code)
  | (t, Thrown e) => (t, Thrown e)
  end.

(** [try { m } catch (error) { handler(message) }] *)
Definition dcatch {A} (m : DirectRun A) (handler : string -> DirectRun A)
  : DirectRun A :=
  match m with
  | (t, Thrown e) => let (t', o) := handler e in ((t ++ t')%list, o)
  | _ => m
  end.

Definition dlog (line : string) : DirectRun unit := liftRun (log line).
Definition derror (line : string) : DirectRun unit := liftRun (error line).
Definition dexit {A} (code : Z) : DirectRun A := ([], Exited code).

Definition dawait {A} (c : DirectCall) (r : Response A) : DirectRun A :=
  match r with
  | Resolved a => ([inr c], Returned a)
  | Rejected e => ([inr c], Thrown e)
  end.

(** The items of the shared kind and the direct calls of a direct run. *)
Definition sharedItems (t : list DirectItem) : list Item :=
  flat_map (fun i => match i with inl x => [x] | inr _ => [] end) t.

Definition directCallsOf (t : list DirectItem) : list DirectCall :=
  flat_map (fun i => match i with inr c => [c] | inl _ => [] end) t.

Declare Scope direct_scope.
Delimit Scope direct_scope with direct.

Notation "x <- m ;; k" := (dbind m (fun x => k))
  (at level 61, m at next level, right associativity) : direct_scope.
Notation "m ;; k" := (dbind m (fun _ => k))
  (at level 61, right associativity) : direct_scope.

(** The prove job and the circuit as the scripts read them; a field is
    the text its template literal renders. *)
Module ProveJob.
Record t : Type := mk {
  jobId : string;
  circuitId : string;
  status : string;
  verificationMode : string;
  completedAt : option string;
  createdAt : string
}.
End ProveJob.

Module Circuit.
Record t : Type := mk {
  name : string;
  circuitId : string;
  policyId : option string
}.
End Circuit.

(** The client of the direct variant: the calls of the shared variant
    and the two fetches. *)
Record DirectClient : Type := mkDirectClient {
  shared : BindClient;
  getProveJob : string -> Response ProveJob.t;
  getCircuit : string -> Response Circuit.t
}.

(** [process.env], and [new BindClient({ apiKey, baseUrl })]. *)
Definition Env : Type := string -> option string.

Definition Connect : Type := string -> option string -> DirectClient.

(** [policy?.metadata?.title ?? circuit.policyId ?? job.circuitId] *)
Definition directTitle (policy : option PolicyLike) (circuit : Circuit.t)
    (job : ProveJob.t) : string :=
  let fallback :=
    match Circuit.policyId circuit with
    | Some pid => pid
    | None => ProveJob.circuitId job
    end in
  match policy with
  | Some p => match title p with Some t => t | None => fallback end
  | None => fallback
  end.

(** The em dash of the messages, in UTF-8. *)
Definition emDash : string :=
  String (ascii_of_nat 226) (String (ascii_of_nat 128)
    (String (ascii_of_nat 148) EmptyString)).

(** ** Direct verification of the vehicle risk band *)
Module RiskDirect.
Local Open Scope direct_scope.

Definition verifyDirect (host : Host) (client : DirectClient)
    (proveJobId : string) : DirectRun unit :=
  dlog "Direct Verification: Verifying proof from prove job" ;;
  dlog (repeat_ "=" 60) ;;
  dlog "" ;;
  dlog "Step 1: Fetching prove job..." ;;
  job <- dawait (GetProveJob proveJobId) (getProveJob client proveJobId) ;;
  dlog ("  Job ID: " ++ ProveJob.jobId job) ;;
  dlog ("  Circuit: " ++ ProveJob.circuitId job) ;;
  dlog ("  Status: " ++ ProveJob.status job) ;;
  dlog ("  Verification Mode: " ++ ProveJob.verificationMode job) ;;
  dlog "" ;;
  (if negb (String.eqb (ProveJob.status job) "completed")
   then (derror ("Error: Job status is " ++ dquote ++ ProveJob.status job
                 ++ dquote ++ " " ++ emDash
                 ++ " only completed jobs can be verified") ;;
         dexit 1)
   else dret tt) ;;
  dlog "Step 2: Looking up circuit and policy..." ;;
  circuit <- dawait (GetCircuit (ProveJob.circuitId job))
               (getCircuit client (ProveJob.circuitId job)) ;;
  dlog ("  Circuit: " ++ Circuit.name circuit
        ++ " (" ++ Circuit.circuitId circuit ++ ")") ;;
  found <-
    (match Circuit.policyId circuit with
     | Some pid =>
         if truthy pid then
           dlog ("  Policy ID: " ++ pid) ;;
           dlog "" ;;
           policy <-
             dcatch (liftRun (await (GetPolicy pid)
                                (getPolicy (shared client) pid)))
               (fun _ => dret None) ;;
           policy <-
             (match policy with
              | Some p => dret (Some p)
              | None =>
                  dcatch
                    (allPolicies <- liftRun (await ListPolicies
                                       (listPolicies (shared client))) ;;
                     dret (findPolicy pid allPolicies))
                    (fun _ => dret None)
              end) ;;
           match policy with
           | Some p =>
               policyValidated <- liftRun (Risk.validatePolicy p) ;;
               dret (Some p, policyValidated)
           | None =>
               dlog ("  Policy not found: " ++ pid) ;;
               dlog "  Skipping policy validation." ;;
               dlog "" ;;
               dret (None, false)
           end
         else
           dlog "  No policy associated with this circuit." ;;
           dlog "" ;;
           dret (None, false)
     | None =>
         dlog "  No policy associated with this circuit." ;;
         dlog "" ;;
         dret (None, false)
     end) ;;
  let policy : option PolicyLike := fst found in
  let policyValidated : bool := snd found in
  let freshnessStep := if policyValidated then 4 else 3 in
  liftRun (Risk.checkFreshness host (ProveJob.completedAt job)
             (ProveJob.createdAt job) policy freshnessStep) ;;
  let step := freshnessStep + 1 in
  dlog ("Step " ++ Z_to_string step ++ ": Issuing proof credential...") ;;
  credential <-
    dcatch
      (credential <- liftRun (await (IssueProofCredential proveJobId)
                         (issueProofCredential (shared client) proveJobId)) ;;
       dlog ("  Credential ID: " ++ credentialId credential) ;;
       dlog ("  Format: " ++ format credential) ;;
       dlog ("  Issued At: " ++ issuedAt credential) ;;
       dret credential)
      (fun message =>
         derror ("Failed to issue credential: " ++ message) ;; dexit 1) ;;
  dlog "" ;;
  let step := step + 1 in
  dlog ("Step " ++ Z_to_string step ++ ": Verifying credential...") ;;
  dcatch
    (verifyResult <- liftRun (await (VerifyCredential (jwt credential))
                        (verifyCredential (shared client) (jwt credential))) ;;
     (if negb (valid verifyResult)
      then (derror ("Credential is invalid: "
                    ++ orUndefined (verifyError verifyResult)) ;;
            dexit 1)
      else dret tt) ;;
     dlog ("  Issuer: " ++ issuer verifyResult) ;;
     (match subject verifyResult with
      | Some s => if truthy s then dlog ("  Subject: " ++ s) else dret tt
      | None => dret tt
      end) ;;
     dlog "" ;;
     let step := step + 1 in
     dlog ("Step " ++ Z_to_string step ++ ": Processing verification result...") ;;
     liftRun (Risk.displayResults host (claims verifyResult) policy
       {| policyTitle := directTitle policy circuit job;
          summaryCircuit := Circuit.name circuit;
          prover := "(same org " ++ emDash ++ " direct verification)" |}))
    (fun message =>
       derror ("Credential verification error: " ++ message) ;; dexit 1).

Definition main (env : Env) (connect : Connect) (host : Host)
  : DirectRun unit :=
  let proveJobId := env "PROVE_JOB_ID" in
  let sharedProofId := env "SHARED_PROOF_ID" in
  match (if truthy_opt proveJobId then proveJobId else None) with
  | Some jobId =>
      apiKey <-
        (match env "BIND_API_KEY" with
         | Some k =>
             if truthy k then dret k
             else (derror "Error: BIND_API_KEY environment variable is required for direct verification" ;;
                   dexit 1)
         | None =>
             derror "Error: BIND_API_KEY environment variable is required for direct verification" ;;
             dexit 1
         end) ;;
      verifyDirect host (connect apiKey (env "BIND_API_URL")) jobId
  | None =>
      match (if truthy_opt sharedProofId then sharedProofId else None) with
      | Some proofId =>
          apiKey <-
            (match env "BIND_VERIFIER_API_KEY" with
             | Some k =>
                 if truthy k then dret k
                 else (derror "Error: BIND_VERIFIER_API_KEY environment variable is required for shared proof verification" ;;
                       dexit 1)
             | None =>
                 derror "Error: BIND_VERIFIER_API_KEY environment variable is required for shared proof verification" ;;
                 dexit 1
             end) ;;
          liftRun (Risk.verifySharedProof host
                     (shared (connect apiKey (env "BIND_API_URL"))) proofId)
      | None =>
          derror "Error: No proof specified. Use one of:" ;;
          dlog "" ;;
          dlog "  Direct verification (same org, after proving):" ;;
          dlog "    PROVE_JOB_ID=<job-id> npm run verify" ;;
          dlog "" ;;
          dlog "  Shared proof verification (cross-org):" ;;
          dlog "    SHARED_PROOF_ID=<id> BIND_VERIFIER_API_KEY=<key> npm run verify" ;;
          dexit 1
      end
  end.

End RiskDirect.

(** ** Direct verification of the credit score *)
Module CreditDirect.
Local Open Scope direct_scope.

Definition verifyDirect (host : Host) (client : DirectClient)
    (proveJobId : string) : DirectRun unit :=
  dlog "Direct Verification: Verifying proof from prove job" ;;
  dlog (repeat_ "=" 60) ;;
  dlog "" ;;
  dlog "Step 1: Fetching prove job..." ;;
  job <- dawait (GetProveJob proveJobId) (getProveJob client proveJobId) ;;
  dlog ("  Job ID: " ++ ProveJob.jobId job) ;;
  dlog ("  Circuit: " ++ ProveJob.circuitId job) ;;
  dlog ("  Status: " ++ ProveJob.status job) ;;
  dlog ("  Verification Mode: " ++ ProveJob.verificationMode job) ;;
  dlog "" ;;
  (if negb (String.eqb (ProveJob.status job) "completed")
   then (derror ("Error: Job status is " ++ dquote ++ ProveJob.status job
                 ++ dquote ++ " " ++ emDash
                 ++ " only completed jobs can be verified") ;;
         dexit 1)
   else dret tt) ;;
  dlog "Step 2: Looking up circuit and policy..." ;;
  circuit <- dawait (GetCircuit (ProveJob.circuitId job))
               (getCircuit client (ProveJob.circuitId job)) ;;
  dlog ("  Circuit: " ++ Circuit.name circuit
        ++ " (" ++ Circuit.circuitId circuit ++ ")") ;;
  found <-
    (match Circuit.policyId circuit with
     | Some pid =>
         if truthy pid then
           dlog ("  Policy ID: " ++ pid) ;;
           dlog "" ;;
           policy <-
             dcatch (liftRun (await (GetPolicy pid)
                                (getPolicy (shared client) pid)))
               (fun _ => dret None) ;;
           policy <-
             (match policy with
              | Some p => dret (Some p)
              | None =>
                  dcatch
                    (allPolicies <- liftRun (await ListPolicies
                                       (listPolicies (shared client))) ;;
                     dret (findPolicy pid allPolicies))
                    (fun _ => dret None)
              end) ;;
           match policy with
           | Some p =>
               policyValidated <- liftRun (Credit.validatePolicy p) ;;
               dret (Some p, policyValidated)
           | None =>
               dlog ("  Policy not found: " ++ pid) ;;
               dlog "  Skipping policy validation." ;;
               dlog "" ;;
               dret (None, false)
           end
         else
           dlog "  No policy associated with this circuit." ;;
           dlog "" ;;
           dret (None, false)
     | None =>
         dlog "  No policy associated with this circuit." ;;
         dlog "" ;;
         dret (None, false)
     end) ;;
  let policy : option PolicyLike := fst found in
  let policyValidated : bool := snd found in
  let freshnessStep := if policyValidated then 4 else 3 in
  liftRun (Credit.checkFreshness host (ProveJob.completedAt job)
             (ProveJob.createdAt job) policy freshnessStep) ;;
  let step := freshnessStep + 1 in
  dlog ("Step " ++ Z_to_string step ++ ": Issuing proof credential...") ;;
  credential <-
    dcatch
      (credential <- liftRun (await (IssueProofCredential proveJobId)
                         (issueProofCredential (shared client) proveJobId)) ;;
       dlog ("  Credential ID: " ++ credentialId credential) ;;
       dlog ("  Format: " ++ format credential) ;;
       dlog ("  Issued At: " ++ issuedAt credential) ;;
       dret credential)
      (fun message =>
         derror ("Failed to issue credential: " ++ message) ;; dexit 1) ;;
  dlog "" ;;
  let step := step + 1 in
  dlog ("Step " ++ Z_to_string step ++ ": Verifying credential...") ;;
  dcatch
    (verifyResult <- liftRun (await (VerifyCredential (jwt credential))
                        (verifyCredential (shared client) (jwt credential))) ;;
     (if negb (valid verifyResult)
      then (derror ("Credential is invalid: "
                    ++ orUndefined (verifyError verifyResult)) ;;
            dexit 1)
      else dret tt) ;;
     dlog ("  Issuer: " ++ issuer verifyResult) ;;
     (match subject verifyResult with
      | Some s => if truthy s then dlog ("  Subject: " ++ s) else dret tt
      | None => dret tt
      end) ;;
     dlog "" ;;
     let step := step + 1 in
     dlog ("Step " ++ Z_to_string step ++ ": Processing verification result...") ;;
     liftRun (Credit.displayResults (claims verifyResult)
       {| policyTitle := directTitle policy circuit job;
          summaryCircuit := Circuit.name circuit;
          prover := "(same org " ++ emDash ++ " direct verification)" |}))
    (fun message =>
       derror ("Credential verification error: " ++ message) ;; dexit 1).

Definition main (env : Env) (connect : Connect) (host : Host)
  : DirectRun unit :=
  let proveJobId := env "PROVE_JOB_ID" in
  let sharedProofId := env "SHARED_PROOF_ID" in
  match (if truthy_opt proveJobId then proveJobId else None) with
  | Some jobId =>
      apiKey <-
        (match env "BIND_API_KEY" with
         | Some k =>
             if truthy k then dret k
             else (derror "Error: BIND_API_KEY environment variable is required for direct verification" ;;
                   dexit 1)
         | None =>
             derror "Error: BIND_API_KEY environment variable is required for direct verification" ;;
             dexit 1
         end) ;;
      verifyDirect host (connect apiKey (env "BIND_API_URL")) jobId
  | None =>
      match (if truthy_opt sharedProofId then sharedProofId else None) with
      | Some proofId =>
          apiKey <-
            (match env "BIND_VERIFIER_API_KEY" with
             | Some k =>
                 if truthy k then dret k
                 else (derror "Error: BIND_VERIFIER_API_KEY environment variable is required for shared proof verification" ;;
                       dexit 1)
             | None =>
                 derror "Error: BIND_VERIFIER_API_KEY environment variable is required for shared proof verification" ;;
                 dexit 1
             end) ;;
          liftRun (Credit.verifySharedProof host
                     (shared (connect apiKey (env "BIND_API_URL"))) proofId)
      | None =>
          derror "Error: No proof specified. Use one of:" ;;
          dlog "" ;;
          dlog "  Direct verification (same org, after proving):" ;;
          dlog "    PROVE_JOB_ID=<job-id> npm run verify" ;;
          dlog "" ;;
          dlog "  Shared proof verification (cross-org):" ;;
          dlog "    SHARED_PROOF_ID=<id> BIND_VERIFIER_API_KEY=<key> npm run verify" ;;
          dexit 1
      end
  end.

End CreditDirect.

(** ** Observations on a direct run *)

Definition directTrace {A} (r : DirectRun A) : list DirectItem := fst r.
Definition directOutcome {A} (r : DirectRun A) : Outcome A := snd r.

(** The policy a direct verification works with: none for a circuit
    without a policy id; else the policy the service returns for the
    id; else, when that lookup is rejected or returns none, the policy
    of that id in the listing of all policies, if the listing is
    answered and holds one. *)
Definition directPolicy (client : BindClient) (circuit : Circuit.t)
  : option PolicyLike :=
  match Circuit.policyId circuit with
  | Some pid =>
      if truthy pid then
        match getPolicy client pid with
        | Resolved (Some p) => Some p
        | _ =>
            match listPolicies client with
            | Resolved all => findPolicy pid all
            | Rejected _ => None
            end
        end
      else None
  | None => None
  end.

(** The job was fetched and is completed, its circuit was fetched, the
    policy of the circuit, when one was found, passed [validate], and
    the proof is fresh for the TTL [resolvedTtl] gives. *)
Definition directCleared (validate : PolicyLike -> Run bool)
    (resolvedTtl : option PolicyLike -> option Double)
    (host : Host) (client : DirectClient) (id : string)
    (job : ProveJob.t) (circuit : Circuit.t) : Prop :=
  getProveJob client id = Resolved job /\
  ProveJob.status job = "completed" /\
  getCircuit client (ProveJob.circuitId job) = Resolved circuit /\
  (forall p, directPolicy (shared client) circuit = Some p ->
             outcome (validate p) = Returned true) /\
  leNumber (ageDays host (ProveJob.completedAt job) (ProveJob.createdAt job))
    (resolvedTtl (directPolicy (shared client) circuit)) = true.

(** An exception leaves a direct run only when the fetch of the job or
    of the circuit is rejected. *)
Definition directThrownMeans (client : DirectClient) (id : string)
    (r : DirectRun unit) : Prop :=
  forall e, directOutcome r = Thrown e ->
  getProveJob client id = Rejected e \/
  exists job,
    getProveJob client id = Resolved job /\
    ProveJob.status job = "completed" /\
    getCircuit client (ProveJob.circuitId job) = Rejected e.

(** A direct run asks for a credential, for the job it was given,
    exactly when the job is cleared. *)
Definition directIssuanceMeans (validate : PolicyLike -> Run bool)
    (resolvedTtl : option PolicyLike -> option Double)
    (host : Host) (client : DirectClient) (id : string)
    (r : DirectRun unit) : Prop :=
  forall j,
    In (IssueProofCredential j) (callsOf (sharedItems (directTrace r))) <->
    j = id /\
    exists job circuit,
      directCleared validate resolvedTtl host client id job circuit.

(** A direct run returns exactly when the job is cleared and its
    credential is issued and found valid. *)
Definition directSuccessMeans (validate : PolicyLike -> Run bool)
    (resolvedTtl : option PolicyLike -> option Double)
    (host : Host) (client : DirectClient) (id : string)
    (r : DirectRun unit) : Prop :=
  directOutcome r = Returned tt <->
  exists job circuit cred vr,
    directCleared validate resolvedTtl host client id job circuit /\
    issueProofCredential (shared client) id = Resolved cred /\
    verifyCredential (shared client) (jwt cred) = Resolved vr /\
    valid vr = true.

(** A direct run never fetches a shared proof. *)
Definition noSharedFetch (r : DirectRun unit) : Prop :=
  forall sid, ~ In (GetSharedProof sid) (callsOf (sharedItems (directTrace r))).

(** What holds of every run of a direct verification. *)
Definition directRunInvariants (validate : PolicyLike -> Run bool)
    (resolvedTtl : option PolicyLike -> option Double)
    (host : Host) (client : DirectClient) (id : string)
    (r : DirectRun unit) : Prop :=
  directThrownMeans client id r /\
  directIssuanceMeans validate resolvedTtl host client id r /\
  directSuccessMeans validate resolvedTtl host client id r /\
  noSharedFetch r.

(** A variable of the environment is set, to a non-empty string. *)
Definition isSet (env : Env) (variable : string) : bool :=
  truthy_opt (env variable).

(** The identifier and its own key are both set, for the direct mode or,
    when no job is named, for the shared-proof mode. *)
Definition credentialsGiven (env : Env) : bool :=
  (isSet env "PROVE_JOB_ID" && isSet env "BIND_API_KEY")
  || (negb (isSet env "PROVE_JOB_ID") && isSet env "SHARED_PROOF_ID"
      && isSet env "BIND_VERIFIER_API_KEY").

(** How an entry point chooses its mode: a named job selects the direct
    mode, in which nothing set for the shared-proof mode is read and no
    shared proof is fetched; without a named job neither the job nor
    the circuit is fetched; and without the identifier and the key of
    the mode the process exits with code 1 after one error line and no
    call to the service. *)
Definition modeSelection (main : Env -> Connect -> Host -> DirectRun unit)
  : Prop :=
  forall env connect host,
    (isSet env "PROVE_JOB_ID" = true ->
       (forall env' : Env,
          env' "PROVE_JOB_ID" = env "PROVE_JOB_ID" ->
          env' "BIND_API_KEY" = env "BIND_API_KEY" ->
          env' "BIND_API_URL" = env "BIND_API_URL" ->
          main env' connect host = main env connect host) /\
       (forall sid,
          ~ In (GetSharedProof sid)
               (callsOf (sharedItems (directTrace (main env connect host)))))) /\
    (isSet env "PROVE_JOB_ID" = false ->
       directCallsOf (directTrace (main env connect host)) = []) /\
    (credentialsGiven env = false ->
       directOutcome (main env connect host) = Exited 1 /\
       directCallsOf (directTrace (main env connect host)) = [] /\
       callsOf (sharedItems (directTrace (main env connect host))) = [] /\
       exists msg,
         errorsOf (sharedItems (directTrace (main env connect host))) = [msg]).

(** A completed job of a circuit with a policy the service does not
    hold, a job still pending, and clients that answer with them. *)
Definition sampleJob (jobStatus : string) : ProveJob.t :=
  {| ProveJob.jobId := "job-1";
     ProveJob.circuitId := "bind.mobility.riskband.v0_1_0";
     ProveJob.status := jobStatus;
     ProveJob.verificationMode := "zkVerify";
     ProveJob.completedAt := Some "2024-01-01T00:00:00.000Z";
     ProveJob.createdAt := "2024-01-01T00:00:00.000Z" |}.

Definition sampleCircuit : Circuit.t :=
  {| Circuit.name := "Basic Risk Band";
     Circuit.circuitId := "bind.mobility.riskband.v0_1_0";
     Circuit.policyId := Some "bind.mobility.basicriskband" |}.

Definition directClient (jobStatus : string) (cs : Claims) : DirectClient :=
  {| shared := willingClient bareSharedProof cs;
     getProveJob := fun _ => Resolved (sampleJob jobStatus);
     getCircuit := fun _ => Resolved sampleCircuit |}.

Definition unreachableDirectClient : DirectClient :=
  {| shared := unreachableClient;
     getProveJob := fun _ => Rejected "fetch failed";
     getCircuit := fun _ => Rejected "fetch failed" |}.

(** An environment that names a job and a shared proof but holds the
    key of the shared-proof mode only. *)
Definition sampleEnv : Env :=
  fun variable =>
    if String.eqb variable "PROVE_JOB_ID" then Some "job-1"
    else if String.eqb variable "SHARED_PROOF_ID" then Some "shared-1"
    else if String.eqb variable "BIND_VERIFIER_API_KEY" then Some "key-1"
    else None.

Definition sampleConnect : Connect :=
  fun _ _ => directClient "completed" [].

(** * Properties *)

(** ** Runs *)

Lemma logEach_run (lines : list string) :
  logEach lines = (map Log lines, Returned tt).
Proof.
  induction lines as [|l lines IH]; [reflexivity|].
  simpl. rewrite IH. reflexivity.
Qed.

Lemma in_bind_l {A B} (m : Run A) (k : A -> Run B) (x : Item) :
  In x (trace m) -> In x (trace (bind m k)).
Proof.
  destruct m as [t [a | code | e]]; simpl; intros Hin; try assumption.
  destruct (k a) as [t' o]. simpl. apply in_or_app. now left.
Qed.

Lemma in_bind_r {A B} (m : Run A) (k : A -> Run B) (a : A) (x : Item) :
  outcome m = Returned a -> In x (trace (k a)) -> In x (trace (bind m k)).
Proof.
  destruct m as [t o]. simpl. intros -> Hin.
  destruct (k a) as [t' o']. simpl in *. apply in_or_app. now right.
Qed.


(** [process.exit] is final: whatever follows is not run. *)
Lemma exit_is_final {A B} (m : Run A) (k : A -> Run B) (code : Z) :
  outcome m = Exited code ->
  outcome (bind m k) = Exited code /\ trace (bind m k) = trace m.
Proof.
  destruct m as [t o]. simpl. intros ->. split; reflexivity.
Qed.

(** ** TTL parsing *)

Lemma isD_not_digit (d : ascii) : isD d = true -> isDigit d = false.
Proof.
  unfold isD. intros H. apply orb_true_iff in H.
  destruct H as [H | H]; apply Ascii.eqb_eq in H; subst; reflexivity.
Qed.

Lemma isDigit_not_P (c : ascii) : isDigit c = true -> isP c = false.
Proof.
  intros H. unfold isP.
  destruct (Ascii.eqb c "P") eqn:E1.
  - apply Ascii.eqb_eq in E1. subst. discriminate.
  - destruct (Ascii.eqb c "p") eqn:E2; [|reflexivity].
    apply Ascii.eqb_eq in E2. subst. discriminate.
Qed.

Lemma spanDigits_app (ds tl : string) :
  allDigits ds = true ->
  match tl with String c _ => isDigit c = false | EmptyString => True end ->
  spanDigits (ds ++ tl) = (ds, tl).
Proof.
  intros Hds Htl. induction ds as [|c ds IH]; simpl in *.
  - destruct tl as [|c tl]; [reflexivity|]. simpl. now rewrite Htl.
  - apply andb_true_iff in Hds. destruct Hds as [Hc Hds].
    rewrite Hc, (IH Hds). reflexivity.
Qed.

Lemma spanDigits_split (s : string) :
  let (ds, tl) := spanDigits s in
  s = ds ++ tl /\ allDigits ds = true /\
  match tl with String c _ => isDigit c = false | EmptyString => True end.
Proof.
  induction s as [|c s IH]; simpl.
  - auto.
  - destruct (isDigit c) eqn:Hc.
    + destruct (spanDigits s) as [ds tl]. destruct IH as (-> & Hds & Htl).
      simpl. rewrite Hc, Hds. auto.
    + simpl. auto.
Qed.

Lemma simpleMatch_complete (ds : string) (d : ascii) :
  digitSequence ds -> isD d = true ->
  simpleMatch (ds ++ String d EmptyString) = Some ds.
Proof.
  intros [Hne Hds] Hd. unfold simpleMatch.
  rewrite spanDigits_app; auto using isD_not_digit.
  destruct ds; [congruence|]. now rewrite Hd.
Qed.

Lemma simpleMatch_sound (s g : string) :
  simpleMatch s = Some g -> digitSequence g /\ dayCount s g.
Proof.
  unfold simpleMatch. pose proof (spanDigits_split s) as H.
  destruct (spanDigits s) as [ds tl]. destruct H as (-> & Hds & _).
  destruct ds as [|c ds]; [discriminate|].
  destruct tl as [|d [|? ?]]; try discriminate.
  destruct (isD d) eqn:Hd; [|discriminate].
  intros [= <-]. split; [split; [discriminate|assumption]|].
  exists d. auto.
Qed.

Lemma isoMatch_complete (p d : ascii) (ds : string) :
  digitSequence ds -> isP p = true -> isD d = true ->
  isoMatch (String p (ds ++ String d EmptyString)) = Some ds.
Proof.
  intros Hds Hp Hd. simpl. rewrite Hp. now apply simpleMatch_complete.
Qed.

Lemma isoMatch_sound (s g : string) :
  isoMatch s = Some g -> digitSequence g /\ isoDuration s g.
Proof.
  destruct s as [|p s]; [discriminate|]. simpl.
  destruct (isP p) eqn:Hp; [|discriminate].
  intros H. apply simpleMatch_sound in H. destruct H as (Hg & d & Hd & ->).
  split; [assumption|]. exists p, d. auto.
Qed.

Lemma isoMatch_dayCount (ds : string) (d : ascii) :
  digitSequence ds -> isoMatch (ds ++ String d EmptyString) = None.
Proof.
  intros [Hne Hds]. destruct ds as [|c ds]; [congruence|]. simpl in *.
  apply andb_true_iff in Hds. destruct Hds as [Hc _].
  now rewrite (isDigit_not_P _ Hc).
Qed.

Lemma parseDigits_numeral (ds : string) (acc : Z) :
  allDigits ds = true ->
  parseDigits acc ds = acc * 10 ^ Z.of_nat (String.length ds) + numeral ds.
Proof.
  revert acc. induction ds as [|c ds IH]; intros acc Hds.
  - simpl. lia.
  - simpl in Hds. apply andb_true_iff in Hds. destruct Hds as [Hc Hds].
    cbn [parseDigits numeral String.length]. rewrite Hc, (IH _ Hds).
    rewrite Nat2Z.inj_succ, Z.pow_succ_r by lia. ring.
Qed.

Lemma toDouble_exact (z : Z) : z <= 2 ^ 53 -> toDouble z = Finite z.
Proof.
  intros Hz. unfold toDouble.
  destruct (Z.leb_spec z (2 ^ 53)); [reflexivity | lia].
Qed.

Lemma toDouble_nonneg (z : Z) :
  0 <= z ->
  match toDouble z with Finite v => 0 <= v | Infinity => True end.
Proof.
  intros Hz. unfold toDouble.
  destruct (z <=? 2 ^ 53); [exact Hz|]. cbv zeta.
  match goal with |- context [Z.shiftl ?q ?e <? _] =>
    destruct (Z.shiftl q e <? 2 ^ 1024); [|exact I];
    assert (Hq : 0 <= q)
  end.
  { assert (0 <= Z.shiftr z (Z.log2 z - 52)) by (apply Z.shiftr_nonneg; lia).
    repeat match goal with |- context [if ?b then _ else _] => destruct b end;
      lia. }
  apply Z.shiftl_nonneg. exact Hq.
Qed.

Lemma parseInt10_numeral (ds : string) :
  digitSequence ds -> parseInt10 ds = Some (toDouble (numeral ds)).
Proof.
  intros [Hne Hds]. destruct ds as [|c ds]; [congruence|].
  unfold parseInt10. pose proof Hds as Hc. simpl in Hc.
  apply andb_true_iff in Hc. destruct Hc as [Hc _]. rewrite Hc.
  rewrite parseDigits_numeral by assumption. reflexivity.
Qed.

Lemma parseTtl_iso (days : Z) (s ds : string) :
  digitSequence ds -> isoDuration s ds ->
  parseTtl days s = Some (toDouble (numeral ds)).
Proof.
  intros Hds (p & d & Hp & Hd & ->). unfold parseTtl.
  rewrite isoMatch_complete by assumption. now apply parseInt10_numeral.
Qed.

Lemma parseTtl_dayCount (days : Z) (s ds : string) :
  digitSequence ds -> dayCount s ds ->
  parseTtl days s = Some (toDouble (numeral ds)).
Proof.
  intros Hds (d & Hd & ->). unfold parseTtl.
  rewrite isoMatch_dayCount, simpleMatch_complete by assumption.
  now apply parseInt10_numeral.
Qed.

Lemma parseTtl_default (days : Z) (s : string) :
  (forall ds, digitSequence ds -> ~ isoDuration s ds /\ ~ dayCount s ds) ->
  parseTtl days s = Some (Finite days).
Proof.
  intros H. unfold parseTtl.
  destruct (isoMatch s) as [g|] eqn:Hiso.
  - apply isoMatch_sound in Hiso. destruct Hiso as [Hg Hs].
    now destruct (H g Hg).
  - destruct (simpleMatch s) as [g|] eqn:Hsim; [|reflexivity].
    apply simpleMatch_sound in Hsim. destruct Hsim as [Hg Hs].
    now destruct (H g Hg).
Qed.

Lemma numeral_nonneg (ds : string) : allDigits ds = true -> 0 <= numeral ds.
Proof.
  induction ds as [|c ds IH]; simpl; [lia|].
  intros H. apply andb_true_iff in H. destruct H as [Hc Hds].
  specialize (IH Hds). unfold isDigit in Hc. apply andb_true_iff in Hc.
  destruct Hc as [Hlo _]. apply Nat.leb_le in Hlo. unfold digitValue.
  assert (0 <= 10 ^ Z.of_nat (String.length ds)) by (apply Z.pow_nonneg; lia).
  nia.
Qed.

Lemma no_shape_of_no_match (s : string) :
  isoMatch s = None -> simpleMatch s = None ->
  forall ds, digitSequence ds -> ~ isoDuration s ds /\ ~ dayCount s ds.
Proof.
  intros Hiso Hsim ds Hds. split.
  - intros (p & d & Hp & Hd & ->).
    rewrite isoMatch_complete in Hiso by assumption. discriminate.
  - intros (d & Hd & ->).
    rewrite simpleMatch_complete in Hsim by assumption. discriminate.
Qed.

Lemma ttlDays_is_number (dflt : string) (days : Z) (policy : option PolicyLike) :
  0 <= days ->
  exists d, ttlDays dflt days policy = Some d /\
            match d with Finite n => 0 <= n | Infinity => True end.
Proof.
  intros Hdays. unfold ttlDays, parseTtl.
  destruct (isoMatch _) as [g|] eqn:Hiso.
  - apply isoMatch_sound in Hiso. destruct Hiso as [Hg _].
    rewrite (parseInt10_numeral Hg). eexists; split; [reflexivity|].
    apply toDouble_nonneg, numeral_nonneg, Hg.
  - destruct (simpleMatch _) as [g|] eqn:Hsim.
    + apply simpleMatch_sound in Hsim. destruct Hsim as [Hg _].
      rewrite (parseInt10_numeral Hg). eexists; split; [reflexivity|].
      apply toDouble_nonneg, numeral_nonneg, Hg.
    + eauto.
Qed.

(** C5, as the verifiers have it: a TTL of the form [P<N>D] or [<N>d],
    in either case of the letters, resolves to the Number of [N] in
    both verifiers, which is [N] days itself whenever [N] is at most
    2^53 and the nearest double beyond; a TTL of neither form, and the
    absence of a policy, resolve to the default of the domain: 90 days
    for the vehicle risk verifier, 30 days for the credit verifier. *)
Theorem ttl_parsing (policy : PolicyLike) (t : string) :
  ttl policy = Some t ->
  (forall ds, digitSequence ds -> isoDuration t ds \/ dayCount t ds ->
     (Risk.resolvedTtl (Some policy) = Some (toDouble (numeral ds)) /\
      Credit.resolvedTtl (Some policy) = Some (toDouble (numeral ds))) /\
     (numeral ds <= 2 ^ 53 ->
      Risk.resolvedTtl (Some policy) = Some (Finite (numeral ds)) /\
      Credit.resolvedTtl (Some policy) = Some (Finite (numeral ds)))) /\
  ((forall ds, digitSequence ds -> ~ isoDuration t ds /\ ~ dayCount t ds) ->
     Risk.resolvedTtl (Some policy) = Some (Finite 90) /\
     Credit.resolvedTtl (Some policy) = Some (Finite 30)) /\
  Risk.resolvedTtl None = Some (Finite 90) /\
  Credit.resolvedTtl None = Some (Finite 30).
Proof.
  intros Ht.
  unfold Risk.resolvedTtl, Credit.resolvedTtl, ttlDays. simpl ttlString.
  rewrite Ht. split; [|split; [|split; reflexivity]].
  - intros ds Hds Hshape.
    assert (Hboth : parseTtl 90 t = Some (toDouble (numeral ds)) /\
                    parseTtl 30 t = Some (toDouble (numeral ds))).
    { destruct Hshape as [Hiso | Hday]; split;
        first [now apply parseTtl_iso | now apply parseTtl_dayCount]. }
    split; [exact Hboth|].
    intros Hsmall. rewrite <- (toDouble_exact Hsmall). exact Hboth.
  - intros Hnone. split; now apply parseTtl_default.
Qed.

Lemma ttl_parsing_witness :
  Risk.resolvedTtl (Some (riskPolicy (Some "p045D"))) = Some (Finite 45) /\
  Credit.resolvedTtl (Some (riskPolicy (Some "p045D"))) = Some (Finite 45) /\
  Risk.resolvedTtl (Some (riskPolicy (Some "3 months"))) = Some (Finite 90) /\
  Credit.resolvedTtl (Some (riskPolicy (Some "3 months"))) = Some (Finite 30).
Proof.
  destruct (@ttl_parsing (riskPolicy (Some "p045D")) "p045D" eq_refl)
    as (Hmatch & _).
  destruct (@ttl_parsing (riskPolicy (Some "3 months")) "3 months" eq_refl)
    as (_ & Hdefault & _).
  assert (Hds : digitSequence "045") by (split; [discriminate | reflexivity]).
  assert (Hiso : isoDuration "p045D" "045")
    by (exists "p"%char, "D"%char; repeat split).
  destruct (Hmatch "045" Hds (or_introl Hiso)) as [_ Hexact].
  destruct Hexact as [Hr Hc]; [vm_compute; discriminate|].
  destruct (Hdefault (@no_shape_of_no_match "3 months" eq_refl eq_refl))
    as [Hr' Hc'].
  exact (conj Hr (conj Hc (conj Hr' Hc'))).
Defined.

(** C5, as stated, fails beyond 2^53, where not every integer is a
    Number: the TTL [P9007199254740993D] has the form [P<N>D] with
    [N = 9007199254740993] and resolves to 9007199254740992 days. *)
Lemma ttl_rounded_beyond_exact_integers :
  isoDuration "P9007199254740993D" "9007199254740993" /\
  digitSequence "9007199254740993" /\
  numeral "9007199254740993" = 9007199254740993 /\
  Risk.resolvedTtl (Some (riskPolicy (Some "P9007199254740993D")))
  = Some (Finite 9007199254740992) /\
  Credit.resolvedTtl (Some (riskPolicy (Some "P9007199254740993D")))
  = Some (Finite 9007199254740992) /\
  Risk.resolvedTtl (Some (riskPolicy (Some "P9007199254740993D")))
  <> Some (Finite 9007199254740993).
Proof.
  split; [exists "P"%char, "D"%char; repeat split|].
  split; [split; [discriminate | reflexivity]|].
  split; [reflexivity|]. split; [reflexivity|]. split; [reflexivity|].
  vm_compute. discriminate.
Qed.

(** A policy without a TTL resolves to the default as well. *)
Lemma ttl_absent_default (policy : PolicyLike) :
  ttl policy = None ->
  Risk.resolvedTtl (Some policy) = Some (Finite 90) /\
  Credit.resolvedTtl (Some policy) = Some (Finite 30).
Proof.
  intros Ht. unfold Risk.resolvedTtl, Credit.resolvedTtl, ttlDays. simpl.
  rewrite Ht. split; reflexivity.
Qed.

(** ** Freshness *)

Lemma risk_checkFreshness_outcome host completed fallbackDate policy step :
  outcome (Risk.checkFreshness host completed fallbackDate policy step) =
  if leNumber (ageDays host completed fallbackDate) (Risk.resolvedTtl policy)
  then Returned tt else Exited 1.
Proof.
  unfold Risk.checkFreshness. cbn -[ageDays Risk.resolvedTtl leNumber show showTtl Z_to_string append].
  destruct (leNumber _ _); reflexivity.
Qed.

Lemma credit_checkFreshness_outcome host completed fallbackDate policy step :
  outcome (Credit.checkFreshness host completed fallbackDate policy step) =
  if leNumber (ageDays host completed fallbackDate) (Credit.resolvedTtl policy)
  then Returned tt else Exited 1.
Proof.
  unfold Credit.checkFreshness. cbn -[ageDays Credit.resolvedTtl leNumber show showTtl Z_to_string append].
  destruct (leNumber _ _); reflexivity.
Qed.

(** C4: the freshness check passes exactly when the age of the proof,
    in whole days, is at most the resolved TTL; otherwise the process
    exits with code 1.  A proof as old as the TTL is fresh, a proof one
    day older is expired.  Under a TTL that is [Infinity] every proof
    with an age is fresh. *)
Theorem freshness_boundary host completed fallbackDate policy step age :
  ageDays host completed fallbackDate = Some age ->
  (forall ttl, Risk.resolvedTtl policy = Some (Finite ttl) ->
     let r := Risk.checkFreshness host completed fallbackDate policy step in
     (outcome r = Returned tt <-> age <= ttl) /\
     (outcome r = Exited 1 <-> ttl < age) /\
     (age = ttl -> outcome r = Returned tt) /\
     (age = ttl + 1 -> outcome r = Exited 1)) /\
  (forall ttl, Credit.resolvedTtl policy = Some (Finite ttl) ->
     let r := Credit.checkFreshness host completed fallbackDate policy step in
     (outcome r = Returned tt <-> age <= ttl) /\
     (outcome r = Exited 1 <-> ttl < age) /\
     (age = ttl -> outcome r = Returned tt) /\
     (age = ttl + 1 -> outcome r = Exited 1)) /\
  (Risk.resolvedTtl policy = Some Infinity ->
     outcome (Risk.checkFreshness host completed fallbackDate policy step)
     = Returned tt) /\
  (Credit.resolvedTtl policy = Some Infinity ->
     outcome (Credit.checkFreshness host completed fallbackDate policy step)
     = Returned tt).
Proof.
  intros Hage. split; [|split; [|split]].
  - intros ttl Httl r; subst r.
    rewrite risk_checkFreshness_outcome, Hage, Httl. simpl.
    destruct (Z.leb_spec age ttl); repeat split; intros; try lia;
      try reflexivity; try discriminate.
  - intros ttl Httl r; subst r.
    rewrite credit_checkFreshness_outcome, Hage, Httl. simpl.
    destruct (Z.leb_spec age ttl); repeat split; intros; try lia;
      try reflexivity; try discriminate.
  - intros Httl. rewrite risk_checkFreshness_outcome, Hage, Httl. reflexivity.
  - intros Httl. rewrite credit_checkFreshness_outcome, Hage, Httl. reflexivity.
Qed.

Lemma freshness_boundary_witness :
  outcome (Risk.checkFreshness (sampleHost (1704067200000 + 90 * dayMs + 5000))
             (Some "2024-01-01T00:00:00.000Z") "2024-01-01T00:00:00.000Z"
             (Some (riskPolicy (Some "P90D"))) 4) = Returned tt /\
  outcome (Credit.checkFreshness (sampleHost (1704067200000 + 31 * dayMs))
             None "2024-01-01T00:00:00.000Z" None 3) = Exited 1.
Proof.
  split.
  - refine (proj1 (proj2 (proj2 (proj1 (@freshness_boundary
        (sampleHost (1704067200000 + 90 * dayMs + 5000))
        (Some "2024-01-01T00:00:00.000Z") "2024-01-01T00:00:00.000Z"
        (Some (riskPolicy (Some "P90D"))) 4 90 eq_refl) 90 eq_refl))) eq_refl).
  - refine (proj2 (proj2 (proj2 (proj1 (proj2 (@freshness_boundary
        (sampleHost (1704067200000 + 31 * dayMs))
        None "2024-01-01T00:00:00.000Z" None 3 31 eq_refl)) 30 eq_refl))) eq_refl).
Defined.

(** ** Policy validation *)

Lemma risk_validatePolicy_version policy :
  prefix "0." (version policy) = false ->
  Risk.validatePolicy policy =
  ([Log ("Found policy: " ++ titleOrId policy); Log "";
    Log "Step 3: Validating policy acceptability...";
    Error ("Unsupported policy version: " ++ version policy)], Exited 1).
Proof.
  intros Hv. unfold Risk.validatePolicy. rewrite Hv. reflexivity.
Qed.

Lemma risk_validatePolicy_subject policy :
  prefix "0." (version policy) = true ->
  String.eqb (subject_type policy) "vehicle" = false ->
  Risk.validatePolicy policy =
  ([Log ("Found policy: " ++ titleOrId policy); Log "";
    Log "Step 3: Validating policy acceptability...";
    Error ("Unexpected subject type: " ++ subject_type policy)], Exited 1).
Proof.
  intros Hv Hs. unfold Risk.validatePolicy. rewrite Hv, Hs. reflexivity.
Qed.

Lemma risk_validatePolicy_output policy :
  prefix "0." (version policy) = true ->
  String.eqb (subject_type policy) "vehicle" = true ->
  findOutput "riskBand" (outputs policy) = None ->
  Risk.validatePolicy policy =
  ([Log ("Found policy: " ++ titleOrId policy); Log "";
    Log "Step 3: Validating policy acceptability...";
    Error "Policy missing required 'riskBand' output"], Exited 1).
Proof.
  intros Hv Hs Ho. unfold Risk.validatePolicy. rewrite Hv, Hs, Ho. reflexivity.
Qed.

Lemma risk_validatePolicy_pass policy o :
  prefix "0." (version policy) = true ->
  String.eqb (subject_type policy) "vehicle" = true ->
  findOutput "riskBand" (outputs policy) = Some o ->
  exists findings,
    Risk.validatePolicy policy =
    (Log ("Found policy: " ++ titleOrId policy) :: Log ""
       :: Log "Step 3: Validating policy acceptability..."
       :: Log "Policy validation passed:"
       :: app (map Log (map (fun r => "   " ++ r) findings)) [Log ""],
     Returned true) /\
    (String.eqb (kind (derive o)) "BAND" = true ->
       In "Uses BAND derivation" findings /\
       forall bs, bands (derive o) = Some bs ->
         In ("Risk bands: " ++ String.concat ", " (map label bs)) findings).
Proof.
  intros Hv Hs Ho. unfold Risk.validatePolicy. rewrite Hv, Hs, Ho.
  eexists. split.
  - cbn -[append isDisclosed String.eqb String.concat push].
    rewrite logEach_run. cbn -[append isDisclosed String.eqb String.concat push].
    reflexivity.
  - intros Hk. rewrite Hk. split.
    + destruct (bands (derive o)), (isDisclosed "riskBand" policy);
        unfold push; rewrite ?in_app_iff; simpl; tauto.
    + intros bs ->. destruct (isDisclosed "riskBand" policy);
        unfold push; rewrite ?in_app_iff; simpl; tauto.
Qed.

Lemma credit_validatePolicy_version policy :
  prefix "0." (version policy) = false ->
  Credit.validatePolicy policy =
  ([Log ("Found policy: " ++ titleOrId policy); Log "";
    Log "Step 3: Validating policy acceptability...";
    Error ("Unsupported policy version: " ++ version policy)], Exited 1).
Proof.
  intros Hv. unfold Credit.validatePolicy. rewrite Hv. reflexivity.
Qed.

Lemma credit_validatePolicy_output policy :
  prefix "0." (version policy) = true ->
  findOutput "approved" (outputs policy) = None ->
  Credit.validatePolicy policy =
  ([Log ("Found policy: " ++ titleOrId policy); Log "";
    Log "Step 3: Validating policy acceptability...";
    Error "Policy missing required 'approved' output"], Exited 1).
Proof.
  intros Hv Ho. unfold Credit.validatePolicy. rewrite Hv, Ho. reflexivity.
Qed.

Lemma credit_validatePolicy_pass policy o :
  prefix "0." (version policy) = true ->
  findOutput "approved" (outputs policy) = Some o ->
  exists findings,
    Credit.validatePolicy policy =
    (Log ("Found policy: " ++ titleOrId policy) :: Log ""
       :: Log "Step 3: Validating policy acceptability..."
       :: Log "Policy validation passed:"
       :: app (map Log (map (fun r => "   " ++ r) findings)) [Log ""],
     Returned true) /\
    In ("Subject type: " ++ subject_type policy) findings.
Proof.
  intros Hv Ho. unfold Credit.validatePolicy. rewrite Hv, Ho.
  eexists. split.
  - cbn -[append isDisclosed String.eqb String.concat push].
    rewrite logEach_run. cbn -[append isDisclosed String.eqb String.concat push].
    reflexivity.
  - destruct (String.eqb (kind (derive o)) "PASS_FAIL"),
      (isDisclosed "approved" policy);
      unfold push; rewrite ?in_app_iff; simpl; tauto.
Qed.

Lemma prefix_startsWith (v : string) :
  prefix "0." v = true <-> startsWith "0." v.
Proof.
  split.
  - destruct v as [|a [|b rest]]; cbn -[ascii_dec]; try discriminate.
    + destruct (ascii_dec "0" a); discriminate.
    + destruct (ascii_dec "0" a) as [<-|]; [|discriminate].
      destruct (ascii_dec "." b) as [<-|]; [|discriminate].
      intros _. now exists rest.
  - intros [rest ->]. cbn -[ascii_dec].
    destruct (ascii_dec "0" "0"); [|congruence].
    destruct (ascii_dec "." "."); [|congruence].
    destruct rest; reflexivity.
Qed.

Lemma no_error_in_logs (e : string) (lines : list string) :
  ~ In (Error e) (map Log lines).
Proof.
  induction lines as [|l lines IH]; simpl; [tauto|].
  intros [H | H]; [discriminate | auto].
Qed.

(** C6: a policy whose version starts with ["0."] is not rejected for
    its version by either validator; a policy with any other version is
    rejected for it, and the process exits with code 1. *)
Theorem version_acceptability (policy : PolicyLike) :
  (startsWith "0." (version policy) ->
     ~ rejectsVersion (Risk.validatePolicy policy) policy /\
     ~ rejectsVersion (Credit.validatePolicy policy) policy) /\
  (~ startsWith "0." (version policy) ->
     rejectsVersion (Risk.validatePolicy policy) policy /\
     rejectsVersion (Credit.validatePolicy policy) policy).
Proof.
  split.
  - intros Hv. apply prefix_startsWith in Hv. split; intros [_ Hin].
    + destruct (String.eqb (subject_type policy) "vehicle") eqn:Hs.
      * destruct (findOutput "riskBand" (outputs policy)) as [o|] eqn:Ho.
        -- destruct (risk_validatePolicy_pass policy Hv Hs Ho)
             as (findings & Hrun & _).
           rewrite Hrun in Hin. simpl in Hin.
           repeat (destruct Hin as [Hin | Hin]; [discriminate|]).
           apply in_app_or in Hin. destruct Hin as [Hin | Hin].
           ++ now apply no_error_in_logs in Hin.
           ++ simpl in Hin. destruct Hin as [Hin | []]. discriminate.
        -- rewrite (risk_validatePolicy_output policy Hv Hs Ho) in Hin.
           simpl in Hin.
           repeat (destruct Hin as [Hin | Hin]; [discriminate|]). exact Hin.
      * rewrite (risk_validatePolicy_subject policy Hv Hs) in Hin.
        simpl in Hin.
        repeat (destruct Hin as [Hin | Hin]; [discriminate|]). exact Hin.
    + destruct (findOutput "approved" (outputs policy)) as [o|] eqn:Ho.
      * destruct (credit_validatePolicy_pass policy Hv Ho)
          as (findings & Hrun & _).
        rewrite Hrun in Hin. simpl in Hin.
        repeat (destruct Hin as [Hin | Hin]; [discriminate|]).
        apply in_app_or in Hin. destruct Hin as [Hin | Hin].
        -- now apply no_error_in_logs in Hin.
        -- simpl in Hin. destruct Hin as [Hin | []]. discriminate.
      * rewrite (credit_validatePolicy_output policy Hv Ho) in Hin.
        simpl in Hin.
        repeat (destruct Hin as [Hin | Hin]; [discriminate|]). exact Hin.
  - intros Hv. rewrite <- prefix_startsWith in Hv.
    apply not_true_is_false in Hv.
    rewrite (risk_validatePolicy_version policy Hv),
      (credit_validatePolicy_version policy Hv).
    unfold rejectsVersion. simpl. tauto.
Qed.

Lemma version_acceptability_witness :
  ~ rejectsVersion (Risk.validatePolicy (riskPolicy None)) (riskPolicy None) /\
  rejectsVersion (Credit.validatePolicy (creditPolicy "1.0.0" "individual"))
    (creditPolicy "1.0.0" "individual").
Proof.
  split.
  - apply (proj1 (version_acceptability (riskPolicy None))).
    exists "1.0". reflexivity.
  - apply (proj2 (version_acceptability (creditPolicy "1.0.0" "individual"))).
    intros [rest H]. discriminate.
Defined.

(** ** Subject type *)

Lemma credit_validatePolicy_outcome policy :
  outcome (Credit.validatePolicy policy) =
  if prefix "0." (version policy)
  then match findOutput "approved" (outputs policy) with
       | Some _ => Returned true
       | None => Exited 1
       end
  else Exited 1.
Proof.
  destruct (prefix "0." (version policy)) eqn:Hv.
  - destruct (findOutput "approved" (outputs policy)) as [o|] eqn:Ho.
    + destruct (credit_validatePolicy_pass policy Hv Ho) as (fs & -> & _).
      reflexivity.
    + now rewrite (credit_validatePolicy_output policy Hv Ho).
  - now rewrite (credit_validatePolicy_version policy Hv).
Qed.

Lemma risk_validatePolicy_outcome policy :
  outcome (Risk.validatePolicy policy) =
  if prefix "0." (version policy) && String.eqb (subject_type policy) "vehicle"
  then match findOutput "riskBand" (outputs policy) with
       | Some _ => Returned true
       | None => Exited 1
       end
  else Exited 1.
Proof.
  destruct (prefix "0." (version policy)) eqn:Hv.
  - destruct (String.eqb (subject_type policy) "vehicle") eqn:Hs.
    + destruct (findOutput "riskBand" (outputs policy)) as [o|] eqn:Ho.
      * destruct (risk_validatePolicy_pass policy Hv Hs Ho) as (fs & -> & _).
        reflexivity.
      * now rewrite (risk_validatePolicy_output policy Hv Hs Ho).
    + now rewrite (risk_validatePolicy_subject policy Hv Hs).
  - now rewrite (risk_validatePolicy_version policy Hv).
Qed.

(** The subject type in the two validators: the vehicle risk validator
    rejects every policy whose subject type is not ["vehicle"], and the
    process exits with code 1; the credit validator records the subject
    type of the policy among its findings, and the subject type has no
    effect on whether the policy passes. *)
Lemma subject_type_acceptability (policy : PolicyLike) :
  (subject_type policy <> "vehicle" ->
     outcome (Risk.validatePolicy policy) = Exited 1 /\
     (startsWith "0." (version policy) ->
        In (Error ("Unexpected subject type: " ++ subject_type policy))
           (trace (Risk.validatePolicy policy)))) /\
  (forall s,
     outcome (Credit.validatePolicy (withSubject s policy)) =
     outcome (Credit.validatePolicy policy)) /\
  (outcome (Credit.validatePolicy policy) = Returned true ->
     In (Log ("   Subject type: " ++ subject_type policy))
        (trace (Credit.validatePolicy policy))).
Proof.
  split; [|split].
  - intros Hs. apply String.eqb_neq in Hs. split.
    + rewrite risk_validatePolicy_outcome, Hs, andb_false_r. reflexivity.
    + intros Hv. apply prefix_startsWith in Hv.
      rewrite (risk_validatePolicy_subject policy Hv Hs). simpl. tauto.
  - intros s. rewrite !credit_validatePolicy_outcome. reflexivity.
  - rewrite credit_validatePolicy_outcome.
    destruct (prefix "0." (version policy)) eqn:Hv; [|discriminate].
    destruct (findOutput "approved" (outputs policy)) as [o|] eqn:Ho;
      [|discriminate].
    intros _. destruct (credit_validatePolicy_pass policy Hv Ho)
      as (fs & -> & Hfs).
    unfold trace. cbn [fst]. do 4 right. apply in_or_app. left.
    apply in_map. apply (in_map (fun r => "   " ++ r)) in Hfs. exact Hfs.
Qed.

Lemma subject_type_acceptability_witness :
  outcome (Risk.validatePolicy (creditPolicy "0.1.0" "individual")) = Exited 1 /\
  In (Error "Unexpected subject type: individual")
     (trace (Risk.validatePolicy (creditPolicy "0.1.0" "individual"))) /\
  In (Log "   Subject type: individual")
     (trace (Credit.validatePolicy (creditPolicy "0.1.0" "individual"))).
Proof.
  destruct (subject_type_acceptability (creditPolicy "0.1.0" "individual"))
    as (Hrisk & _ & Hrecorded).
  assert (Hne : subject_type (creditPolicy "0.1.0" "individual") <> "vehicle")
    by discriminate.
  destruct (Hrisk Hne) as [Hexit Herr].
  split; [exact Hexit|]. split; [|exact (Hrecorded eq_refl)].
  apply Herr. exists "1.0". reflexivity.
Defined.

(** C3: the credit validator does not check the subject type, though
    its source announces the check and the vehicle risk validator makes
    it: policies of two different subject types both pass, so no
    expected subject type is enforced. *)
Theorem credit_subject_not_checked :
  outcome (Credit.validatePolicy (creditPolicy "0.1.0" "vehicle")) = Returned true /\
  outcome (Credit.validatePolicy (creditPolicy "0.1.0" "individual")) = Returned true /\
  ~ exists expected, forall policy,
      subject_type policy <> expected ->
      outcome (Credit.validatePolicy policy) = Exited 1.
Proof.
  split; [reflexivity|]. split; [reflexivity|].
  intros [expected H].
  destruct (String.eqb_spec expected "vehicle") as [->|Hne].
  - specialize (H (creditPolicy "0.1.0" "individual")).
    discriminate H. discriminate.
  - specialize (H (creditPolicy "0.1.0" "vehicle")).
    discriminate H. simpl. congruence.
Qed.

(** ** Band table of the target output *)

(** C8, as the validator has it: for a policy that passes the version,
    subject-type and output-presence checks and whose ["riskBand"]
    output declares the derivation kind [BAND], validation passes
    whatever the band table is; the validator records the [BAND]
    derivation and, when a band table is present, its labels in
    order. *)
Theorem band_table_recorded (policy : PolicyLike) (o : Output) :
  startsWith "0." (version policy) ->
  subject_type policy = "vehicle" ->
  findOutput "riskBand" (outputs policy) = Some o ->
  kind (derive o) = "BAND" ->
  outcome (Risk.validatePolicy policy) = Returned true /\
  In (Log "   Uses BAND derivation") (trace (Risk.validatePolicy policy)) /\
  (forall bs, bands (derive o) = Some bs ->
     In (Log ("   Risk bands: " ++ String.concat ", " (map label bs)))
        (trace (Risk.validatePolicy policy))).
Proof.
  intros Hv Hs Ho Hk.
  apply prefix_startsWith in Hv. apply String.eqb_eq in Hs, Hk.
  destruct (risk_validatePolicy_pass policy Hv Hs Ho) as (fs & -> & Hfs).
  destruct (Hfs Hk) as [Huses Hbands]. split; [reflexivity|].
  assert (Hlog : forall f, In f fs ->
            In (Log ("   " ++ f))
               (trace (Log ("Found policy: " ++ titleOrId policy) :: Log ""
                  :: Log "Step 3: Validating policy acceptability..."
                  :: Log "Policy validation passed:"
                  :: app (map Log (map (fun r => "   " ++ r) fs)) [Log ""],
                @Returned bool true))).
  { intros f Hf. unfold trace. cbn [fst]. do 4 right.
    apply in_or_app. left. apply in_map.
    apply (in_map (fun r => "   " ++ r)) in Hf. exact Hf. }
  split.
  - apply (Hlog _ Huses).
  - intros bs Hbs. apply (Hlog _ (Hbands bs Hbs)).
Qed.

Lemma band_table_recorded_witness :
  outcome (Risk.validatePolicy (riskPolicy None)) = Returned true /\
  In (Log "   Uses BAND derivation")
     (trace (Risk.validatePolicy (riskPolicy None))) /\
  In (Log "   Risk bands: HIGH, MEDIUM, LOW")
     (trace (Risk.validatePolicy (riskPolicy None))).
Proof.
  destruct (@band_table_recorded (riskPolicy None) riskBandOutput)
    as (Hpass & Huses & Hbands).
  - exists "1.0". reflexivity.
  - reflexivity.
  - reflexivity.
  - reflexivity.
  - split; [exact Hpass|]. split; [exact Huses|].
    exact (Hbands [mkBand "HIGH"; mkBand "MEDIUM"; mkBand "LOW"] eq_refl).
Defined.

(** C8, as stated, fails: a [BAND] output without a band table, or with
    an empty one, passes validation. *)
Lemma band_table_not_required :
  findOutput "riskBand" (outputs (riskPolicyWith None))
    = Some (riskOutputWith None) /\
  outcome (Risk.validatePolicy (riskPolicyWith None)) = Returned true /\
  findOutput "riskBand" (outputs (riskPolicyWith (Some [])))
    = Some (riskOutputWith (Some [])) /\
  outcome (Risk.validatePolicy (riskPolicyWith (Some []))) = Returned true.
Proof.
  repeat split.
Qed.

(** ** Preconditions on a shared proof *)

Ltac run_step :=
  cbn -[truthy_opt isExpired repeat_ append Risk.validatePolicy
        Risk.checkFreshness Risk.displayResults Credit.validatePolicy
        Credit.checkFreshness Credit.displayResults catch Z_to_string].

Ltac settle_fatal :=
  unfold fatalBeforePolicy; split; [reflexivity | split];
  [ intros c Hin; unfold trace, fst in Hin; simpl in Hin;
    repeat (destruct Hin as [Hin | Hin];
            [first [discriminate Hin | now injection Hin as <-] | ]);
    contradiction
  | intros line Hin Hb; unfold trace, fst in Hin; simpl in Hin;
    repeat (destruct Hin as [Hin | Hin];
            [first [discriminate Hin
                   | injection Hin as <-;
                     first [reflexivity | vm_compute in Hb; discriminate Hb]]
            | ]);
    contradiction ].

Section SharedProofRun.

Variables (host : Host) (client : BindClient) (id : string).
Variable sp : SharedProof.

(** The service answers the fetch with the shared proof [sp]. *)
Hypothesis Hget : getSharedProof client id = Resolved sp.

Lemma risk_stopped_fatal :
  stopped host sp = true ->
  fatalBeforePolicy (Risk.verifySharedProof host client id) id.
Proof.
  intros Hstop. unfold Risk.verifySharedProof. rewrite Hget.
  unfold stopped in Hstop. run_step.
  destruct (note sp) as [[|cn n]|];
  destruct (truthy_opt (revokedAt sp)) eqn:Hrev;
  destruct (isExpired host sp) eqn:Hexp;
  destruct (policyId (proveJob sp)) as [[|pc pp]|] eqn:Hpid;
  try discriminate Hstop;
  run_step; settle_fatal.
Qed.

Lemma credit_stopped_fatal :
  stopped host sp = true ->
  fatalBeforePolicy (Credit.verifySharedProof host client id) id.
Proof.
  intros Hstop. unfold Credit.verifySharedProof. rewrite Hget.
  unfold stopped in Hstop. run_step.
  destruct (note sp) as [[|cn n]|];
  destruct (truthy_opt (revokedAt sp)) eqn:Hrev;
  destruct (isExpired host sp) eqn:Hexp;
  destruct (policyId (proveJob sp)) as [[|pc pp]|] eqn:Hpid;
  try discriminate Hstop;
  run_step; settle_fatal.
Qed.

Lemma revoked_message :
  truthy_opt (revokedAt sp) = true ->
  In (Error "Error: This shared proof has been revoked")
     (trace (Risk.verifySharedProof host client id)) /\
  In (Error "Error: This shared proof has been revoked")
     (trace (Credit.verifySharedProof host client id)).
Proof.
  intros Hrev.
  unfold Risk.verifySharedProof, Credit.verifySharedProof. rewrite Hget.
  run_step. rewrite Hrev.
  destruct (note sp) as [[|cn n]|]; run_step; simpl; tauto.
Qed.

Lemma isExpired_past e t :
  expiresAt sp = Some e -> e <> "" -> dateMs host e = Some t ->
  t < expiryNow host -> isExpired host sp = true.
Proof.
  intros He Hne Ht Hlt. unfold isExpired. rewrite He, Ht.
  destruct e; [congruence|]. simpl. now apply Z.ltb_lt.
Qed.

(** C7: a shared proof whose revocation timestamp is set makes the run
    exit with code 1 after the fetch of the shared proof alone: no
    policy is fetched or validated and no freshness check is made.  The
    same holds for an expiry timestamp in the past and for a shared
    proof without a policy id. *)
Theorem shared_proof_preconditions :
  (forall t, revokedAt sp = Some t -> t <> "" ->
     fatalBeforePolicy (Risk.verifySharedProof host client id) id /\
     fatalBeforePolicy (Credit.verifySharedProof host client id) id /\
     In (Error "Error: This shared proof has been revoked")
        (trace (Risk.verifySharedProof host client id)) /\
     In (Error "Error: This shared proof has been revoked")
        (trace (Credit.verifySharedProof host client id))) /\
  (forall e t, expiresAt sp = Some e -> e <> "" ->
     dateMs host e = Some t -> t < expiryNow host ->
     fatalBeforePolicy (Risk.verifySharedProof host client id) id /\
     fatalBeforePolicy (Credit.verifySharedProof host client id) id) /\
  (policyId (proveJob sp) = None ->
     fatalBeforePolicy (Risk.verifySharedProof host client id) id /\
     fatalBeforePolicy (Credit.verifySharedProof host client id) id).
Proof.
  split; [|split].
  - intros t Ht Hne.
    assert (Hrev : truthy_opt (revokedAt sp) = true).
    { rewrite Ht. destruct t; [congruence | reflexivity]. }
    assert (Hstop : stopped host sp = true).
    { unfold stopped. now rewrite Hrev. }
    split; [now apply risk_stopped_fatal|].
    split; [now apply credit_stopped_fatal|].
    now apply revoked_message.
  - intros e t He Hne Ht Hlt.
    assert (Hstop : stopped host sp = true).
    { unfold stopped. rewrite (isExpired_past He Hne Ht Hlt).
      now rewrite orb_true_r. }
    split; [now apply risk_stopped_fatal
           | now apply credit_stopped_fatal].
  - intros Hpid.
    assert (Hstop : stopped host sp = true).
    { unfold stopped. rewrite Hpid. now rewrite orb_true_r. }
    split; [now apply risk_stopped_fatal
           | now apply credit_stopped_fatal].
Qed.

End SharedProofRun.

Lemma shared_proof_preconditions_witness :
  fatalBeforePolicy
    (Risk.verifySharedProof (sampleHost 1704067200000)
       (sampleClient revokedProof) "shared-1") "shared-1" /\
  fatalBeforePolicy
    (Credit.verifySharedProof (sampleHost 1704067200001)
       (sampleClient expiredProof) "shared-2") "shared-2" /\
  fatalBeforePolicy
    (Risk.verifySharedProof (sampleHost 1704067200000)
       (sampleClient unlinkedProof) "shared-3") "shared-3".
Proof.
  split; [|split].
  - refine (proj1 (proj1 (@shared_proof_preconditions
        (sampleHost 1704067200000) (sampleClient revokedProof) "shared-1"
        revokedProof eq_refl)
        "2024-01-01T00:00:00.000Z" eq_refl _)).
    discriminate.
  - refine (proj2 (proj1 (proj2 (@shared_proof_preconditions
        (sampleHost 1704067200001) (sampleClient expiredProof) "shared-2"
        expiredProof eq_refl))
        "2024-01-01T00:00:00.000Z" 1704067200000 eq_refl _ eq_refl _)).
    + discriminate.
    + reflexivity.
  - exact (proj1 (proj2 (proj2 (@shared_proof_preconditions
        (sampleHost 1704067200000) (sampleClient unlinkedProof) "shared-3"
        unlinkedProof eq_refl)) eq_refl)).
Defined.

Ltac seek :=
  first [ solve [apply in_bind_l; simpl; tauto]
        | eapply in_bind_r; [reflexivity|]; seek
        | idtac ].


(** A shared proof that passes the three checks does reach the
    resolution of its policy. *)
Lemma not_stopped_resolves_policy host client id sp :
  getSharedProof client id = Resolved sp ->
  stopped host sp = false ->
  In (Log "Step 2: Getting policy specification...")
     (trace (Risk.verifySharedProof host client id)) /\
  In (Log "Step 2: Getting policy specification...")
     (trace (Credit.verifySharedProof host client id)).
Proof.
  intros Hget Hstop. unfold stopped in Hstop.
  apply orb_false_iff in Hstop. destruct Hstop as [Hstop Hpid].
  apply orb_false_iff in Hstop. destruct Hstop as [Hrev Hexp].
  apply negb_false_iff in Hpid.
  destruct (policyId (proveJob sp)) as [[|pc pp]|] eqn:Hp; try discriminate.
  unfold Risk.verifySharedProof, Credit.verifySharedProof.
  split; seek; rewrite Hget; seek;
    destruct (note sp) as [[|cn n]|]; seek;
    rewrite Hrev; seek; rewrite Hexp; seek; rewrite Hp;
    cbn [truthy]; seek.
Qed.

(** ** Band labels *)

Lemma at_inside {A} (xs : list A) (i : Z) :
  0 <= i < Z.of_nat (List.length xs) ->
  exists x, nth_error xs (Z.to_nat i) = Some x /\ at_ xs (NumInt i) = Some x.
Proof.
  intros [Hlo Hhi]. unfold at_.
  destruct (Z.leb_spec 0 i); [|lia].
  destruct (nth_error xs (Z.to_nat i)) as [x|] eqn:Hx; [eauto|].
  apply nth_error_None in Hx. lia.
Qed.

Lemma at_outside {A} (xs : list A) (i : Z) :
  i < 0 \/ Z.of_nat (List.length xs) <= i -> at_ xs (NumInt i) = None.
Proof.
  intros H. unfold at_. destruct (Z.leb_spec 0 i); [|reflexivity].
  apply nth_error_None. lia.
Qed.

(** The band index is the claim under ["riskBand"], or under
    ["outputValue"] when the former is absent or null. *)
Lemma bandIndex_reads_claim host claims :
  (forall n, getClaim claims "riskBand" = VNumber n ->
     Risk.bandIndex host claims = n) /\
  (forall n,
     getClaim claims "riskBand" = VUndefined \/
     getClaim claims "riskBand" = VNull ->
     getClaim claims "outputValue" = VNumber n ->
     Risk.bandIndex host claims = n) /\
  (forall s, getClaim claims "riskBand" = VString s ->
     Risk.bandIndex host claims = StringToNumber host s).
Proof.
  unfold Risk.bandIndex. repeat split.
  - intros n ->. reflexivity.
  - intros n [-> | ->] ->; reflexivity.
  - intros s ->. reflexivity.
Qed.

(** What [resolveBandLabel] does with the band table of the first
    output of the policy: an index within the table gives the label of
    the table; an index outside the table and outside the default table
    gives ["Band <index>"]. *)
Lemma resolveBandLabel_first_output host claims policy o rest bs i :
  outputs policy = o :: rest ->
  bands (derive o) = Some bs ->
  Risk.bandIndex host claims = NumInt i ->
  (0 <= i < Z.of_nat (List.length bs) ->
     exists b, nth_error bs (Z.to_nat i) = Some b /\
               Risk.resolveBandLabel host claims (Some policy) = label b) /\
  ((i < 0 \/ Z.of_nat (List.length bs) <= i) -> (i < 0 \/ 3 <= i) ->
     Risk.resolveBandLabel host claims (Some policy)
     = "Band " ++ Z_to_string i).
Proof.
  intros Ho Hbs Hi. unfold Risk.resolveBandLabel, Risk.firstBands.
  rewrite Ho, Hbs, Hi. split.
  - intros Hin. destruct (at_inside bs Hin) as (b & Hb & ->). eauto.
  - intros Hout Hdef. rewrite (at_outside bs Hout).
    unfold Risk.defaultLabel. now rewrite (at_outside Risk.RISK_BANDS Hdef).
Qed.

(** C1, at a policy whose ["riskBand"] output is not the first one: the
    policy passes validation, the claim gives index 2, the band table of
    ["riskBand"] has ["LOW"] there, and [resolveBandLabel] answers with
    the label of the first output instead. *)
Lemma resolveBandLabel_reads_first_output :
  outcome (Risk.validatePolicy twoOutputPolicy) = Returned true /\
  findOutput "riskBand" (outputs twoOutputPolicy) = Some riskBandOutput /\
  Risk.bandIndex (sampleHost 0) [("riskBand", VNumber (NumInt 2))] = NumInt 2 /\
  option_map (fun bs => nth_error (map label bs) 2)
    (bands (derive riskBandOutput)) = Some (Some "LOW") /\
  Risk.resolveBandLabel (sampleHost 0) [("riskBand", VNumber (NumInt 2))]
    (Some twoOutputPolicy) = "GOOD".
Proof.
  repeat split.
Qed.

(** C10: when the claim index lies beyond the band table of the first
    output of the policy but within the default table, the label is the
    one of the default table at that index: neither a label of the
    policy nor ["Band <index>"].  Index 2 gives ["LOW"]. *)
Theorem default_table_gap host claims policy o rest bs i :
  outputs policy = o :: rest ->
  bands (derive o) = Some bs ->
  Risk.bandIndex host claims = NumInt i ->
  Z.of_nat (List.length bs) <= i < 3 ->
  exists l,
    nth_error Risk.RISK_BANDS (Z.to_nat i) = Some l /\
    Risk.resolveBandLabel host claims (Some policy) = l /\
    nth_error bs (Z.to_nat i) = None /\
    l <> "Band " ++ Z_to_string i /\
    (i = 2 -> l = "LOW").
Proof.
  intros Ho Hbs Hi [Hlo Hhi]. unfold Risk.resolveBandLabel, Risk.firstBands.
  rewrite Ho, Hbs, Hi. rewrite (at_outside bs (or_intror Hlo)).
  unfold Risk.defaultLabel.
  assert (Hnone : nth_error bs (Z.to_nat i) = None)
    by (apply nth_error_None; lia).
  assert (Hcases : i = 0 \/ i = 1 \/ i = 2) by lia.
  destruct Hcases as [-> | [-> | ->]]; simpl;
    eexists; (split; [reflexivity|]); (split; [reflexivity|]);
    (split; [exact Hnone|]); (split; [discriminate|]);
    intros; first [reflexivity | lia].
Qed.

Lemma default_table_gap_witness :
  Risk.resolveBandLabel (sampleHost 0) [("riskBand", VString "2")]
    (Some (riskPolicyWith (Some [mkBand "HIGH"; mkBand "LOW"]))) = "LOW".
Proof.
  destruct (@default_table_gap (sampleHost 0) [("riskBand", VString "2")]
              (riskPolicyWith (Some [mkBand "HIGH"; mkBand "LOW"]))
              (riskOutputWith (Some [mkBand "HIGH"; mkBand "LOW"])) []
              [mkBand "HIGH"; mkBand "LOW"] 2 eq_refl eq_refl eq_refl)
    as (l & _ & Hl & _ & _ & Hlow).
  - simpl. lia.
  - rewrite Hl. apply Hlow. reflexivity.
Defined.

(** ** Pass/fail claims *)

Lemma getClaim_absent (claims : Claims) (key : string) :
  (forall v, ~ In (key, v) claims) -> getClaim claims key = VUndefined.
Proof.
  induction claims as [|[k v] claims IH]; intros Habs; [reflexivity|].
  simpl. destruct (String.eqb_spec k key) as [->|Hne].
  - exfalso. apply (Habs v). now left.
  - apply IH. intros w Hw. apply (Habs w). now right.
Qed.

Lemma credit_displayResults_lines claims summary entry :
  In entry claims ->
  In (Log (Credit.claimLine entry)) (trace (Credit.displayResults claims summary)).
Proof.
  intros Hin. unfold Credit.displayResults.
  do 3 (eapply in_bind_r; [reflexivity|]).
  apply in_bind_l. rewrite logEach_run. simpl.
  apply in_map. apply in_map with (f := Credit.claimLine) in Hin. exact Hin.
Qed.

(** C9, as the credit verifier has it: a claim value displays as
    approved exactly when it is the number 1, the boolean [true] or the
    string ["1"]; 0, [false], ["0"] and every other value that is
    present display as not approved, on the line of the claim.  The
    report holds one line for each claim that is present, in order, and
    is otherwise the report of an empty credential: an absent claim is
    not resolved to any outcome. *)
Theorem pass_fail_resolution (value : JsValue) :
  (Credit.isApproved value = true <->
     value = VNumber (NumInt 1) \/ value = VBool true \/ value = VString "1") /\
  Credit.isApproved (VNumber (NumInt 0)) = false /\
  Credit.isApproved (VBool false) = false /\
  Credit.isApproved (VString "0") = false /\
  (forall claims summary key,
     In (key, value) claims -> key = "approved" \/ key = "outputValue" ->
     In (Log ("  " ++ key ++ ": "
              ++ (if Credit.isApproved value
                  then "true (APPROVED)" else "false (NOT APPROVED)")))
        (trace (Credit.displayResults claims summary))) /\
  (forall claims summary,
     trace (Credit.displayResults claims summary)
     = app (firstn 3 (trace (Credit.displayResults [] summary)))
         (app (map (fun entry => Log (Credit.claimLine entry)) claims)
              (skipn 3 (trace (Credit.displayResults [] summary))))).
Proof.
  split; [|repeat split].
  - split.
    + destruct value as [| |b|[z|shown]|s|shown]; simpl; try discriminate.
      * intros Hb. subst b. auto.
      * intros Hz. apply Z.eqb_eq in Hz. subst z. auto.
      * intros Hs. apply String.eqb_eq in Hs. subst s. auto.
    + intros [-> | [-> | ->]]; reflexivity.
  - intros claims summary key Hin Hkey.
    apply (credit_displayResults_lines claims summary) in Hin.
    destruct Hkey as [-> | ->]; simpl in Hin;
      destruct (Credit.isApproved value); exact Hin.
  - intros claims summary. unfold Credit.displayResults.
    rewrite !logEach_run. cbn -[Credit.claimLine repeat_ append].
    rewrite map_map. reflexivity.
Qed.

Lemma pass_fail_resolution_witness :
  In (Log "  approved: true (APPROVED)")
     (trace (Credit.displayResults [("approved", VString "1")] sampleSummary)).
Proof.
  destruct (pass_fail_resolution (VString "1")) as (_ & _ & _ & _ & Hline & _).
  apply (Hline [("approved", VString "1")] sampleSummary "approved").
  - left. reflexivity.
  - left. reflexivity.
Defined.

(** C9, as stated, fails for an absent claim: the report of a
    credential without the claims ["approved"] and ["outputValue"] has
    no line with an outcome, neither approved nor not approved. *)
Lemma absent_claim_is_not_resolved :
  getClaim [("issuer", VString "did:web:bind")] "approved" = VUndefined /\
  getClaim [("issuer", VString "did:web:bind")] "outputValue" = VUndefined /\
  forall line,
    In (Log line)
       (trace (Credit.displayResults [("issuer", VString "did:web:bind")]
                 sampleSummary)) ->
    index 0 "APPROVED" line = None.
Proof.
  split; [reflexivity|]. split; [reflexivity|].
  intros line Hin. vm_compute in Hin.
  repeat (destruct Hin as [Hin | Hin];
          [injection Hin as <-; reflexivity|]).
  contradiction.
Qed.

(** ** The reference scorer *)

(** C2: what the scripts compute.  The expected score is the baseline
    50 plus the bonus of each satisfied threshold, at most 100, in the
    demo and in the prove-job script alike; it is never below 50, so
    the expected band is never ["HIGH"].  Mileage 2500 at speed 72
    scores 100, band ["LOW"]; mileage 4500 at speed 85 scores 75, band
    ["LOW"]; mileage 7000 at speed 110 scores 50, band ["MEDIUM"].
    For the last two the scenario table of the README and the
    scenario comments of the prove-job script announce ["MEDIUM"] and
    ["HIGH"]. *)
Theorem reference_scorer (input : Telemetry) :
  Demo.expectedScore input =
    Z.min 100 (50 + bonus (mileage input <=? 3000) 25
                  + bonus (mileage input <=? 5000) 15
                  + bonus (speedMax input <? 100) 10) /\
  SubmitProveJob.expectedScore input = Demo.expectedScore input /\
  SubmitProveJob.expectedBand input = Demo.expectedBand input /\
  50 <= Demo.expectedScore input <= 100 /\
  Demo.expectedBand input =
    (if 71 <=? Demo.expectedScore input then "LOW" else "MEDIUM") /\
  (Demo.expectedScore wellMaintained = 100 /\
   Demo.expectedBand wellMaintained = "LOW") /\
  (Demo.expectedScore moderateUse = 75 /\
   Demo.expectedBand moderateUse = "LOW") /\
  (Demo.expectedScore highRisk = 50 /\
   Demo.expectedBand highRisk = "MEDIUM").
Proof.
  assert (Hscore : Demo.expectedScore input =
    Z.min 100 (50 + bonus (mileage input <=? 3000) 25
                  + bonus (mileage input <=? 5000) 15
                  + bonus (speedMax input <? 100) 10)).
  { unfold Demo.expectedScore, bonus.
    destruct (mileage input <=? 3000), (mileage input <=? 5000),
      (speedMax input <? 100); reflexivity. }
  assert (Hsame : SubmitProveJob.expectedScore input = Demo.expectedScore input).
  { unfold SubmitProveJob.expectedScore, SubmitProveJob.evaluation,
      Demo.expectedScore.
    destruct (mileage input <=? 3000), (mileage input <=? 5000),
      (speedMax input <? 100); reflexivity. }
  assert (Hrange : 50 <= Demo.expectedScore input <= 100).
  { rewrite Hscore. unfold bonus.
    destruct (mileage input <=? 3000), (mileage input <=? 5000),
      (speedMax input <? 100); lia. }
  split; [exact Hscore|]. split; [exact Hsame|].
  split; [unfold SubmitProveJob.expectedBand, Demo.expectedBand;
          now rewrite Hsame|].
  split; [exact Hrange|].
  split; [|repeat split].
  unfold Demo.expectedBand.
  destruct (71 <=? Demo.expectedScore input); [reflexivity|].
  destruct (Z.leb_spec 41 (Demo.expectedScore input)); [reflexivity | lia].
Qed.

(** The scripts miss the announced bands on two of the three
    scenarios: mileage 4500 at speed 85 earns both the moderate-mileage
    and the speed bonus, 75 and not 65, which is band ["LOW"]; the
    score 50 of mileage 7000 at speed 110 is at least 41, which is band
    ["MEDIUM"], not ["HIGH"]. *)
Lemma scorer_scenarios_differ :
  Demo.expectedScore moderateUse <> 65 /\
  Demo.expectedBand moderateUse <> "MEDIUM" /\
  Demo.expectedBand highRisk <> "HIGH" /\
  SubmitProveJob.expectedScore moderateUse <> 65 /\
  SubmitProveJob.expectedBand moderateUse <> "MEDIUM" /\
  SubmitProveJob.expectedBand highRisk <> "HIGH".
Proof.
  repeat split; discriminate.
Qed.

(** * Further properties *)

(** ** The TTL and the freshness window *)

(** X1: the TTL a verifier resolves is never [NaN] and never negative,
    whatever the policy says: it is an integer that is not negative, or
    [Infinity]. *)
Theorem resolved_ttl_is_number (policy : option PolicyLike) :
  (exists d, Risk.resolvedTtl policy = Some d /\
             match d with Finite n => 0 <= n | Infinity => True end) /\
  (exists d, Credit.resolvedTtl policy = Some d /\
             match d with Finite n => 0 <= n | Infinity => True end).
Proof.
  split; apply ttlDays_is_number; lia.
Qed.

Lemma age_within (now t n : Z) :
  (now - t) / 86400000 <= n <-> now < t + (n + 1) * 86400000.
Proof.
  pose proof (Z.div_mod (now - t) 86400000 ltac:(lia)) as Hdm.
  pose proof (Z.mod_pos_bound (now - t) 86400000 ltac:(lia)) as Hb.
  split; intros H; nia.
Qed.

(** X2: a proof is fresh exactly until [ttl + 1] whole days have passed
    since it was proved: the check passes if and only if the clock is
    before the proof time plus [(ttl + 1)] days of 86,400,000 ms.
    Under a TTL that is [Infinity] it passes whenever the proof time
    can be read. *)
Theorem freshness_window host completed fallbackDate policy step t :
  provedAt host completed fallbackDate = Some t ->
  (forall n, Risk.resolvedTtl policy = Some (Finite n) ->
     (outcome (Risk.checkFreshness host completed fallbackDate policy step)
      = Returned tt
      <-> freshnessNow host < t + (n + 1) * 86400000)) /\
  (forall n, Credit.resolvedTtl policy = Some (Finite n) ->
     (outcome (Credit.checkFreshness host completed fallbackDate policy step)
      = Returned tt
      <-> freshnessNow host < t + (n + 1) * 86400000)) /\
  (Risk.resolvedTtl policy = Some Infinity ->
     outcome (Risk.checkFreshness host completed fallbackDate policy step)
     = Returned tt) /\
  (Credit.resolvedTtl policy = Some Infinity ->
     outcome (Credit.checkFreshness host completed fallbackDate policy step)
     = Returned tt).
Proof.
  intros Ht.
  assert (Hage : ageDays host completed fallbackDate
                 = Some ((freshnessNow host - t) / (24 * 60 * 60 * 1000))).
  { unfold ageDays. now rewrite Ht. }
  split; [|split; [|split]].
  - intros n Hn.
    rewrite risk_checkFreshness_outcome, Hage, Hn. simpl leNumber.
    pose proof (age_within (freshnessNow host) t n) as Hw.
    destruct (Z.leb_spec ((freshnessNow host - t) / 86400000) n);
      split; intros H';
      first [reflexivity | discriminate | lia].
  - intros n Hn.
    rewrite credit_checkFreshness_outcome, Hage, Hn. simpl leNumber.
    pose proof (age_within (freshnessNow host) t n) as Hw.
    destruct (Z.leb_spec ((freshnessNow host - t) / 86400000) n);
      split; intros H';
      first [reflexivity | discriminate | lia].
  - intros Hn. rewrite risk_checkFreshness_outcome, Hage, Hn. reflexivity.
  - intros Hn. rewrite credit_checkFreshness_outcome, Hage, Hn. reflexivity.
Qed.

Lemma freshness_window_witness :
  outcome (Risk.checkFreshness
             (sampleHost (1704067200000 + 91 * dayMs - 1))
             (Some "2024-01-01T00:00:00.000Z") "no date"
             (Some (riskPolicy (Some "90d"))) 4) = Returned tt.
Proof.
  apply (proj1 (@freshness_window
                  (sampleHost (1704067200000 + 91 * dayMs - 1))
                  (Some "2024-01-01T00:00:00.000Z") "no date"
                  (Some (riskPolicy (Some "90d"))) 4 1704067200000 eq_refl)
               90 eq_refl).
  reflexivity.
Defined.

(** X3: a completion date that is set but cannot be read makes the
    proof expired, whatever the creation date and the policy are: the
    creation date stands in only for an absent or empty completion
    date. *)
Theorem unreadable_completion_date host c fallbackDate policy step :
  c <> "" -> dateMs host c = None ->
  outcome (Risk.checkFreshness host (Some c) fallbackDate policy step)
    = Exited 1 /\
  outcome (Credit.checkFreshness host (Some c) fallbackDate policy step)
    = Exited 1.
Proof.
  intros Hc Hd.
  assert (Hage : ageDays host (Some c) fallbackDate = None).
  { unfold ageDays, provedAt. destruct c; [congruence|]. simpl. now rewrite Hd. }
  rewrite risk_checkFreshness_outcome, credit_checkFreshness_outcome, Hage.
  split; reflexivity.
Qed.

Lemma unreadable_completion_date_witness :
  outcome (Risk.checkFreshness (sampleHost 1704067200000) (Some "yesterday")
             "2024-01-01T00:00:00.000Z" None 3) = Exited 1.
Proof.
  apply (@unreadable_completion_date (sampleHost 1704067200000) "yesterday"
           "2024-01-01T00:00:00.000Z" None 3).
  - discriminate.
  - reflexivity.
Defined.

(** ** Decimal numerals *)

Lemma allDigits_of_uint (d : Decimal.uint) :
  allDigits (NilEmpty.string_of_uint d) = true.
Proof.
  induction d; simpl; auto.
Qed.

Lemma parseDigits_of_uint_acc (d : Decimal.uint) (acc : positive) :
  parseDigits (Z.pos acc) (NilEmpty.string_of_uint d)
  = Z.pos (Pos.of_uint_acc d acc).
Proof.
  revert acc. induction d; intros acc; cbn [NilEmpty.string_of_uint
    Pos.of_uint_acc parseDigits]; [reflexivity|..];
    match goal with
    | |- context [isDigit ?c] => change (isDigit c) with true; cbv iota
    end;
    rewrite <- IHd; f_equal;
    match goal with
    | |- context [digitValue ?c] =>
        let v := eval vm_compute in (digitValue c) in
        change (digitValue c) with v
    end; lia.
Qed.

Lemma parseDigits_of_uint (d : Decimal.uint) :
  parseDigits 0 (NilEmpty.string_of_uint d) = Z.of_uint d.
Proof.
  unfold Z.of_uint.
  induction d; cbn [NilEmpty.string_of_uint Pos.of_uint parseDigits];
    [reflexivity|..];
    match goal with
    | |- context [isDigit ?c] => change (isDigit c) with true; cbv iota
    end;
    [exact IHd|..];
    cbn [Z.of_N]; rewrite <- parseDigits_of_uint_acc; reflexivity.
Qed.

Lemma parseInt10_of_uint (d : Decimal.uint) :
  digitSequence (NilZero.string_of_uint d) /\
  parseInt10 (NilZero.string_of_uint d) = Some (toDouble (Z.of_uint d)).
Proof.
  destruct d;
    [ split; [split; [discriminate | reflexivity] | reflexivity] | .. ];
    (split;
     [ split; [discriminate|];
       match goal with
       | |- allDigits (NilZero.string_of_uint ?u) = true =>
           exact (allDigits_of_uint u)
       end
     | match goal with
       | |- parseInt10 (NilZero.string_of_uint ?u) = _ =>
           change (parseInt10 (NilZero.string_of_uint u))
             with (Some (toDouble (parseDigits 0 (NilEmpty.string_of_uint u))));
           do 2 f_equal; exact (parseDigits_of_uint u)
       end ]).
Qed.

(** Rendering an integer that is not negative and reading it again
    with [parseInt] gives the Number of the integer. *)
Lemma parseInt10_Z_to_string (n : Z) :
  0 <= n ->
  digitSequence (Z_to_string n) /\
  parseInt10 (Z_to_string n) = Some (toDouble n).
Proof.
  intros Hn. unfold Z_to_string.
  assert (Hint : exists d, Z.to_int n = Decimal.Pos d /\ Z.of_uint d = n).
  { pose proof (DecimalZ.of_to n) as Hof.
    destruct n as [|p|p]; [| |lia]; simpl in *; eauto. }
  destruct Hint as (d & -> & Hd). subst n.
  exact (parseInt10_of_uint d).
Qed.

(** X4: the TTL comes back from its decimal rendering: for every [n]
    from 0 to 2^53, a policy whose TTL is [P<n>D] or [<n>d], with [n]
    written in decimal, resolves to [n] days in both verifiers. *)
Theorem ttl_round_trip (policy : PolicyLike) (t : string) (n : Z) :
  0 <= n <= 2 ^ 53 ->
  ttl policy = Some t ->
  isoDuration t (Z_to_string n) \/ dayCount t (Z_to_string n) ->
  Risk.resolvedTtl (Some policy) = Some (Finite n) /\
  Credit.resolvedTtl (Some policy) = Some (Finite n).
Proof.
  intros [Hn Hsmall] Ht Hshape.
  destruct (parseInt10_Z_to_string Hn) as [Hds Hparse].
  rewrite (parseInt10_numeral Hds) in Hparse.
  rewrite (toDouble_exact Hsmall) in Hparse.
  unfold Risk.resolvedTtl, Credit.resolvedTtl, ttlDays. simpl ttlString.
  rewrite Ht, <- Hparse.
  destruct Hshape as [Hiso | Hday]; split;
    first [now apply parseTtl_iso | now apply parseTtl_dayCount].
Qed.

Lemma ttl_round_trip_witness :
  Risk.resolvedTtl (Some (riskPolicy (Some "365d"))) = Some (Finite 365) /\
  Credit.resolvedTtl (Some (riskPolicy (Some "365d"))) = Some (Finite 365).
Proof.
  apply (@ttl_round_trip (riskPolicy (Some "365d")) "365d" 365).
  - lia.
  - reflexivity.
  - right. exists "d"%char. split; reflexivity.
Defined.

(** ** The policy validators *)

Lemma findOutput_found (target : string) (os : list Output) :
  findOutput target os <> None <->
  exists o, In o os /\ name o = target.
Proof.
  unfold findOutput. split.
  - destruct (find _ os) as [o|] eqn:Hf; [|congruence].
    intros _. apply find_some in Hf. destruct Hf as [Hin Hn].
    apply String.eqb_eq in Hn. eauto.
  - intros (o & Hin & Hn) Hnone.
    apply (find_none _ _ Hnone) in Hin. simpl in Hin.
    apply String.eqb_neq in Hin. contradiction.
Qed.

(** X5: the vehicle risk validator passes a policy exactly when its
    version starts with ["0."], its subject type is ["vehicle"] and it
    declares an output named ["riskBand"]; the credit validator exactly
    when the version starts with ["0."] and an output is named
    ["approved"].  Nothing else in the policy matters, and a policy
    that does not pass makes the process exit with code 1. *)
Theorem validation_passes_iff (policy : PolicyLike) :
  (outcome (Risk.validatePolicy policy) = Returned true <->
     startsWith "0." (version policy) /\
     subject_type policy = "vehicle" /\
     exists o, In o (outputs policy) /\ name o = "riskBand") /\
  (outcome (Risk.validatePolicy policy) <> Returned true ->
     outcome (Risk.validatePolicy policy) = Exited 1) /\
  (outcome (Credit.validatePolicy policy) = Returned true <->
     startsWith "0." (version policy) /\
     exists o, In o (outputs policy) /\ name o = "approved") /\
  (outcome (Credit.validatePolicy policy) <> Returned true ->
     outcome (Credit.validatePolicy policy) = Exited 1).
Proof.
  rewrite risk_validatePolicy_outcome, credit_validatePolicy_outcome.
  rewrite <- prefix_startsWith, <- !findOutput_found.
  destruct (prefix "0." (version policy));
    destruct (String.eqb_spec (subject_type policy) "vehicle");
    destruct (findOutput "riskBand" (outputs policy));
    destruct (findOutput "approved" (outputs policy));
    simpl; repeat split; intros; try congruence; try tauto;
    try (intuition congruence).
Qed.

Lemma validation_passes_iff_witness :
  outcome (Risk.validatePolicy (creditPolicy "0.1.0" "vehicle")) = Exited 1.
Proof.
  apply (proj1 (proj2 (validation_passes_iff (creditPolicy "0.1.0" "vehicle")))).
  discriminate.
Defined.

(** X6: a rejected policy gets exactly one error line, that of the first
    check that fails in the order version, subject type, output, and
    none of the findings is printed; a policy that passes gets no error
    line. *)
Theorem rejection_reports_first_failure (policy : PolicyLike) :
  (~ startsWith "0." (version policy) ->
     errorsOf (trace (Risk.validatePolicy policy))
     = ["Unsupported policy version: " ++ version policy]) /\
  (startsWith "0." (version policy) -> subject_type policy <> "vehicle" ->
     errorsOf (trace (Risk.validatePolicy policy))
     = ["Unexpected subject type: " ++ subject_type policy]) /\
  (startsWith "0." (version policy) -> subject_type policy = "vehicle" ->
   (forall o, In o (outputs policy) -> name o <> "riskBand") ->
     errorsOf (trace (Risk.validatePolicy policy))
     = ["Policy missing required 'riskBand' output"]) /\
  (outcome (Risk.validatePolicy policy) = Exited 1 ->
     ~ In (Log "Policy validation passed:")
          (trace (Risk.validatePolicy policy))) /\
  (outcome (Risk.validatePolicy policy) = Returned true ->
     errorsOf (trace (Risk.validatePolicy policy)) = []).
Proof.
  assert (Hlogs : forall ls, errorsOf (map Log ls) = []).
  { induction ls; simpl; auto. }
  split; [|split; [|split; [|split]]].
  - intros Hv. rewrite <- prefix_startsWith in Hv.
    apply not_true_is_false in Hv.
    now rewrite (risk_validatePolicy_version policy Hv).
  - intros Hv Hs. apply prefix_startsWith in Hv. apply String.eqb_neq in Hs.
    now rewrite (risk_validatePolicy_subject policy Hv Hs).
  - intros Hv Hs Ho. apply prefix_startsWith in Hv. apply String.eqb_eq in Hs.
    assert (Hnone : findOutput "riskBand" (outputs policy) = None).
    { destruct (findOutput "riskBand" (outputs policy)) eqn:Hf; [|reflexivity].
      assert (Hsome : findOutput "riskBand" (outputs policy) <> None)
        by congruence.
      apply findOutput_found in Hsome. destruct Hsome as (o' & Hin & Hn).
      now destruct (Ho o' Hin). }
    now rewrite (risk_validatePolicy_output policy Hv Hs Hnone).
  - rewrite risk_validatePolicy_outcome.
    destruct (prefix "0." (version policy)) eqn:Hv.
    + destruct (String.eqb (subject_type policy) "vehicle") eqn:Hs.
      * destruct (findOutput "riskBand" (outputs policy)) eqn:Ho;
          [discriminate|].
        intros _. rewrite (risk_validatePolicy_output policy Hv Hs Ho).
        simpl. intros [H | [H | [H | [H | []]]]]; discriminate.
      * intros _. rewrite (risk_validatePolicy_subject policy Hv Hs).
        simpl. intros [H | [H | [H | [H | []]]]]; discriminate.
    + intros _. rewrite (risk_validatePolicy_version policy Hv).
      simpl. intros [H | [H | [H | [H | []]]]]; discriminate.
  - rewrite risk_validatePolicy_outcome.
    destruct (prefix "0." (version policy)) eqn:Hv; [|discriminate].
    destruct (String.eqb (subject_type policy) "vehicle") eqn:Hs;
      [|discriminate].
    destruct (findOutput "riskBand" (outputs policy)) eqn:Ho; [|discriminate].
    intros _. destruct (risk_validatePolicy_pass policy Hv Hs Ho)
      as (fs & -> & _).
    unfold trace, errorsOf. cbn [fst flat_map app].
    rewrite (flat_map_app _ (map Log _) [Log ""]).
    fold (errorsOf (map Log (map (fun r => "   " ++ r) fs))).
    rewrite Hlogs. reflexivity.
Qed.

Lemma rejection_reports_first_failure_witness :
  errorsOf (trace (Risk.validatePolicy (creditPolicy "1.0.0" "individual")))
  = ["Unsupported policy version: 1.0.0"] /\
  errorsOf (trace (Risk.validatePolicy (creditPolicy "0.1.0" "individual")))
  = ["Unexpected subject type: individual"] /\
  errorsOf (trace (Risk.validatePolicy (creditPolicy "0.1.0" "vehicle")))
  = ["Policy missing required 'riskBand' output"] /\
  ~ In (Log "Policy validation passed:")
       (trace (Risk.validatePolicy (creditPolicy "0.1.0" "vehicle"))) /\
  errorsOf (trace (Risk.validatePolicy (riskPolicy None))) = [].
Proof.
  split; [|split; [|split; [|split]]].
  - apply (proj1 (rejection_reports_first_failure
                    (creditPolicy "1.0.0" "individual"))).
    intros [rest H]. discriminate.
  - apply (proj1 (proj2 (rejection_reports_first_failure
                           (creditPolicy "0.1.0" "individual")))).
    + exists "1.0". reflexivity.
    + discriminate.
  - apply (proj1 (proj2 (proj2 (rejection_reports_first_failure
                                  (creditPolicy "0.1.0" "vehicle"))))).
    + exists "1.0". reflexivity.
    + reflexivity.
    + intros o [<- | []]. discriminate.
  - apply (proj1 (proj2 (proj2 (proj2 (rejection_reports_first_failure
                                         (creditPolicy "0.1.0" "vehicle")))))).
    reflexivity.
  - apply (proj2 (proj2 (proj2 (proj2 (rejection_reports_first_failure
                                         (riskPolicy None)))))).
    reflexivity.
Defined.

Lemma isDisclosed_iff (target : string) (policy : PolicyLike) :
  isDisclosed target policy = true <->
  exists cs, exposeClaims policy = Some cs /\ In target cs.
Proof.
  unfold isDisclosed. destruct (exposeClaims policy) as [cs|].
  - rewrite existsb_exists. split.
    + intros (x & Hin & Hx). apply String.eqb_eq in Hx. subst x. eauto.
    + intros (cs' & [= <-] & Hin). exists target. split; [assumption|].
      apply String.eqb_refl.
  - split; [discriminate|]. intros (cs & H & _). discriminate.
Qed.

Ltac line_cases H :=
  simpl in H;
  repeat (destruct H as [H | H]; [try discriminate H|]);
  try contradiction.

(** X7: disclosure is recorded, not required: among the findings of a
    policy that passes, the line ["Risk band is disclosed"] (for the
    credit validator ["Approval status is disclosed"]) is printed
    exactly when the disclosure list of the policy names the output. *)
Theorem disclosure_is_recorded (policy : PolicyLike) :
  (outcome (Risk.validatePolicy policy) = Returned true ->
     (In (Log "   Risk band is disclosed") (trace (Risk.validatePolicy policy))
      <-> exists cs, exposeClaims policy = Some cs /\ In "riskBand" cs)) /\
  (outcome (Credit.validatePolicy policy) = Returned true ->
     (In (Log "   Approval status is disclosed")
         (trace (Credit.validatePolicy policy))
      <-> exists cs, exposeClaims policy = Some cs /\ In "approved" cs)).
Proof.
  split.
  - rewrite risk_validatePolicy_outcome, <- isDisclosed_iff.
    destruct (prefix "0." (version policy)) eqn:Hv; [|discriminate].
    destruct (String.eqb (subject_type policy) "vehicle") eqn:Hs;
      [|discriminate].
    destruct (findOutput "riskBand" (outputs policy)) as [o|] eqn:Ho;
      [|discriminate].
    intros _. unfold Risk.validatePolicy. rewrite Hv, Hs, Ho.
    cbn -[append isDisclosed String.eqb String.concat].
    rewrite logEach_run.
    destruct (String.eqb (kind (derive o)) "BAND");
      destruct (bands (derive o));
      destruct (isDisclosed "riskBand" policy);
      cbn -[append String.concat]; split; intros H;
      first [reflexivity | discriminate H | tauto | line_cases H].
  - rewrite credit_validatePolicy_outcome, <- isDisclosed_iff.
    destruct (prefix "0." (version policy)) eqn:Hv; [|discriminate].
    destruct (findOutput "approved" (outputs policy)) as [o|] eqn:Ho;
      [|discriminate].
    intros _. unfold Credit.validatePolicy. rewrite Hv, Ho.
    cbn -[append isDisclosed String.eqb String.concat].
    rewrite logEach_run.
    destruct (String.eqb (kind (derive o)) "PASS_FAIL");
      destruct (isDisclosed "approved" policy);
      cbn -[append String.concat]; split; intros H;
      first [reflexivity | discriminate H | tauto | line_cases H].
Qed.

Lemma disclosure_is_recorded_witness :
  In (Log "   Risk band is disclosed")
     (trace (Risk.validatePolicy (riskPolicy None))).
Proof.
  apply (proj1 (disclosure_is_recorded (riskPolicy None)) eq_refl).
  exists ["riskBand"]. split; [reflexivity | left; reflexivity].
Defined.

(** ** The band label *)

(** X8: without a band table to read (no policy, a policy without
    outputs, a first output without bands), the label comes from the
    default table: ["HIGH"], ["MEDIUM"], ["LOW"] for the indices 0, 1
    and 2, and ["Band <index>"] for every other integer, negative ones
    included. *)
Theorem default_table_labels host claims policy i :
  Risk.firstBands policy = None ->
  Risk.bandIndex host claims = NumInt i ->
  (i = 0 -> Risk.resolveBandLabel host claims policy = "HIGH") /\
  (i = 1 -> Risk.resolveBandLabel host claims policy = "MEDIUM") /\
  (i = 2 -> Risk.resolveBandLabel host claims policy = "LOW") /\
  (i < 0 \/ 3 <= i ->
     Risk.resolveBandLabel host claims policy = "Band " ++ Z_to_string i).
Proof.
  intros Hb Hi. unfold Risk.resolveBandLabel. rewrite Hb, Hi.
  unfold Risk.defaultLabel. repeat split.
  - intros ->. reflexivity.
  - intros ->. reflexivity.
  - intros ->. reflexivity.
  - intros Hout. now rewrite (at_outside Risk.RISK_BANDS Hout).
Qed.

Lemma default_table_labels_witness :
  Risk.resolveBandLabel (sampleHost 0) [("outputValue", VString "7")] None
  = "Band 7".
Proof.
  apply (@default_table_labels (sampleHost 0) [("outputValue", VString "7")]
           None 7 eq_refl eq_refl).
  right. lia.
Defined.

(** X9: a credential without a usable band claim reads as index 0: when
    neither ["riskBand"] nor ["outputValue"] holds a number or a string
    (the claim is absent, null, a boolean, an object), the label is the
    first label of the band table of the first output, or ["HIGH"] when
    that table is missing or empty. *)
Theorem unusable_claim_reads_as_zero host claims policy :
  (forall n, nullish (getClaim claims "riskBand")
               (getClaim claims "outputValue") <> VNumber n) ->
  (forall s, nullish (getClaim claims "riskBand")
               (getClaim claims "outputValue") <> VString s) ->
  Risk.bandIndex host claims = NumInt 0 /\
  (forall b bs, Risk.firstBands policy = Some (b :: bs) ->
     Risk.resolveBandLabel host claims policy = label b) /\
  (Risk.firstBands policy = None \/ Risk.firstBands policy = Some [] ->
     Risk.resolveBandLabel host claims policy = "HIGH").
Proof.
  intros Hn Hs.
  assert (Hi : Risk.bandIndex host claims = NumInt 0).
  { unfold Risk.bandIndex.
    destruct (nullish _ _) as [| |b|n|s|o]; try reflexivity.
    - now destruct (Hn n).
    - now destruct (Hs s). }
  split; [exact Hi|]. unfold Risk.resolveBandLabel. rewrite Hi. split.
  - intros b bs ->. reflexivity.
  - intros [-> | ->]; reflexivity.
Qed.

Lemma unusable_claim_reads_as_zero_witness :
  Risk.resolveBandLabel (sampleHost 0) [("issuer", VString "bind")] None
  = "HIGH".
Proof.
  apply (@unusable_claim_reads_as_zero (sampleHost 0)
           [("issuer", VString "bind")] None).
  - discriminate.
  - discriminate.
  - left. reflexivity.
Defined.

(** X10: the claim ["riskBand"] has precedence: when it is present and
    not null, the label does not depend on ["outputValue"] or on any
    other claim. *)
Theorem riskBand_claim_has_precedence host claims policy v :
  getClaim claims "riskBand" = v -> v <> VUndefined -> v <> VNull ->
  Risk.resolveBandLabel host claims policy
  = Risk.resolveBandLabel host [("riskBand", v)] policy.
Proof.
  intros Hv Hu Hn.
  assert (Hi : Risk.bandIndex host claims
               = Risk.bandIndex host [("riskBand", v)]).
  { unfold Risk.bandIndex. rewrite Hv. simpl.
    destruct v; try reflexivity; congruence. }
  unfold Risk.resolveBandLabel. now rewrite Hi.
Qed.

Lemma riskBand_claim_has_precedence_witness :
  Risk.resolveBandLabel (sampleHost 0)
    [("outputValue", VNumber (NumInt 0)); ("riskBand", VNumber (NumInt 2))]
    None
  = Risk.resolveBandLabel (sampleHost 0) [("riskBand", VNumber (NumInt 2))]
      None.
Proof.
  apply (@riskBand_claim_has_precedence (sampleHost 0)
           [("outputValue", VNumber (NumInt 0));
            ("riskBand", VNumber (NumInt 2))] None (VNumber (NumInt 2))).
  - reflexivity.
  - discriminate.
  - discriminate.
Defined.

(** X11: a band claim that is a number but not an integer ([NaN], a
    fraction, an infinity) selects no label of any table: the label is
    ["Band "] followed by the rendering of the number, whatever the
    policy. *)
Theorem non_integer_index_is_synthesized host claims policy shown :
  Risk.bandIndex host claims = NumOther shown ->
  Risk.resolveBandLabel host claims policy = "Band " ++ shown.
Proof.
  intros Hi. unfold Risk.resolveBandLabel. rewrite Hi.
  destruct (Risk.firstBands policy); reflexivity.
Qed.

Lemma non_integer_index_is_synthesized_witness :
  Risk.resolveBandLabel (sampleHost 0) [("riskBand", VString "low")]
    (Some (riskPolicy None)) = "Band NaN".
Proof.
  apply (@non_integer_index_is_synthesized (sampleHost 0)
           [("riskBand", VString "low")] (Some (riskPolicy None)) "NaN").
  reflexivity.
Defined.

(** X12: the underwriting guidance follows the label: with the default
    table, index 0 gives the recommendation CAUTION, index 1 REVIEW and
    index 2 APPROVE; a synthesized label ["Band <index>"] gives no
    recommendation at all. *)
Theorem guidance_follows_label host claims policy i :
  Risk.firstBands policy = None ->
  Risk.bandIndex host claims = NumInt i ->
  (i = 0 -> hd_error (Risk.guidance (Risk.resolveBandLabel host claims policy))
            = Some "  Recommendation: CAUTION") /\
  (i = 1 -> hd_error (Risk.guidance (Risk.resolveBandLabel host claims policy))
            = Some "  Recommendation: REVIEW") /\
  (i = 2 -> hd_error (Risk.guidance (Risk.resolveBandLabel host claims policy))
            = Some "  Recommendation: APPROVE") /\
  (i < 0 \/ 3 <= i ->
     Risk.guidance (Risk.resolveBandLabel host claims policy) = []).
Proof.
  intros Hb Hi. unfold Risk.resolveBandLabel. rewrite Hb, Hi.
  unfold Risk.defaultLabel. repeat split.
  - intros ->. reflexivity.
  - intros ->. reflexivity.
  - intros ->. reflexivity.
  - intros Hout. now rewrite (at_outside Risk.RISK_BANDS Hout).
Qed.

Lemma guidance_follows_label_witness :
  Risk.guidance
    (Risk.resolveBandLabel (sampleHost 0) [("riskBand", VNumber (NumInt 5))]
       None) = [].
Proof.
  apply (@guidance_follows_label (sampleHost 0)
           [("riskBand", VNumber (NumInt 5))] None 5 eq_refl eq_refl).
  right. lia.
Defined.

Lemma risk_displayResults_lines host claims policy summary entry :
  In entry claims ->
  In (Log (Risk.claimLine host claims policy entry))
     (trace (Risk.displayResults host claims policy summary)).
Proof.
  intros Hin. unfold Risk.displayResults.
  do 3 (eapply in_bind_r; [reflexivity|]).
  apply in_bind_l. rewrite logEach_run. simpl.
  apply in_map. apply in_map with (f := Risk.claimLine host claims policy) in Hin.
  exact Hin.
Qed.

(** X13: the report is consistent: every line displayed for a claim
    named ["riskBand"] or ["outputValue"] carries, after the value of
    that claim, the one label the report ends with, the label resolved
    from the claims as a whole. *)
Theorem claim_lines_carry_report_label host claims policy summary key value :
  In (key, value) claims ->
  key = "riskBand" \/ key = "outputValue" ->
  In (Log ("  " ++ key ++ ": " ++ toString value ++ " ("
           ++ Risk.resolveBandLabel host claims policy ++ ")"))
     (trace (Risk.displayResults host claims policy summary)) /\
  In (Log ("  Risk Band: " ++ Risk.resolveBandLabel host claims policy))
     (trace (Risk.displayResults host claims policy summary)).
Proof.
  intros Hin Hkey. split.
  - apply (risk_displayResults_lines host claims policy summary) in Hin.
    destruct Hkey as [-> | ->]; exact Hin.
  - unfold Risk.displayResults.
    repeat first
      [ solve [apply in_bind_l; simpl; tauto]
      | eapply in_bind_r; [first [reflexivity | now rewrite logEach_run]|] ].
Qed.

Lemma claim_lines_carry_report_label_witness :
  In (Log "  outputValue: 0 (LOW)")
     (trace (Risk.displayResults (sampleHost 0)
               [("riskBand", VNumber (NumInt 2));
                ("outputValue", VNumber (NumInt 0))] None sampleSummary)).
Proof.
  apply (@claim_lines_carry_report_label (sampleHost 0)
           [("riskBand", VNumber (NumInt 2));
            ("outputValue", VNumber (NumInt 0))] None sampleSummary
           "outputValue" (VNumber (NumInt 0))).
  - right. left. reflexivity.
  - right. reflexivity.
Defined.

(** ** The reference scorer, by its inputs *)

(** X14: the expected band in terms of the inputs: it is ["LOW"]
    exactly when the mileage is at most 3000, or at most 5000 with a top
    speed below 100; otherwise it is ["MEDIUM"].  The number of data
    points has no part in it. *)
Theorem expected_band_by_inputs (input : Telemetry) :
  (Demo.expectedBand input = "LOW" <->
     mileage input <= 3000 \/ (mileage input <= 5000 /\ speedMax input < 100)) /\
  (Demo.expectedBand input <> "LOW" -> Demo.expectedBand input = "MEDIUM") /\
  (SubmitProveJob.expectedBand input = "LOW" <->
     mileage input <= 3000 \/ (mileage input <= 5000 /\ speedMax input < 100)) /\
  (SubmitProveJob.expectedBand input <> "LOW" ->
     SubmitProveJob.expectedBand input = "MEDIUM").
Proof.
  unfold Demo.expectedBand, SubmitProveJob.expectedBand,
    SubmitProveJob.expectedScore, SubmitProveJob.evaluation,
    Demo.expectedScore.
  destruct (Z.leb_spec (mileage input) 3000);
    destruct (Z.leb_spec (mileage input) 5000);
    destruct (Z.ltb_spec (speedMax input) 100);
    simpl; repeat split; intros; try lia; try reflexivity;
    try discriminate; try congruence.
Qed.

Lemma expected_band_by_inputs_witness :
  Demo.expectedBand {| mileage := 5001; dataPoints := 0; speedMax := 10 |}
  = "MEDIUM".
Proof.
  apply (proj1 (proj2 (expected_band_by_inputs
           {| mileage := 5001; dataPoints := 0; speedMax := 10 |}))).
  discriminate.
Defined.

(** X15: the clamp at 100 never takes effect: the expected score is
    the baseline plus the bonuses, which add up to 100 at most. *)
Theorem clamp_is_never_active (input : Telemetry) :
  Demo.expectedScore input
  = 50 + bonus (mileage input <=? 3000) 25
       + bonus (mileage input <=? 5000) 15
       + bonus (speedMax input <? 100) 10 /\
  SubmitProveJob.expectedScore input
  = 50 + bonus (mileage input <=? 3000) 25
       + bonus (mileage input <=? 5000) 15
       + bonus (speedMax input <? 100) 10.
Proof.
  unfold SubmitProveJob.expectedScore, SubmitProveJob.evaluation,
    Demo.expectedScore, bonus.
  destruct (mileage input <=? 3000), (mileage input <=? 5000),
    (speedMax input <? 100); split; reflexivity.
Qed.

(** X16: the expected score never grows with the mileage or with the
    top speed. *)
Theorem score_is_antitone (a b : Telemetry) :
  mileage a <= mileage b -> speedMax a <= speedMax b ->
  Demo.expectedScore b <= Demo.expectedScore a /\
  SubmitProveJob.expectedScore b <= SubmitProveJob.expectedScore a.
Proof.
  intros Hm Hs.
  unfold SubmitProveJob.expectedScore, SubmitProveJob.evaluation,
    Demo.expectedScore.
  destruct (Z.leb_spec (mileage a) 3000);
    destruct (Z.leb_spec (mileage a) 5000);
    destruct (Z.ltb_spec (speedMax a) 100);
    destruct (Z.leb_spec (mileage b) 3000);
    destruct (Z.leb_spec (mileage b) 5000);
    destruct (Z.ltb_spec (speedMax b) 100);
    simpl; lia.
Qed.

Lemma score_is_antitone_witness :
  Demo.expectedScore highRisk <= Demo.expectedScore moderateUse.
Proof.
  apply (@score_is_antitone moderateUse highRisk); simpl; lia.
Defined.

Lemma breakdown_lines input :
  snd (SubmitProveJob.evaluation input) =
  app ["Baseline: 50"]
   (app (if mileage input <=? 3000 then ["Low mileage (≤3,000): +25"] else [])
    (app (if mileage input <=? 5000
          then ["Moderate mileage (≤5,000): +15"] else [])
         (if speedMax input <? 100
          then ["No extreme speed (<100 mph): +10"] else []))).
Proof.
  unfold SubmitProveJob.evaluation.
  destruct (mileage input <=? 3000), (mileage input <=? 5000),
    (speedMax input <? 100); reflexivity.
Qed.

(** X17: the breakdown of the prove-job script accounts for the score:
    it holds the baseline and one line for each bonus earned, so that
    the score is 50 plus 25, 15 and 10 for the lines present; a low
    mileage always brings the moderate-mileage line with it. *)
Theorem breakdown_accounts_for_score (input : Telemetry) :
  let lines := snd (SubmitProveJob.evaluation input) in
  let has line := if in_dec string_dec line lines then 1 else 0 in
  hd_error lines = Some "Baseline: 50" /\
  SubmitProveJob.expectedScore input
  = 50 + 25 * has "Low mileage (≤3,000): +25"
       + 15 * has "Moderate mileage (≤5,000): +15"
       + 10 * has "No extreme speed (<100 mph): +10" /\
  (In "Low mileage (≤3,000): +25" lines ->
   In "Moderate mileage (≤5,000): +15" lines).
Proof.
  cbv zeta. rewrite breakdown_lines.
  unfold SubmitProveJob.expectedScore, SubmitProveJob.evaluation.
  destruct (Z.leb_spec (mileage input) 3000) as [Hlow | Hlow];
    destruct (Z.leb_spec (mileage input) 5000) as [Hmod | Hmod];
    destruct (Z.ltb_spec (speedMax input) 100) as [Hspeed | Hspeed];
    try lia; vm_compute; repeat split; intros Hin;
    repeat (destruct Hin as [Hin | Hin]; try discriminate Hin); auto.
Qed.

Lemma breakdown_accounts_for_score_witness :
  In "Moderate mileage (≤5,000): +15"
    (snd (SubmitProveJob.evaluation wellMaintained)).
Proof.
  apply (proj2 (proj2 (breakdown_accounts_for_score wellMaintained))).
  vm_compute. auto.
Defined.

(** ** Whole runs of the shared-proof verification *)

Lemma stepBanner_step (rest : string) : stepBanner ("Step " ++ rest) = true.
Proof.
  unfold stepBanner. cbn -[ascii_dec].
  repeat match goal with
         | |- context [ascii_dec ?a ?a] =>
             destruct (ascii_dec a a); [|congruence]
         end.
  destruct rest; reflexivity.
Qed.

Lemma stepsOf_app (a b : list Item) : stepsOf (a ++ b) = (stepsOf a ++ stepsOf b)%list.
Proof. apply flat_map_app. Qed.

Lemma callsOf_app (a b : list Item) : callsOf (a ++ b) = (callsOf a ++ callsOf b)%list.
Proof. apply flat_map_app. Qed.

Lemma errorsOf_app (a b : list Item) : errorsOf (a ++ b) = (errorsOf a ++ errorsOf b)%list.
Proof. apply flat_map_app. Qed.

Lemma quiet_lines (lines : list string) :
  (forall l, In l lines -> stepBanner l = false) ->
  stepsOf (map Log lines) = [] /\ callsOf (map Log lines) = [] /\
  errorsOf (map Log lines) = [].
Proof.
  induction lines as [|l lines IH]; intros Hq; [repeat split|].
  destruct IH as (Hs & Hc & He); [intros; apply Hq; now right|].
  unfold stepsOf, callsOf, errorsOf in *. simpl.
  rewrite (Hq l (or_introl eq_refl)), Hs, Hc, He. repeat split.
Qed.

(** What a run of a validator looks like from outside. *)
Lemma risk_validate_profile (p : PolicyLike) :
  exists tv ov, Risk.validatePolicy p = (tv, ov) /\
    stepsOf tv = ["Step 3: Validating policy acceptability..."] /\
    callsOf tv = [] /\
    ((ov = Returned true /\ errorsOf tv = []) \/
     (ov = Exited 1 /\ exists msg, errorsOf tv = [msg])).
Proof.
  destruct (prefix "0." (version p)) eqn:Hv.
  - destruct (String.eqb (subject_type p) "vehicle") eqn:Hs.
    + destruct (findOutput "riskBand" (outputs p)) as [o|] eqn:Ho.
      * destruct (risk_validatePolicy_pass p Hv Hs Ho) as (fs & -> & _).
        destruct (quiet_lines (map (fun r => "   " ++ r) fs)) as (Hq1 & Hq2 & Hq3).
        { intros l Hl. apply in_map_iff in Hl. destruct Hl as (f & <- & _).
          reflexivity. }
        do 2 eexists. split; [reflexivity|].
        unfold stepsOf, callsOf, errorsOf in *. cbn [flat_map].
        rewrite !flat_map_app, Hq1, Hq2, Hq3. cbn.
        repeat split; auto.
      * rewrite (risk_validatePolicy_output p Hv Hs Ho).
        do 2 eexists. split; [reflexivity|]. cbn. repeat split; eauto.
    + rewrite (risk_validatePolicy_subject p Hv Hs).
      do 2 eexists. split; [reflexivity|]. cbn. repeat split; eauto.
  - rewrite (risk_validatePolicy_version p Hv).
    do 2 eexists. split; [reflexivity|]. cbn. repeat split; eauto.
Qed.

Lemma credit_validate_profile (p : PolicyLike) :
  exists tv ov, Credit.validatePolicy p = (tv, ov) /\
    stepsOf tv = ["Step 3: Validating policy acceptability..."] /\
    callsOf tv = [] /\
    ((ov = Returned true /\ errorsOf tv = []) \/
     (ov = Exited 1 /\ exists msg, errorsOf tv = [msg])).
Proof.
  destruct (prefix "0." (version p)) eqn:Hv.
  - destruct (findOutput "approved" (outputs p)) as [o|] eqn:Ho.
    + destruct (credit_validatePolicy_pass p Hv Ho) as (fs & -> & _).
      destruct (quiet_lines (map (fun r => "   " ++ r) fs)) as (Hq1 & Hq2 & Hq3).
      { intros l Hl. apply in_map_iff in Hl. destruct Hl as (f & <- & _).
        reflexivity. }
      do 2 eexists. split; [reflexivity|].
      unfold stepsOf, callsOf, errorsOf in *. cbn [flat_map].
      rewrite !flat_map_app, Hq1, Hq2, Hq3. cbn.
      repeat split; auto.
    + rewrite (credit_validatePolicy_output p Hv Ho).
      do 2 eexists. split; [reflexivity|]. cbn. repeat split; eauto.
  - rewrite (credit_validatePolicy_version p Hv).
    do 2 eexists. split; [reflexivity|]. cbn. repeat split; eauto.
Qed.

Lemma risk_freshness_profile host completed fallbackDate policy step :
  exists tf outc,
    Risk.checkFreshness host completed fallbackDate policy step = (tf, outc) /\
    stepsOf tf = ["Step " ++ Z_to_string step ++ ": Checking proof freshness..."] /\
    callsOf tf = [] /\
    ((outc = Returned tt /\ errorsOf tf = [] /\
      leNumber (ageDays host completed fallbackDate)
        (Risk.resolvedTtl policy) = true) \/
     (outc = Exited 1 /\ (exists msg, errorsOf tf = [msg]) /\
      leNumber (ageDays host completed fallbackDate)
        (Risk.resolvedTtl policy) = false)).
Proof.
  unfold Risk.checkFreshness. cbv zeta.
  destruct (leNumber _ _) eqn:Hle;
    cbn -[ageDays Risk.resolvedTtl leNumber show showTtl Z_to_string append stepBanner];
    do 2 eexists; (split; [reflexivity|]);
    unfold stepsOf, callsOf, errorsOf; cbn [flat_map app];
    rewrite stepBanner_step; cbn; repeat split; eauto.
Qed.

Lemma credit_freshness_profile host completed fallbackDate policy step :
  exists tf outc,
    Credit.checkFreshness host completed fallbackDate policy step = (tf, outc) /\
    stepsOf tf = ["Step " ++ Z_to_string step ++ ": Checking proof freshness..."] /\
    callsOf tf = [] /\
    ((outc = Returned tt /\ errorsOf tf = [] /\
      leNumber (ageDays host completed fallbackDate)
        (Credit.resolvedTtl policy) = true) \/
     (outc = Exited 1 /\ (exists msg, errorsOf tf = [msg]) /\
      leNumber (ageDays host completed fallbackDate)
        (Credit.resolvedTtl policy) = false)).
Proof.
  unfold Credit.checkFreshness. cbv zeta.
  destruct (leNumber _ _) eqn:Hle;
    cbn -[ageDays Credit.resolvedTtl leNumber show showTtl Z_to_string append stepBanner];
    do 2 eexists; (split; [reflexivity|]);
    unfold stepsOf, callsOf, errorsOf; cbn [flat_map app];
    rewrite stepBanner_step; cbn; repeat split; eauto.
Qed.

Lemma risk_display_profile host claims policy summary :
  exists td,
    Risk.displayResults host claims policy summary = (td, Returned tt) /\
    stepsOf td = [] /\ callsOf td = [] /\ errorsOf td = [] /\
    In (Log ("  Risk Band: " ++ Risk.resolveBandLabel host claims policy)) td.
Proof.
  destruct (quiet_lines (map (Risk.claimLine host claims policy) claims))
    as (Hc1 & Hc2 & Hc3).
  { intros l Hl. apply in_map_iff in Hl. destruct Hl as ([k v] & <- & _).
    unfold Risk.claimLine. destruct (_ || _); reflexivity. }
  destruct (quiet_lines (Risk.guidance (Risk.resolveBandLabel host claims policy)))
    as (Hg1 & Hg2 & Hg3).
  { intros l Hl. unfold Risk.guidance in Hl.
    repeat (destruct (String.eqb _ _) in Hl);
      simpl in Hl; repeat (destruct Hl as [<- | Hl]; [reflexivity|]);
      contradiction. }
  assert (Hin : In (Log ("  Risk Band: "
                         ++ Risk.resolveBandLabel host claims policy))
                   (trace (Risk.displayResults host claims policy summary))).
  { unfold Risk.displayResults.
    repeat first
      [ solve [apply in_bind_l; simpl; tauto]
      | eapply in_bind_r; [first [reflexivity | now rewrite logEach_run]|] ]. }
  revert Hin. unfold Risk.displayResults. rewrite !logEach_run.
  cbn -[Risk.resolveBandLabel Risk.claimLine Risk.guidance stepBanner In].
  intros Hin. eexists. split; [reflexivity|].
  split; [|split; [|split; [|exact Hin]]];
    unfold stepsOf, callsOf, errorsOf in *;
    cbn -[Risk.resolveBandLabel Risk.claimLine Risk.guidance];
    rewrite !flat_map_app, ?Hc1, ?Hc2, ?Hc3;
    cbn -[Risk.resolveBandLabel Risk.claimLine Risk.guidance];
    rewrite !flat_map_app, ?Hg1, ?Hg2, ?Hg3;
    reflexivity.
Qed.

Lemma credit_display_profile claims summary :
  exists td,
    Credit.displayResults claims summary = (td, Returned tt) /\
    stepsOf td = [] /\ callsOf td = [] /\ errorsOf td = [] /\
    forall entry, In entry claims -> In (Log (Credit.claimLine entry)) td.
Proof.
  destruct (quiet_lines (map Credit.claimLine claims)) as (Hc1 & Hc2 & Hc3).
  { intros l Hl. apply in_map_iff in Hl. destruct Hl as ([k v] & <- & _).
    unfold Credit.claimLine. destruct (_ || _); reflexivity. }
  pose proof (credit_displayResults_lines claims summary) as Hin.
  revert Hin. unfold Credit.displayResults. rewrite !logEach_run.
  cbn -[Credit.claimLine stepBanner In].
  intros Hin. eexists. split; [reflexivity|].
  split; [|split; [|split; [|exact Hin]]];
    unfold stepsOf, callsOf, errorsOf in *;
    cbn -[Credit.claimLine];
    rewrite !flat_map_app, ?Hc1, ?Hc2, ?Hc3;
    reflexivity.
Qed.

Ltac run_cbn :=
  cbn -[truthy_opt isExpired repeat_ append Z_to_string findPolicy
        Risk.validatePolicy Risk.checkFreshness Risk.displayResults
        Credit.validatePolicy Credit.checkFreshness Credit.displayResults
        consecutiveSteps oneErrorPerExit sharedRunInvariants
        stepsOf callsOf errorsOf In].

Ltac scrutinee t :=
  lazymatch t with
  | match ?x with _ => _ end => scrutinee x
  | bind ?m _ => scrutinee m
  | catch ?m _ => scrutinee m
  | await _ ?r => scrutinee r
  | negb ?b => scrutinee b
  | _ => t
  end.

(** Follows a run to each of its ends, splitting on what the service
    answers and on what the checks find, and leaves one goal for each
    end. *)
Ltac explore :=
  run_cbn;
  lazymatch goal with
  | |- ?P ?r =>
      let s := scrutinee r in
      lazymatch s with
      | (_, _) => idtac
      | Risk.validatePolicy ?p =>
          let tv := fresh "tv" in let ov := fresh "ov" in
          let Hv := fresh "Hv" in let msg := fresh "msg" in
          destruct (risk_validate_profile p)
            as (tv & ov & Hv & ? & ? & [[-> ?] | [-> (msg & ?)]]);
          rewrite Hv; explore
      | Credit.validatePolicy ?p =>
          let tv := fresh "tv" in let ov := fresh "ov" in
          let Hv := fresh "Hv" in let msg := fresh "msg" in
          destruct (credit_validate_profile p)
            as (tv & ov & Hv & ? & ? & [[-> ?] | [-> (msg & ?)]]);
          rewrite Hv; explore
      | Risk.checkFreshness ?h ?c ?f ?p ?n =>
          let tf := fresh "tf" in let outc := fresh "outc" in
          let Hf := fresh "Hf" in let msg := fresh "msg" in
          destruct (risk_freshness_profile h c f p n)
            as (tf & outc & Hf & ? & ?
                & [(-> & ? & ?) | (-> & (msg & ?) & ?)]);
          rewrite Hf; explore
      | Credit.checkFreshness ?h ?c ?f ?p ?n =>
          let tf := fresh "tf" in let outc := fresh "outc" in
          let Hf := fresh "Hf" in let msg := fresh "msg" in
          destruct (credit_freshness_profile h c f p n)
            as (tf & outc & Hf & ? & ?
                & [(-> & ? & ?) | (-> & (msg & ?) & ?)]);
          rewrite Hf; explore
      | Risk.displayResults ?h ?c ?p ?s =>
          let td := fresh "td" in let Hd := fresh "Hd" in
          destruct (risk_display_profile h c p s)
            as (td & Hd & ? & ? & ? & ?);
          rewrite Hd; explore
      | Credit.displayResults ?c ?s =>
          let td := fresh "td" in let Hd := fresh "Hd" in
          destruct (credit_display_profile c s)
            as (td & Hd & ? & ? & ? & ?);
          rewrite Hd; explore
      | _ => destruct s eqn:?; explore
      end
  end.

(** Computes an observation on an explicit trace. *)
Ltac observe :=
  unfold stepsOf, callsOf, errorsOf in *; cbn [trace outcome fst snd];
  repeat (progress (cbn -[In]; rewrite ?flat_map_app));
  repeat match goal with
         | H : flat_map _ ?t = _ |- context [flat_map _ ?t] => rewrite H
         end;
  cbn -[In].

Ltac some_prefix :=
  first [ exists true, 0%nat; reflexivity | exists true, 1%nat; reflexivity
        | exists true, 2%nat; reflexivity | exists true, 3%nat; reflexivity
        | exists true, 4%nat; reflexivity | exists true, 5%nat; reflexivity
        | exists true, 6%nat; reflexivity | exists true, 7%nat; reflexivity
        | exists false, 3%nat; reflexivity | exists false, 4%nat; reflexivity
        | exists false, 5%nat; reflexivity | exists false, 6%nat; reflexivity ].

Ltac show_resolved :=
  unfold resolvesTo;
  first [ left; eexists; split; [eassumption | reflexivity]
        | right; split; [assumption|]; left;
          eexists; split; [eassumption | reflexivity]
        | right; split; [assumption|]; right; split; [assumption|];
          eexists; split; [eassumption | symmetry; eassumption]
        | right; split; [assumption|]; right; split; [assumption|];
          eexists; split; [eassumption | reflexivity] ].

Ltac show_cleared :=
  unfold cleared; split; [|split; [|split]];
  [ unfold stopped;
    repeat (match goal with
            | H : ?x = _ |- context [?x] => rewrite H
            end; cbn [truthy_opt negb orb]);
    reflexivity
  | eexists; split; [eassumption | show_resolved]
  | let p := fresh "p" in let Hp := fresh "Hp" in
    intros p Hp;
    first [ discriminate Hp
          | injection Hp as <-;
            match goal with
            | H : _ = (_, Returned true) |- _ => rewrite H; reflexivity
            end ]
  | eassumption ].

Ltac leaf_steps := unfold consecutiveSteps; observe; some_prefix.

Ltac leaf_errors :=
  unfold oneErrorPerExit; observe; first [reflexivity | split; eauto].

Ltac leaf_calls := unfold callsInOrder; observe; reflexivity.

Ltac leaf_success :=
  unfold successMeans; cbn [outcome snd];
  let H := fresh "Hout" in
  intros H; first [ discriminate H
                  | do 4 eexists; split; [eassumption|];
                    split; [|split; [eassumption | split; eassumption]];
                    show_cleared ].

Ltac leaf_issuance :=
  unfold issuanceMeans; observe;
  let job := fresh "job" in let H := fresh "Hin" in
  intros job H;
  repeat (destruct H as [H | H];
          [ first [ discriminate H
                  | injection H as <-;
                    do 2 eexists; split; [eassumption|];
                    split; [reflexivity|]; show_cleared ] | ]);
  contradiction.

Ltac leaf_lookup :=
  unfold lookupMeans; observe; split;
  [ let pid := fresh "pid" in let H := fresh "Hin" in
    intros pid H;
    repeat (destruct H as [H | H];
            [ first [ discriminate H
                    | injection H as <-; eexists;
                      split; [eassumption|]; split; assumption ] | ]);
    contradiction
  | let H := fresh "Hin" in
    intros H;
    repeat (destruct H as [H | H];
            [ first [ discriminate H
                    | do 2 eexists; split; [eassumption|];
                      split; [assumption|]; split; eassumption ] | ]);
    contradiction ].

Ltac leaf_thrown :=
  unfold thrownMeans; cbn [outcome snd];
  let e := fresh "e" in let H := fresh "Hout" in
  intros e H;
  first [ discriminate H
        | injection H as <-;
          first [ left; assumption
                | right; do 2 eexists; split; [eassumption|];
                  split; [eassumption|]; split; [assumption|];
                  first [ left; assumption | right; split; assumption ] ] ].

Ltac leaf_all :=
  unfold sharedRunInvariants;
  split; [leaf_steps|]; split; [leaf_errors|]; split; [leaf_calls|];
  split; [leaf_success|]; split; [leaf_issuance|]; split;
  [leaf_lookup | leaf_thrown].

Lemma risk_run_invariants host client id :
  sharedRunInvariants Risk.validatePolicy Risk.resolvedTtl host client id
    (Risk.verifySharedProof host client id).
Proof.
  unfold Risk.verifySharedProof.
  explore; leaf_all.
Qed.

Lemma credit_run_invariants host client id :
  sharedRunInvariants Credit.validatePolicy Credit.resolvedTtl host client id
    (Credit.verifySharedProof host client id).
Proof.
  unfold Credit.verifySharedProof.
  explore; leaf_all.
Qed.

(** X18: the steps a shared-proof verification announces are numbered
    without a gap, however far the run gets: they are the first steps of
    the complete sequence, in which the validation of the policy is
    step 3 when it takes place and the later steps follow it. *)
Theorem steps_are_numbered_without_gap host client id :
  (exists validated n,
     stepsOf (trace (Risk.verifySharedProof host client id))
     = firstn n (expectedSteps validated)) /\
  (exists validated n,
     stepsOf (trace (Credit.verifySharedProof host client id))
     = firstn n (expectedSteps validated)).
Proof.
  split.
  - exact (proj1 (risk_run_invariants host client id)).
  - exact (proj1 (credit_run_invariants host client id)).
Qed.

(** X19: a shared-proof verification that exits does so with code 1 and
    has written exactly one error line; one that returns has written
    none. *)
Theorem one_error_line_per_exit host client id :
  (forall code, outcome (Risk.verifySharedProof host client id) = Exited code ->
     code = 1 /\
     exists msg, errorsOf (trace (Risk.verifySharedProof host client id)) = [msg]) /\
  (outcome (Risk.verifySharedProof host client id) = Returned tt ->
     errorsOf (trace (Risk.verifySharedProof host client id)) = []) /\
  (forall code, outcome (Credit.verifySharedProof host client id) = Exited code ->
     code = 1 /\
     exists msg, errorsOf (trace (Credit.verifySharedProof host client id)) = [msg]) /\
  (outcome (Credit.verifySharedProof host client id) = Returned tt ->
     errorsOf (trace (Credit.verifySharedProof host client id)) = []).
Proof.
  pose proof (proj1 (proj2 (risk_run_invariants host client id))) as Hr.
  pose proof (proj1 (proj2 (credit_run_invariants host client id))) as Hc.
  unfold oneErrorPerExit in *.
  destruct (outcome (Risk.verifySharedProof host client id));
    destruct (outcome (Credit.verifySharedProof host client id));
    repeat split; intros; try discriminate; try assumption;
    match goal with
    | H : Exited _ = Exited _ |- _ => injection H as <-
    end; tauto.
Qed.

Lemma one_error_line_per_exit_witness :
  errorsOf (trace (Risk.verifySharedProof (sampleHost 1704067200000)
                     (sampleClient revokedProof) "shared-1"))
  = ["Error: This shared proof has been revoked"] /\
  errorsOf (trace (Credit.verifySharedProof (sampleHost 1704067200000)
                     (willingClient bareSharedProof [("approved", VNumber (NumInt 1))])
                     "shared-2")) = [].
Proof.
  destruct (one_error_line_per_exit (sampleHost 1704067200000)
              (sampleClient revokedProof) "shared-1") as (Hexit & _).
  destruct (one_error_line_per_exit (sampleHost 1704067200000)
              (willingClient bareSharedProof [("approved", VNumber (NumInt 1))])
              "shared-2") as (_ & _ & _ & Hret).
  split.
  - destruct (Hexit 1 eq_refl) as (_ & msg & Hmsg). rewrite Hmsg.
    vm_compute in Hmsg. injection Hmsg as <-. reflexivity.
  - apply Hret. reflexivity.
Defined.

(** X20: the calls of a shared-proof verification come in one order,
    each at most once: the fetch of the shared proof, the lookup of the
    policy, the listing of the policies, the issuance of the
    credential, its verification. *)
Theorem calls_come_in_order host client id :
  ascending (map callRank
               (callsOf (trace (Risk.verifySharedProof host client id)))) = true /\
  ascending (map callRank
               (callsOf (trace (Credit.verifySharedProof host client id)))) = true.
Proof.
  split.
  - exact (proj1 (proj2 (proj2 (risk_run_invariants host client id)))).
  - exact (proj1 (proj2 (proj2 (credit_run_invariants host client id)))).
Qed.

(** X21: a shared-proof verification returns only for a proof that is
    neither revoked nor expired and names a policy, whose policy, when
    one was found, passed the validator, that is fresh for the TTL, and
    whose credential the service issued and found valid. *)
Theorem success_means_cleared_and_valid host client id :
  (outcome (Risk.verifySharedProof host client id) = Returned tt ->
   exists sp policy cred vr,
     getSharedProof client id = Resolved sp /\
     cleared Risk.validatePolicy Risk.resolvedTtl host client sp policy /\
     issueProofCredential client (proveJobId sp) = Resolved cred /\
     verifyCredential client (jwt cred) = Resolved vr /\
     valid vr = true) /\
  (outcome (Credit.verifySharedProof host client id) = Returned tt ->
   exists sp policy cred vr,
     getSharedProof client id = Resolved sp /\
     cleared Credit.validatePolicy Credit.resolvedTtl host client sp policy /\
     issueProofCredential client (proveJobId sp) = Resolved cred /\
     verifyCredential client (jwt cred) = Resolved vr /\
     valid vr = true).
Proof.
  split.
  - exact (proj1 (proj2 (proj2 (proj2 (risk_run_invariants host client id))))).
  - exact (proj1 (proj2 (proj2 (proj2 (credit_run_invariants host client id))))).
Qed.

Lemma success_means_cleared_and_valid_witness :
  exists sp policy cred vr,
    getSharedProof (willingClient sharedRiskProof [("riskBand", VNumber (NumInt 2))])
      "shared-1" = Resolved sp /\
    cleared Risk.validatePolicy Risk.resolvedTtl (sampleHost 1704067200000)
      (willingClient sharedRiskProof [("riskBand", VNumber (NumInt 2))])
      sp policy /\
    issueProofCredential
      (willingClient sharedRiskProof [("riskBand", VNumber (NumInt 2))])
      (proveJobId sp) = Resolved cred /\
    verifyCredential
      (willingClient sharedRiskProof [("riskBand", VNumber (NumInt 2))])
      (jwt cred) = Resolved vr /\
    valid vr = true.
Proof.
  apply (proj1 (success_means_cleared_and_valid (sampleHost 1704067200000)
                  (willingClient sharedRiskProof
                     [("riskBand", VNumber (NumInt 2))]) "shared-1")).
  reflexivity.
Defined.

(** X22: a credential is asked for only after everything else has
    passed: every call for the issuance of a credential is for the job
    of a shared proof that is neither revoked nor expired, whose
    policy, when one was found, passed the validator, and that is
    fresh. *)
Theorem credential_only_for_cleared_proof host client id job :
  (In (IssueProofCredential job)
      (callsOf (trace (Risk.verifySharedProof host client id))) ->
   exists sp policy,
     getSharedProof client id = Resolved sp /\ job = proveJobId sp /\
     cleared Risk.validatePolicy Risk.resolvedTtl host client sp policy) /\
  (In (IssueProofCredential job)
      (callsOf (trace (Credit.verifySharedProof host client id))) ->
   exists sp policy,
     getSharedProof client id = Resolved sp /\ job = proveJobId sp /\
     cleared Credit.validatePolicy Credit.resolvedTtl host client sp policy).
Proof.
  split.
  - exact (proj1 (proj2 (proj2 (proj2 (proj2
             (risk_run_invariants host client id))))) job).
  - exact (proj1 (proj2 (proj2 (proj2 (proj2
             (credit_run_invariants host client id))))) job).
Qed.

Lemma credential_only_for_cleared_proof_witness :
  exists sp policy,
    getSharedProof (willingClient bareSharedProof []) "shared-2" = Resolved sp /\
    "job-2" = proveJobId sp /\
    cleared Credit.validatePolicy Credit.resolvedTtl (sampleHost 1704067200000)
      (willingClient bareSharedProof []) sp policy.
Proof.
  apply (proj2 (credential_only_for_cleared_proof (sampleHost 1704067200000)
                  (willingClient bareSharedProof []) "shared-2" "job-2")).
  vm_compute. tauto.
Defined.

(** X23: the policy is looked up only when the shared proof embeds
    none, and the listing of all policies is asked for only when the
    service has no policy for the id. *)
Theorem policy_lookup_only_when_needed host client id :
  (forall pid,
     In (GetPolicy pid) (callsOf (trace (Risk.verifySharedProof host client id))) \/
     In (GetPolicy pid) (callsOf (trace (Credit.verifySharedProof host client id))) ->
     exists sp, getSharedProof client id = Resolved sp /\
                policySpec sp = None /\ policyId (proveJob sp) = Some pid) /\
  (In ListPolicies (callsOf (trace (Risk.verifySharedProof host client id))) \/
   In ListPolicies (callsOf (trace (Credit.verifySharedProof host client id))) ->
     exists sp pid, getSharedProof client id = Resolved sp /\
                    policySpec sp = None /\ policyId (proveJob sp) = Some pid /\
                    getPolicy client pid = Resolved None).
Proof.
  destruct (proj1 (proj2 (proj2 (proj2 (proj2 (proj2
              (risk_run_invariants host client id)))))))
    as [Hr1 Hr2].
  destruct (proj1 (proj2 (proj2 (proj2 (proj2 (proj2
              (credit_run_invariants host client id)))))))
    as [Hc1 Hc2].
  split.
  - intros pid [H | H]; auto.
  - intros [H | H]; auto.
Qed.

Lemma policy_lookup_only_when_needed_witness :
  exists sp pid,
    getSharedProof (willingClient bareSharedProof []) "shared-2" = Resolved sp /\
    policySpec sp = None /\ policyId (proveJob sp) = Some pid /\
    getPolicy (willingClient bareSharedProof []) pid = Resolved None.
Proof.
  apply (proj2 (policy_lookup_only_when_needed (sampleHost 1704067200000)
                  (willingClient bareSharedProof []) "shared-2")).
  right. vm_compute. tauto.
Defined.

(** X24: issuance and verification failures never escape as exceptions:
    an exception leaves a shared-proof verification only when the fetch
    of the shared proof, the lookup of the policy or the listing of the
    policies is rejected, and it carries the message of that
    rejection. *)
Theorem only_lookups_throw host client id e :
  outcome (Risk.verifySharedProof host client id) = Thrown e \/
  outcome (Credit.verifySharedProof host client id) = Thrown e ->
  getSharedProof client id = Rejected e \/
  exists sp pid,
    getSharedProof client id = Resolved sp /\
    policyId (proveJob sp) = Some pid /\
    policySpec sp = None /\
    (getPolicy client pid = Rejected e \/
     (getPolicy client pid = Resolved None /\ listPolicies client = Rejected e)).
Proof.
  intros [H | H].
  - exact (proj2 (proj2 (proj2 (proj2 (proj2 (proj2
             (risk_run_invariants host client id)))))) e H).
  - exact (proj2 (proj2 (proj2 (proj2 (proj2 (proj2
             (credit_run_invariants host client id)))))) e H).
Qed.

Lemma only_lookups_throw_witness :
  getSharedProof unreachableClient "shared-1" = Rejected "fetch failed" \/
  exists sp pid,
    getSharedProof unreachableClient "shared-1" = Resolved sp /\
    policyId (proveJob sp) = Some pid /\
    policySpec sp = None /\
    (getPolicy unreachableClient pid = Rejected "fetch failed" \/
     (getPolicy unreachableClient pid = Resolved None /\
      listPolicies unreachableClient = Rejected "fetch failed")).
Proof.
  apply (@only_lookups_throw (sampleHost 0) unreachableClient "shared-1"
           "fetch failed").
  left. reflexivity.
Defined.
(** The same, leaving out the ends that contradict what is known. *)
Ltac explore_known :=
  run_cbn;
  lazymatch goal with
  | |- ?P ?r =>
      let s := scrutinee r in
      lazymatch s with
      | (_, _) => idtac
      | Risk.validatePolicy ?p =>
          let tv := fresh "tv" in let ov := fresh "ov" in
          let Hv := fresh "Hv" in let msg := fresh "msg" in
          destruct (risk_validate_profile p)
            as (tv & ov & Hv & ? & ? & [[-> ?] | [-> (msg & ?)]]);
          rewrite Hv; try congruence; explore_known
      | Credit.validatePolicy ?p =>
          let tv := fresh "tv" in let ov := fresh "ov" in
          let Hv := fresh "Hv" in let msg := fresh "msg" in
          destruct (credit_validate_profile p)
            as (tv & ov & Hv & ? & ? & [[-> ?] | [-> (msg & ?)]]);
          rewrite Hv; try congruence; explore_known
      | Risk.checkFreshness ?h ?c ?f ?p ?n =>
          let tf := fresh "tf" in let outc := fresh "outc" in
          let Hf := fresh "Hf" in let msg := fresh "msg" in
          destruct (risk_freshness_profile h c f p n)
            as (tf & outc & Hf & ? & ?
                & [(-> & ? & ?) | (-> & (msg & ?) & ?)]);
          rewrite Hf; try congruence; explore_known
      | Credit.checkFreshness ?h ?c ?f ?p ?n =>
          let tf := fresh "tf" in let outc := fresh "outc" in
          let Hf := fresh "Hf" in let msg := fresh "msg" in
          destruct (credit_freshness_profile h c f p n)
            as (tf & outc & Hf & ? & ?
                & [(-> & ? & ?) | (-> & (msg & ?) & ?)]);
          rewrite Hf; try congruence; explore_known
      | Risk.displayResults ?h ?c ?p ?s =>
          let td := fresh "td" in let Hd := fresh "Hd" in
          destruct (risk_display_profile h c p s)
            as (td & Hd & ? & ? & ? & ?);
          rewrite Hd; explore_known
      | Credit.displayResults ?c ?s =>
          let td := fresh "td" in let Hd := fresh "Hd" in
          destruct (credit_display_profile c s)
            as (td & Hd & ? & ? & ? & ?);
          rewrite Hd; explore_known
      | _ => destruct s eqn:?; try congruence; explore_known
      end
  end.



Ltac find_in H :=
  first [ exact H
        | apply in_or_app; left; exact H
        | apply in_cons; find_in H
        | apply in_or_app; right; find_in H ].

Ltac reconcile :=
  repeat match goal with
         | H : Resolved _ = Resolved _ |- _ =>
             injection H; clear H; intros; subst
         | H : Some _ = Some _ |- _ =>
             injection H; clear H; intros; subst
         | H1 : ?f = Resolved _, H2 : ?f = Resolved _ |- _ => rewrite H1 in H2
         | H1 : ?f = Some _, H2 : ?f = Some _ |- _ => rewrite H1 in H2
         end.

Section Cleared.

Variables (host : Host) (client : BindClient) (id : string).
Variables (sp : SharedProof) (policy : option PolicyLike).
Variables (cred : Credential) (vr : VerifyResult).

Hypothesis Hget : getSharedProof client id = Resolved sp.
Hypothesis Hissue : issueProofCredential client (proveJobId sp) = Resolved cred.
Hypothesis Hverify : verifyCredential client (jwt cred) = Resolved vr.
Hypothesis Hvalid : valid vr = true.

Ltac known_calls :=
  observe; unfold resolutionCalls;
  repeat match goal with
         | H : ?x = _ |- context [?x] => rewrite H
         end;
  reflexivity.

Ltac split_cleared Hc :=
  let Hstop := fresh "Hstop" in
  destruct Hc as (Hstop & (pid & Hpid & Hres) & Hval & Hfresh);
  unfold stopped in Hstop;
  apply orb_false_iff in Hstop; destruct Hstop as [Hstop Hlinked];
  apply orb_false_iff in Hstop; destruct Hstop as [Hrev Hexp];
  rewrite Hpid in Hlinked; cbn in Hlinked; apply negb_false_iff in Hlinked.

Lemma risk_cleared_run :
  cleared Risk.validatePolicy Risk.resolvedTtl host client sp policy ->
  let r := Risk.verifySharedProof host client id in
  outcome r = Returned tt /\
  In (Log ("  Risk Band: " ++ Risk.resolveBandLabel host (claims vr) policy))
     (trace r) /\
  stepsOf (trace r)
  = expectedSteps (match policy with Some _ => true | None => false end) /\
  callsOf (trace r)
  = GetSharedProof id
    :: app (match policyId (proveJob sp) with
            | Some pid => resolutionCalls client sp pid
            | None => []
            end)
           [IssueProofCredential (proveJobId sp); VerifyCredential (jwt cred)].
Proof.
  intros Hc. split_cleared Hc.
  assert (Hval' : forall p, policy = Some p ->
            exists t, Risk.validatePolicy p = (t, Returned true)).
  { intros p Hp. specialize (Hval p Hp).
    destruct (Risk.validatePolicy p) as [t o]. simpl in Hval. subst o. eauto. }
  clear Hval.
  destruct Hres as [(p & Hspec & ->)
                   | (Hspec & [(p & Hfetch & ->)
                              | (Hfetch & all & Hlist & ->)])];
    try (destruct (Hval' p eq_refl) as (tp & Hvp));
    try (destruct (findPolicy pid all) as [p|] eqn:Hfind;
         [destruct (Hval' p eq_refl) as (tp & Hvp)|]);
    clear Hval';
    cbv zeta; pattern (Risk.verifySharedProof host client id);
    match goal with |- ?P _ => remember P as Q eqn:HQ end;
    unfold Risk.verifySharedProof;
    explore_known; reconcile;
    try subst Q; cbv beta;
    (split; [reflexivity|]);
    (split; [cbn [trace fst];
             match goal with
             | H : In (Log (_ ++ Risk.resolveBandLabel _ _ _)) _ |- _ =>
                 find_in H
             end
            | split; [observe; reflexivity | known_calls] ]).
Qed.

Lemma credit_cleared_run :
  cleared Credit.validatePolicy Credit.resolvedTtl host client sp policy ->
  let r := Credit.verifySharedProof host client id in
  outcome r = Returned tt /\
  (forall entry, In entry (claims vr) ->
     In (Log (Credit.claimLine entry)) (trace r)) /\
  stepsOf (trace r)
  = expectedSteps (match policy with Some _ => true | None => false end) /\
  callsOf (trace r)
  = GetSharedProof id
    :: app (match policyId (proveJob sp) with
            | Some pid => resolutionCalls client sp pid
            | None => []
            end)
           [IssueProofCredential (proveJobId sp); VerifyCredential (jwt cred)].
Proof.
  intros Hc. split_cleared Hc.
  assert (Hval' : forall p, policy = Some p ->
            exists t, Credit.validatePolicy p = (t, Returned true)).
  { intros p Hp. specialize (Hval p Hp).
    destruct (Credit.validatePolicy p) as [t o]. simpl in Hval. subst o. eauto. }
  clear Hval.
  destruct Hres as [(p & Hspec & ->)
                   | (Hspec & [(p & Hfetch & ->)
                              | (Hfetch & all & Hlist & ->)])];
    try (destruct (Hval' p eq_refl) as (tp & Hvp));
    try (destruct (findPolicy pid all) as [p|] eqn:Hfind;
         [destruct (Hval' p eq_refl) as (tp & Hvp)|]);
    clear Hval';
    cbv zeta; pattern (Credit.verifySharedProof host client id);
    match goal with |- ?P _ => remember P as Q eqn:HQ end;
    unfold Credit.verifySharedProof;
    explore_known; reconcile;
    try subst Q; cbv beta;
    (split; [reflexivity|]);
    (split; [cbn [trace fst];
             let entry := fresh "entry" in let He := fresh "He" in
             intros entry He;
             match goal with
             | H : forall e, In e _ -> In (Log (Credit.claimLine e)) _ |- _ =>
                 specialize (H entry He); find_in H
             end
            | split; [observe; reflexivity | known_calls] ]).
Qed.

(** X25: a verification that nothing stops is reported: for a shared
    proof that passes the checks, whose policy, when one is found,
    passes the validator, that is fresh, and whose credential is issued
    and found valid, the run returns; it has announced every step of the
    sequence and made each call once, in order; the vehicle risk
    verifier has reported the band label resolved from the verified
    claims and the policy, the credit verifier a line for every
    verified claim. *)
Theorem cleared_proof_is_reported :
  (cleared Risk.validatePolicy Risk.resolvedTtl host client sp policy ->
   let r := Risk.verifySharedProof host client id in
   outcome r = Returned tt /\
   In (Log ("  Risk Band: " ++ Risk.resolveBandLabel host (claims vr) policy))
      (trace r) /\
   stepsOf (trace r)
   = expectedSteps (match policy with Some _ => true | None => false end) /\
   callsOf (trace r)
   = GetSharedProof id
     :: app (match policyId (proveJob sp) with
             | Some pid => resolutionCalls client sp pid
             | None => []
             end)
            [IssueProofCredential (proveJobId sp);
             VerifyCredential (jwt cred)]) /\
  (cleared Credit.validatePolicy Credit.resolvedTtl host client sp policy ->
   let r := Credit.verifySharedProof host client id in
   outcome r = Returned tt /\
   (forall entry, In entry (claims vr) ->
      In (Log (Credit.claimLine entry)) (trace r)) /\
   stepsOf (trace r)
   = expectedSteps (match policy with Some _ => true | None => false end) /\
   callsOf (trace r)
   = GetSharedProof id
     :: app (match policyId (proveJob sp) with
             | Some pid => resolutionCalls client sp pid
             | None => []
             end)
            [IssueProofCredential (proveJobId sp);
             VerifyCredential (jwt cred)]).
Proof.
  split; [exact risk_cleared_run | exact credit_cleared_run].
Qed.

End Cleared.

Lemma cleared_proof_is_reported_witness :
  In (Log "  Risk Band: LOW")
     (trace (Risk.verifySharedProof (sampleHost 1704067200000)
               (willingClient sharedRiskProof [("riskBand", VNumber (NumInt 2))])
               "shared-1")) /\
  callsOf (trace (Credit.verifySharedProof (sampleHost 1704067200000)
                    (willingClient bareSharedProof [("approved", VBool true)])
                    "shared-2"))
  = [GetSharedProof "shared-2"; GetPolicy "bind.demo.credit-score";
     ListPolicies; IssueProofCredential "job-2";
     VerifyCredential "header.payload.signature"].
Proof.
  split.
  - refine (proj1 (proj2 (proj1 (@cleared_proof_is_reported
        (sampleHost 1704067200000)
        (willingClient sharedRiskProof [("riskBand", VNumber (NumInt 2))])
        "shared-1" sharedRiskProof (Some (riskPolicy (Some "P90D")))
        sampleCredential (sampleVerified [("riskBand", VNumber (NumInt 2))])
        eq_refl eq_refl eq_refl eq_refl) _))).
    unfold cleared. split; [reflexivity|]. split; [|split].
    + exists "bind.mobility.basicriskband". split; [reflexivity|].
      left. eexists. split; reflexivity.
    + intros p [= <-]. reflexivity.
    + reflexivity.
  - refine (proj2 (proj2 (proj2 (proj2 (@cleared_proof_is_reported
        (sampleHost 1704067200000)
        (willingClient bareSharedProof [("approved", VBool true)])
        "shared-2" bareSharedProof None
        sampleCredential (sampleVerified [("approved", VBool true)])
        eq_refl eq_refl eq_refl eq_refl) _)))).
    unfold cleared. split; [reflexivity|]. split; [|split].
    + exists "bind.demo.credit-score". split; [reflexivity|].
      right. split; [reflexivity|]. right. split; [reflexivity|].
      exists []. split; reflexivity.
    + intros p [=].
    + reflexivity.
Defined.

(** ** Whole runs of the direct verification *)

Lemma sharedItems_lift (t : list Item) :
  flat_map (fun i : DirectItem =>
              match i with inl x => [x] | inr _ => [] end) (map inl t) = t.
Proof.
  induction t as [|i t IH]; [reflexivity|].
  simpl. now rewrite IH.
Qed.

Lemma directCallsOf_lift (t : list Item) :
  flat_map (fun i : DirectItem =>
              match i with inr c => [c] | inl _ => [] end) (map inl t) = [].
Proof.
  induction t as [|i t IH]; [reflexivity|].
  simpl. exact IH.
Qed.

Ltac direct_cbn :=
  cbn -[truthy_opt truthy repeat_ append Z_to_string findPolicy
        Risk.validatePolicy Risk.checkFreshness Risk.displayResults
        Credit.validatePolicy Credit.checkFreshness Credit.displayResults
        directRunInvariants sharedItems directCallsOf
        stepsOf callsOf errorsOf In String.eqb].

Ltac direct_scrutinee t :=
  lazymatch t with
  | match ?x with _ => _ end => direct_scrutinee x
  | dbind ?m _ => direct_scrutinee m
  | dcatch ?m _ => direct_scrutinee m
  | dawait _ ?r => direct_scrutinee r
  | liftRun ?m => direct_scrutinee m
  | bind ?m _ => direct_scrutinee m
  | catch ?m _ => direct_scrutinee m
  | await _ ?r => direct_scrutinee r
  | outcome ?m => direct_scrutinee m
  | trace ?m => direct_scrutinee m
  | fst ?m => direct_scrutinee m
  | snd ?m => direct_scrutinee m
  | negb ?b => direct_scrutinee b
  | _ => t
  end.

(** Follows a direct run to each of its ends. *)
Ltac direct_explore :=
  direct_cbn;
  lazymatch goal with
  | |- ?P ?r =>
      let s := direct_scrutinee r in
      lazymatch s with
      | (_, _) => idtac
      | Risk.validatePolicy ?p =>
          let tv := fresh "tv" in let ov := fresh "ov" in
          let Hv := fresh "Hv" in let msg := fresh "msg" in
          destruct (risk_validate_profile p)
            as (tv & ov & Hv & ? & ? & [[-> ?] | [-> (msg & ?)]]);
          rewrite Hv; direct_explore
      | Credit.validatePolicy ?p =>
          let tv := fresh "tv" in let ov := fresh "ov" in
          let Hv := fresh "Hv" in let msg := fresh "msg" in
          destruct (credit_validate_profile p)
            as (tv & ov & Hv & ? & ? & [[-> ?] | [-> (msg & ?)]]);
          rewrite Hv; direct_explore
      | Risk.checkFreshness ?h ?c ?f ?p ?n =>
          let tf := fresh "tf" in let outc := fresh "outc" in
          let Hf := fresh "Hf" in let msg := fresh "msg" in
          destruct (risk_freshness_profile h c f p n)
            as (tf & outc & Hf & ? & ?
                & [(-> & ? & ?) | (-> & (msg & ?) & ?)]);
          rewrite Hf; direct_explore
      | Credit.checkFreshness ?h ?c ?f ?p ?n =>
          let tf := fresh "tf" in let outc := fresh "outc" in
          let Hf := fresh "Hf" in let msg := fresh "msg" in
          destruct (credit_freshness_profile h c f p n)
            as (tf & outc & Hf & ? & ?
                & [(-> & ? & ?) | (-> & (msg & ?) & ?)]);
          rewrite Hf; direct_explore
      | Risk.displayResults ?h ?c ?p ?s =>
          let td := fresh "td" in let Hd := fresh "Hd" in
          destruct (risk_display_profile h c p s)
            as (td & Hd & ? & ? & ? & ?);
          rewrite Hd; direct_explore
      | Credit.displayResults ?c ?s =>
          let td := fresh "td" in let Hd := fresh "Hd" in
          destruct (credit_display_profile c s)
            as (td & Hd & ? & ? & ? & ?);
          rewrite Hd; direct_explore
      | _ => destruct s eqn:?; direct_explore
      end
  end.


(** Computes an observation on an explicit direct trace. *)
Ltac direct_observe :=
  unfold directTrace, directOutcome, sharedItems, directCallsOf,
    stepsOf, callsOf, errorsOf in *;
  cbn [fst snd];
  repeat (progress (cbn -[In directCleared];
                    rewrite ?flat_map_app, ?sharedItems_lift,
                      ?directCallsOf_lift));
  repeat match goal with
         | H : flat_map _ ?t = _ |- context [flat_map _ ?t] => rewrite H
         end;
  cbn -[In directCleared].

Ltac use_known :=
  repeat (match goal with
          | H : Circuit.policyId _ = _ |- _ => rewrite H
          | H : truthy _ = _ |- _ => rewrite H
          | H : getPolicy _ _ = _ |- _ => rewrite H
          | H : listPolicies _ = _ |- _ => rewrite H
          | H : findPolicy _ _ = _ |- _ => rewrite H
          end; cbv beta iota).

Ltac use_known_in Hv Hf :=
  repeat (match goal with
          | H : Circuit.policyId _ = _ |- _ => rewrite H in Hv; rewrite H in Hf
          | H : truthy _ = _ |- _ => rewrite H in Hv; rewrite H in Hf
          | H : getPolicy _ _ = _ |- _ => rewrite H in Hv; rewrite H in Hf
          | H : listPolicies _ = _ |- _ => rewrite H in Hv; rewrite H in Hf
          | H : findPolicy _ _ = _ |- _ => rewrite H in Hv; rewrite H in Hf
          end; cbv beta iota in Hv, Hf).

Ltac show_direct_cleared :=
  unfold directCleared;
  split; [eassumption|];
  split; [apply String.eqb_eq; assumption|];
  split; [eassumption|];
  unfold directPolicy; use_known;
  split;
  [ let p := fresh "p" in let Hp := fresh "Hp" in
    intros p Hp;
    first [ discriminate Hp
          | injection Hp as <-;
            match goal with
            | H : _ = (_, Returned true) |- _ => rewrite H; reflexivity
            end ]
  | assumption ].

(** What is known of the run contradicts that the job is cleared. *)
Ltac refute_cleared Hcl :=
  let Hj := fresh "Hj" in let Hs := fresh "Hs" in
  let Hc := fresh "Hc" in let Hv := fresh "Hv" in let Hf := fresh "Hf" in
  destruct Hcl as (Hj & Hs & Hc & Hv & Hf);
  match goal with
  | H : getProveJob _ _ = _ |- _ =>
      tryif constr_eq H Hj then fail else rewrite H in Hj
  end;
  first [ discriminate Hj | injection Hj as <- ];
  first
    [ match goal with
      | H : (_ =? "completed")%string = false |- _ =>
          apply String.eqb_neq in H; contradiction
      end
    | match goal with
      | H : getCircuit _ _ = _ |- _ =>
          tryif constr_eq H Hc then fail else rewrite H in Hc
      end;
      first
        [ discriminate Hc
        | injection Hc as <-;
          unfold directPolicy in Hv, Hf;
          use_known_in Hv Hf;
          first
            [ congruence
            | match goal with
              | H : _ = (_, Exited 1) |- _ =>
                  specialize (Hv _ eq_refl); rewrite H in Hv;
                  discriminate Hv
              end ] ] ].

Ltac leaf_direct_thrown :=
  unfold directThrownMeans, directOutcome; cbn [snd];
  let e := fresh "e" in let H := fresh "Hout" in
  intros e H;
  first [ discriminate H
        | injection H as <-;
          first [ left; assumption
                | right; eexists; split; [eassumption|];
                  split; [apply String.eqb_eq; assumption | assumption] ] ].

Ltac leaf_direct_issuance :=
  unfold directIssuanceMeans; direct_observe;
  let j := fresh "j" in intros j; split;
  [ let H := fresh "Hin" in
    intros H;
    repeat (destruct H as [H | H];
            [ first [ discriminate H
                    | injection H as <-;
                      split; [reflexivity|];
                      do 2 eexists; show_direct_cleared ] | ]);
    contradiction
  | let job := fresh "job" in let circuit := fresh "circuit" in
    let Hcl := fresh "Hcl" in
    intros (-> & job & circuit & Hcl);
    first [ solve [ repeat first [ left; reflexivity | right ] ]
          | exfalso; refute_cleared Hcl ] ].

Ltac leaf_direct_success :=
  unfold directSuccessMeans, directOutcome; cbn [snd]; split;
  [ let H := fresh "Hout" in
    intros H;
    first [ discriminate H
          | do 4 eexists; split; [show_direct_cleared|];
            split; [eassumption | split; eassumption] ]
  | let job := fresh "job" in let circuit := fresh "circuit" in
    let cred := fresh "cred" in let vr := fresh "vr" in
    let Hcl := fresh "Hcl" in let Hi := fresh "Hi" in
    let Hr := fresh "Hr" in let Hok := fresh "Hok" in
    intros (job & circuit & cred & vr & Hcl & Hi & Hr & Hok);
    first [ reflexivity
          | exfalso;
            first [ refute_cleared Hcl
                  | match goal with
                    | H : issueProofCredential _ _ = _ |- _ =>
                        tryif constr_eq H Hi then fail else rewrite H in Hi
                    end;
                    first [ discriminate Hi
                          | injection Hi as <-;
                            match goal with
                            | H : verifyCredential _ _ = _ |- _ =>
                                tryif constr_eq H Hr then fail
                                else rewrite H in Hr
                            end;
                            first [ discriminate Hr
                                  | injection Hr as <-; congruence ] ] ] ] ].

Ltac leaf_direct_fetch :=
  unfold noSharedFetch; direct_observe;
  let sid := fresh "sid" in let H := fresh "Hin" in
  intros sid H;
  repeat (destruct H as [H | H]; [discriminate H|]);
  contradiction.

Ltac leaf_direct :=
  unfold directRunInvariants;
  split; [leaf_direct_thrown|]; split; [leaf_direct_issuance|];
  split; [leaf_direct_success | leaf_direct_fetch].

Lemma risk_direct_invariants host client id :
  directRunInvariants Risk.validatePolicy Risk.resolvedTtl host client id
    (RiskDirect.verifyDirect host client id).
Proof.
  unfold RiskDirect.verifyDirect.
  direct_explore; leaf_direct.
Qed.

Lemma credit_direct_invariants host client id :
  directRunInvariants Credit.validatePolicy Credit.resolvedTtl host client id
    (CreditDirect.verifyDirect host client id).
Proof.
  unfold CreditDirect.verifyDirect.
  direct_explore; leaf_direct.
Qed.

(** X26: a job that is not completed is refused before anything else is
    asked of the service: the direct verification exits with code 1,
    its one call is the fetch of the job, and its one error line quotes
    the status of the job. *)
Theorem incomplete_job_is_refused host client id job :
  getProveJob client id = Resolved job ->
  ProveJob.status job <> "completed" ->
  let refusal :=
    "Error: Job status is " ++ dquote ++ ProveJob.status job ++ dquote
    ++ " " ++ emDash ++ " only completed jobs can be verified" in
  (let r := RiskDirect.verifyDirect host client id in
   directOutcome r = Exited 1 /\
   directCallsOf (directTrace r) = [GetProveJob id] /\
   callsOf (sharedItems (directTrace r)) = [] /\
   errorsOf (sharedItems (directTrace r)) = [refusal]) /\
  (let r := CreditDirect.verifyDirect host client id in
   directOutcome r = Exited 1 /\
   directCallsOf (directTrace r) = [GetProveJob id] /\
   callsOf (sharedItems (directTrace r)) = [] /\
   errorsOf (sharedItems (directTrace r)) = [refusal]).
Proof.
  intros Hjob Hstatus. apply String.eqb_neq in Hstatus.
  unfold RiskDirect.verifyDirect, CreditDirect.verifyDirect.
  rewrite Hjob. direct_cbn. rewrite Hstatus. direct_cbn.
  repeat split; direct_observe; reflexivity.
Qed.

Lemma incomplete_job_is_refused_witness :
  directOutcome
    (RiskDirect.verifyDirect (sampleHost 1704067200000)
       (directClient "pending" []) "job-1") = Exited 1.
Proof.
  refine (proj1 (proj1 (@incomplete_job_is_refused (sampleHost 1704067200000)
                          (directClient "pending" []) "job-1"
                          (sampleJob "pending") _ _))).
  - reflexivity.
  - discriminate.
Defined.

(** X27: in the direct mode the lookups of the policy cannot fail the
    run: an exception leaves a direct verification only when the fetch
    of the job, or the fetch of the circuit of a completed job, is
    rejected, and it carries the message of that rejection.  A rejected
    lookup or listing of the policies is swallowed, as are the failures
    of the issuance and of the verification of the credential. *)
Theorem direct_lookups_do_not_throw host client id e :
  directOutcome (RiskDirect.verifyDirect host client id) = Thrown e \/
  directOutcome (CreditDirect.verifyDirect host client id) = Thrown e ->
  getProveJob client id = Rejected e \/
  exists job,
    getProveJob client id = Resolved job /\
    ProveJob.status job = "completed" /\
    getCircuit client (ProveJob.circuitId job) = Rejected e.
Proof.
  intros [H | H].
  - exact (proj1 (risk_direct_invariants host client id) e H).
  - exact (proj1 (credit_direct_invariants host client id) e H).
Qed.

Lemma direct_lookups_do_not_throw_witness :
  getProveJob unreachableDirectClient "job-1" = Rejected "fetch failed" \/
  exists job,
    getProveJob unreachableDirectClient "job-1" = Resolved job /\
    ProveJob.status job = "completed" /\
    getCircuit unreachableDirectClient (ProveJob.circuitId job)
    = Rejected "fetch failed".
Proof.
  apply (@direct_lookups_do_not_throw (sampleHost 1704067200000)
           unreachableDirectClient "job-1" "fetch failed").
  left. reflexivity.
Defined.

(** X28: a direct verification asks for a credential exactly when the
    job is cleared, and then for the job it was given: the job was
    fetched and is completed, its circuit was fetched, the policy of
    the circuit, when the best-effort lookup found one, passed the
    validator, and the proof is fresh for the TTL of that policy, or
    for the default TTL when no policy was found. *)
Theorem direct_credential_iff_cleared host client id j :
  (In (IssueProofCredential j)
      (callsOf (sharedItems
                  (directTrace (RiskDirect.verifyDirect host client id))))
   <-> j = id /\
       exists job circuit,
         directCleared Risk.validatePolicy Risk.resolvedTtl
           host client id job circuit) /\
  (In (IssueProofCredential j)
      (callsOf (sharedItems
                  (directTrace (CreditDirect.verifyDirect host client id))))
   <-> j = id /\
       exists job circuit,
         directCleared Credit.validatePolicy Credit.resolvedTtl
           host client id job circuit).
Proof.
  split.
  - exact (proj1 (proj2 (risk_direct_invariants host client id)) j).
  - exact (proj1 (proj2 (credit_direct_invariants host client id)) j).
Qed.

Lemma sample_job_is_cleared validate resolvedTtl (cs : Claims) :
  leNumber (Some 0) (resolvedTtl None) = true ->
  directCleared validate resolvedTtl (sampleHost 1704067200000)
    (directClient "completed" cs) "job-1" (sampleJob "completed")
    sampleCircuit.
Proof.
  intros Hfresh. unfold directCleared.
  repeat split; try reflexivity.
  - intros p Hp. vm_compute in Hp. discriminate Hp.
  - exact Hfresh.
Qed.

Lemma direct_credential_iff_cleared_witness :
  In (IssueProofCredential "job-1")
     (callsOf (sharedItems
        (directTrace (RiskDirect.verifyDirect (sampleHost 1704067200000)
                        (directClient "completed" []) "job-1")))).
Proof.
  apply (proj1 (direct_credential_iff_cleared (sampleHost 1704067200000)
                  (directClient "completed" []) "job-1" "job-1")).
  split; [reflexivity|].
  exists (sampleJob "completed"), sampleCircuit.
  apply sample_job_is_cleared. reflexivity.
Defined.

(** X29: a direct verification returns exactly when the job is cleared,
    the service issues a credential for it, and the service verifies
    that credential and finds it valid; in every other case it exits
    or throws. *)
Theorem direct_success_iff host client id :
  (directOutcome (RiskDirect.verifyDirect host client id) = Returned tt <->
   exists job circuit cred vr,
     directCleared Risk.validatePolicy Risk.resolvedTtl
       host client id job circuit /\
     issueProofCredential (shared client) id = Resolved cred /\
     verifyCredential (shared client) (jwt cred) = Resolved vr /\
     valid vr = true) /\
  (directOutcome (CreditDirect.verifyDirect host client id) = Returned tt <->
   exists job circuit cred vr,
     directCleared Credit.validatePolicy Credit.resolvedTtl
       host client id job circuit /\
     issueProofCredential (shared client) id = Resolved cred /\
     verifyCredential (shared client) (jwt cred) = Resolved vr /\
     valid vr = true).
Proof.
  split.
  - exact (proj1 (proj2 (proj2 (risk_direct_invariants host client id)))).
  - exact (proj1 (proj2 (proj2 (credit_direct_invariants host client id)))).
Qed.

Lemma direct_success_iff_witness :
  directOutcome
    (CreditDirect.verifyDirect (sampleHost 1704067200000)
       (directClient "completed" [("approved", VBool true)]) "job-1")
  = Returned tt.
Proof.
  apply (proj2 (direct_success_iff (sampleHost 1704067200000)
                  (directClient "completed" [("approved", VBool true)])
                  "job-1")).
  exists (sampleJob "completed"), sampleCircuit, sampleCredential,
    (sampleVerified [("approved", VBool true)]).
  split; [apply sample_job_is_cleared; reflexivity|].
  repeat split; reflexivity.
Defined.

(** ** The entry point *)

Lemma run_eta {A} (r : DirectRun A) : (let (t, o) := r in (t, o)) = r.
Proof. destruct r; reflexivity. Qed.

Ltac split_env env :=
  unfold credentialsGiven, isSet, truthy_opt;
  destruct (env "PROVE_JOB_ID") as [job|] eqn:Hjob;
  [destruct (truthy job) eqn:Hjob'|];
  (destruct (env "BIND_API_KEY") as [key|] eqn:Hkey;
   [destruct (truthy key) eqn:Hkey'|]);
  (destruct (env "SHARED_PROOF_ID") as [proof|] eqn:Hproof;
   [destruct (truthy proof) eqn:Hproof'|]);
  (destruct (env "BIND_VERIFIER_API_KEY") as [vkey|] eqn:Hvkey;
   [destruct (truthy vkey) eqn:Hvkey'|]);
  cbn [andb orb negb].

Ltac main_cbn :=
  cbn -[RiskDirect.verifyDirect CreditDirect.verifyDirect
        Risk.verifySharedProof Credit.verifySharedProof
        truthy sharedItems directCallsOf callsOf errorsOf In];
  rewrite ?run_eta.

Ltac main_observe :=
  unfold directTrace, directOutcome, sharedItems, directCallsOf,
    callsOf, errorsOf;
  cbn [fst snd liftRun]; rewrite ?directCallsOf_lift; try reflexivity.

Lemma risk_main_modes : modeSelection RiskDirect.main.
Proof.
  intros env connect host. split; [|split].
  - intros Hset. split.
    + intros env' H1 H2 H3. unfold RiskDirect.main.
      rewrite H1, H2, H3. unfold isSet in Hset.
      destruct (env "PROVE_JOB_ID") as [job|]; [|discriminate Hset].
      cbn [truthy_opt] in *. rewrite Hset. reflexivity.
    + revert Hset. unfold RiskDirect.main. split_env env;
        intros Hset; try discriminate Hset; rewrite ?Hjob'; main_cbn;
        try (exact (proj2 (proj2 (proj2
                      (risk_direct_invariants host _ job))))); 
        intros sid Hin; main_observe; exact Hin.
  - unfold RiskDirect.main. split_env env;
      intros Hset; try discriminate Hset; rewrite ?Hjob', ?Hproof', ?Hvkey';
      main_cbn; main_observe.
  - unfold RiskDirect.main. split_env env;
      intros Hset; try discriminate Hset;
      rewrite ?Hjob', ?Hproof', ?Hvkey', ?Hkey';
      main_cbn; (split; [reflexivity|]); (split; [reflexivity|]);
      (split; [reflexivity|]); eexists; reflexivity.
Qed.

Lemma credit_main_modes : modeSelection CreditDirect.main.
Proof.
  intros env connect host. split; [|split].
  - intros Hset. split.
    + intros env' H1 H2 H3. unfold CreditDirect.main.
      rewrite H1, H2, H3. unfold isSet in Hset.
      destruct (env "PROVE_JOB_ID") as [job|]; [|discriminate Hset].
      cbn [truthy_opt] in *. rewrite Hset. reflexivity.
    + revert Hset. unfold CreditDirect.main. split_env env;
        intros Hset; try discriminate Hset; rewrite ?Hjob'; main_cbn;
        try (exact (proj2 (proj2 (proj2
                      (credit_direct_invariants host _ job))))); 
        intros sid Hin; main_observe; exact Hin.
  - unfold CreditDirect.main. split_env env;
      intros Hset; try discriminate Hset; rewrite ?Hjob', ?Hproof', ?Hvkey';
      main_cbn; main_observe.
  - unfold CreditDirect.main. split_env env;
      intros Hset; try discriminate Hset;
      rewrite ?Hjob', ?Hproof', ?Hvkey', ?Hkey';
      main_cbn; (split; [reflexivity|]); (split; [reflexivity|]);
      (split; [reflexivity|]); eexists; reflexivity.
Qed.

(** X30: how the entry points choose their mode.  A named job selects
    the direct mode, whatever is set for the shared-proof mode: the run
    depends on the job, its key and the URL only, and fetches no shared
    proof.  Without a named job neither a job nor a circuit is fetched.
    And when the identifier of the mode or its key is missing, the
    process exits with code 1 after one error line, without a call to
    the service. *)
Theorem entry_point_selects_mode :
  modeSelection RiskDirect.main /\ modeSelection CreditDirect.main.
Proof. split; [exact risk_main_modes | exact credit_main_modes]. Qed.

Lemma entry_point_selects_mode_witness :
  directOutcome (RiskDirect.main sampleEnv sampleConnect
                   (sampleHost 1704067200000)) = Exited 1.
Proof.
  apply (proj2 (proj2 (proj1 entry_point_selects_mode
                         sampleEnv sampleConnect (sampleHost 1704067200000)))).
  reflexivity.
Defined.
